(** * python-lsm: the transaction, cursor and slice layer over the LSM engine

    A shallow embedding of the C extension module (the latest snapshot of
    [lsm.c], the one that has [LSM_commit_inner], [LSM_rollback_inner], the
    [LSMTransaction] type and the slice views).

    - C [int]/[long] fields are [Z]; the places where the C code would
      overflow or divide by zero are written out as [PyUndefined].
    - Key and value buffers are [string]s (sequences of 8-bit characters),
      ordered as the engine orders them: bytewise, a proper prefix first.
    - Every function that reads or writes an object takes it as an argument
      and returns the updated object: the [LSM] connection is shared by its
      transactions, cursors and views, so it is threaded through all of them.
    - The engine itself (SQLite's lsm1) is not part of the sources.  It is
      replaced by a reference model that follows the contract of its header:
      a sorted store, a stack of transaction marks, cursors, a script of
      result codes to be returned by the coming calls, and the trace of the
      calls made so far.  Mutex operations are recorded in the same trace;
      the validity query of a cursor, which returns no result code, is
      not. *)

From Stdlib Require Import ZArith List String Ascii Bool Lia.
Import ListNotations.
Local Open Scope Z_scope.

(** ** Result codes and constants of the engine header *)

(** Modelled from the spec: the closed enumeration of result codes of the
    engine contract; [lsm.h] is not among the sources, the numeric values are
    the ones of the lsm1 header. *)
Definition LSM_OK : Z := 0.
Definition LSM_ERROR : Z := 1.
Definition LSM_BUSY : Z := 5.
Definition LSM_NOMEM : Z := 7.
Definition LSM_READONLY : Z := 8.
Definition LSM_IOERR : Z := 10.
Definition LSM_CORRUPT : Z := 11.
Definition LSM_FULL : Z := 13.
Definition LSM_CANTOPEN : Z := 14.
Definition LSM_PROTOCOL : Z := 15.
Definition LSM_MISUSE : Z := 21.
Definition LSM_MISMATCH : Z := 50.
Definition LSM_IOERR_NOENT : Z := Z.lor LSM_IOERR (Z.shiftl 1 8).

(** Modelled from the spec: the four seek modes of the engine contract, with
    the values of the lsm1 header. *)
Definition LSM_SEEK_LEFAST : Z := -2.
Definition LSM_SEEK_LE : Z := -1.
Definition LSM_SEEK_EQ : Z := 0.
Definition LSM_SEEK_GE : Z := 1.

(** Modelled from the spec: the three safety levels (off/normal/full). *)
Definition LSM_SAFETY_OFF : Z := 0.
Definition LSM_SAFETY_NORMAL : Z := 1.
Definition LSM_SAFETY_FULL : Z := 2.

Definition LSM_COMPRESSION_EMPTY : Z := 0.
Definition LSM_COMPRESSION_NONE : Z := 1.

Definition INT_MAX : Z := 2147483647.
Definition INT_MIN : Z := -2147483648.
Definition LONG_MAX : Z := 9223372036854775807.
Definition LONG_MIN : Z := -9223372036854775808.

(** [enum { PY_LSM_INITIALIZED, PY_LSM_OPENED, PY_LSM_CLOSED, PY_LSM_ITERATING }] *)
Definition PY_LSM_INITIALIZED : Z := 0.
Definition PY_LSM_OPENED : Z := 1.
Definition PY_LSM_CLOSED : Z := 2.
Definition PY_LSM_ITERATING : Z := 3.

(** [enum { PY_LSM_SLICE_FORWARD, PY_LSM_SLICE_BACKWARD }] *)
Definition PY_LSM_SLICE_FORWARD : Z := 0.
Definition PY_LSM_SLICE_BACKWARD : Z := 1.

Definition LSM_MAX_AUTOFLUSH : Z := 1048576.
Definition PYLSM_DEFAULT_COMPRESS_LEVEL : Z := -65535.
Definition LZ4_COMP_LEVEL_DEFAULT : Z := 16.
Definition LZ4_COMP_LEVEL_MAX : Z := 16.
Definition PY_LSM_COMPRESSOR_EMPTY : Z := LSM_COMPRESSION_EMPTY.
Definition PY_LSM_COMPRESSOR_NONE : Z := LSM_COMPRESSION_NONE.
Definition PY_LSM_COMPRESSOR_LZ4 : Z := 1024.
Definition PY_LSM_COMPRESSOR_ZSTD : Z := 2048.

(** ** Python values and outcomes *)

Inductive PyExc : Type :=
| RuntimeError | MemoryError | PermissionError | OSError
| FileNotFoundError | SystemError | ValueError | KeyError
| OverflowError | NotImplementedError | StopIteration | TypeError.

(** The objects the modelled functions receive or return. [PyOther] stands
    for any object of another type (an exception class, a float, ...). *)
Inductive PyObject : Type :=
| PyNone
| PyBool (b : bool)
| PyLong (z : Z)
| PyBytes (s : string)
| PyStr (s : string)
| PyPair (a b : PyObject)
| PySlice (start stop step : PyObject)
| PyOther.

Definition Py_True : PyObject := PyBool true.
Definition Py_False : PyObject := PyBool false.

(** What a call of an extension function comes to: a value, a raised
    exception, or behaviour the C standard leaves undefined.  [PyNoFuel] is
    the answer of a loop of the model that was not given enough iterations; the
    theorems show that it does not occur. *)
Inductive PyResult (A : Type) : Type :=
| PyOk (a : A)
| PyRaise (e : PyExc)
| PyUndefined
| PyNoFuel.
Arguments PyOk {A} a.
Arguments PyRaise {A} e.
Arguments PyUndefined {A}.
Arguments PyNoFuel {A}.

(** ** The engine: reference model *)

Definition key : Type := string.
Definition item : Type := (key * string)%type.

Inductive event : Type :=
| EvMutexEnter
| EvMutexLeave
| EvNew
| EvMutexNew
| EvConfig
| EvOpen
| EvFlush
| EvWork
| EvInsert (k : key) (v : string)
| EvDelete (k : key)
| EvDeleteRange (a b : key)
| EvBegin (level : Z)
| EvCommit (level : Z)
| EvRollback (level : Z)
| EvCsrOpen
| EvCsrClose
| EvCsrSeek (k : key) (mode : Z)
| EvCsrFirst
| EvCsrLast
| EvCsrNext
| EvCsrPrev
| EvCsrKey
| EvCsrValue
| EvCsrCmp (k : key).

(** [db_store]: the records, sorted by key.  [db_trans]: the marks of the
    open transactions, outermost first; the mark of a transaction is the
    store as it was when the transaction was opened.  [db_faults]: result
    codes the coming engine calls will return (a call made when the script is
    empty succeeds).  [db_trace]: mutex operations and engine calls so far,
    oldest first; the engine calls recorded are the ones that return a result
    code, which leaves out the query [lsm_csr_valid]. *)
Record lsm_db : Type := mk_lsm_db {
  db_store : list item;
  db_trans : list (list item);
  db_faults : list Z;
  db_trace : list event
}.

Definition set_store (s : list item) (db : lsm_db) : lsm_db :=
  mk_lsm_db s (db_trans db) (db_faults db) (db_trace db).
Definition set_trans (t : list (list item)) (db : lsm_db) : lsm_db :=
  mk_lsm_db (db_store db) t (db_faults db) (db_trace db).
Definition set_faults (f : list Z) (db : lsm_db) : lsm_db :=
  mk_lsm_db (db_store db) (db_trans db) f (db_trace db).
Definition log (ev : event) (db : lsm_db) : lsm_db :=
  mk_lsm_db (db_store db) (db_trans db) (db_faults db) (db_trace db ++ [ev]).

(** One call into the engine: it is recorded, and its result code is the
    next one of the script. *)
Definition engine_call (ev : event) (db : lsm_db) : Z * lsm_db :=
  let db1 := log ev db in
  match db_faults db1 with
  | [] => (LSM_OK, db1)
  | rc :: fs => (rc, set_faults fs db1)
  end.

Definition nTransOpen (db : lsm_db) : Z := Z.of_nat (List.length (db_trans db)).

Fixpoint store_insert (k : key) (v : string) (l : list item) : list item :=
  match l with
  | [] => [(k, v)]
  | (k', v') :: r =>
      match String.compare k k' with
      | Lt => (k, v) :: l
      | Eq => (k, v) :: r
      | Gt => (k', v') :: store_insert k v r
      end
  end.

Definition key_eqb (a b : key) : bool :=
  match String.compare a b with Eq => true | _ => false end.

Definition store_delete (k : key) (l : list item) : list item :=
  filter (fun it => negb (key_eqb (fst it) k)) l.

(** [lsm_delete_range]: both bounds are exclusive. *)
Definition store_delete_range (a b : key) (l : list item) : list item :=
  filter (fun it => negb (String.ltb a (fst it) && String.ltb (fst it) b)) l.

Definition lsm_insert (db : lsm_db) (k : key) (v : string) : Z * lsm_db :=
  let '(rc, db1) := engine_call (EvInsert k v) db in
  if rc =? LSM_OK then (rc, set_store (store_insert k v (db_store db1)) db1)
  else (rc, db1).

Definition lsm_delete (db : lsm_db) (k : key) : Z * lsm_db :=
  let '(rc, db1) := engine_call (EvDelete k) db in
  if rc =? LSM_OK then (rc, set_store (store_delete k (db_store db1)) db1)
  else (rc, db1).

Definition lsm_delete_range (db : lsm_db) (a b : key) : Z * lsm_db :=
  let '(rc, db1) := engine_call (EvDeleteRange a b) db in
  if rc =? LSM_OK then (rc, set_store (store_delete_range a b (db_store db1)) db1)
  else (rc, db1).

(** [lsm_begin(db, iLevel)]: afterwards at least [iLevel] transactions are
    open; a negative level opens one more. *)
Definition lsm_begin (db : lsm_db) (iLevel : Z) : Z * lsm_db :=
  let '(rc, db1) := engine_call (EvBegin iLevel) db in
  if rc =? LSM_OK then
    let iLevel := if iLevel <? 0 then nTransOpen db1 + 1 else iLevel in
    let missing := Z.to_nat (iLevel - nTransOpen db1) in
    (rc, set_trans (db_trans db1 ++ repeat (db_store db1) missing) db1)
  else (rc, db1).

(** [lsm_commit(db, iLevel)]: afterwards at most [iLevel] transactions are
    open; a negative level closes the innermost one. *)
Definition lsm_commit (db : lsm_db) (iLevel : Z) : Z * lsm_db :=
  let '(rc, db1) := engine_call (EvCommit iLevel) db in
  if rc =? LSM_OK then
    let iLevel := if iLevel <? 0 then Z.max 0 (nTransOpen db1 - 1) else iLevel in
    (rc, set_trans (firstn (Z.to_nat iLevel) (db_trans db1)) db1)
  else (rc, db1).

(** [lsm_rollback(db, iLevel)]: the store goes back to what it was when
    transaction [iLevel] was opened (the outermost one for level 0), and at
    most [iLevel] transactions stay open: level 1 rolls the top-level
    transaction back and leaves it open. *)
Definition lsm_rollback (db : lsm_db) (iLevel : Z) : Z * lsm_db :=
  let '(rc, db1) := engine_call (EvRollback iLevel) db in
  if rc =? LSM_OK then
    let iLevel := if iLevel <? 0 then Z.max 0 (nTransOpen db1 - 1) else iLevel in
    let idx := Z.to_nat (if iLevel =? 0 then 0 else iLevel - 1) in
    match nth_error (db_trans db1) idx with
    | Some mark =>
        if iLevel <=? nTransOpen db1
        then (rc, set_trans (firstn (Z.to_nat iLevel) (db_trans db1))
                    (set_store mark db1))
        else (rc, db1)
    | None => (rc, db1)
    end
  else (rc, db1).

(** ** The connection object *)

Record LSM : Type := mk_LSM {
  lsm : lsm_db;
  state : Z;
  readonly : Z;
  tx_level : Z;
  binary : bool;
  block_size : Z;
  autoflush : Z;
  autocheckpoint : Z;
  safety : Z;
  compress_level : Z;
  compressed : Z
}.

Definition set_lsm (e : lsm_db) (self : LSM) : LSM :=
  mk_LSM e (state self) (readonly self) (tx_level self) (binary self)
    (block_size self) (autoflush self) (autocheckpoint self) (safety self)
    (compress_level self) (compressed self).
Definition set_state (s : Z) (self : LSM) : LSM :=
  mk_LSM (lsm self) s (readonly self) (tx_level self) (binary self)
    (block_size self) (autoflush self) (autocheckpoint self) (safety self)
    (compress_level self) (compressed self).
Definition set_tx_level (l : Z) (self : LSM) : LSM :=
  mk_LSM (lsm self) (state self) (readonly self) l (binary self)
    (block_size self) (autoflush self) (autocheckpoint self) (safety self)
    (compress_level self) (compressed self).

(** [pylsm_error]: the exception set for a result code, none for [LSM_OK]. *)
Definition pylsm_error (rc : Z) : option PyExc :=
  if rc =? LSM_OK then None
  else if rc =? LSM_ERROR then Some RuntimeError
  else if rc =? LSM_BUSY then Some RuntimeError
  else if rc =? LSM_NOMEM then Some MemoryError
  else if rc =? LSM_READONLY then Some PermissionError
  else if rc =? LSM_IOERR then Some OSError
  else if rc =? LSM_CORRUPT then Some RuntimeError
  else if rc =? LSM_FULL then Some RuntimeError
  else if rc =? LSM_CANTOPEN then Some FileNotFoundError
  else if rc =? LSM_PROTOCOL then Some FileNotFoundError
  else if rc =? LSM_MISUSE then Some RuntimeError
  else if rc =? LSM_MISMATCH then Some RuntimeError
  else if rc =? LSM_IOERR_NOENT then Some SystemError
  else Some RuntimeError.

Definition LSM_MutexLock (self : LSM) : LSM := set_lsm (log EvMutexEnter (lsm self)) self.
Definition LSM_MutexLeave (self : LSM) : LSM := set_lsm (log EvMutexLeave (lsm self)) self.

Definition pylsm_ensure_opened (self : LSM) : option PyExc :=
  if state self =? PY_LSM_OPENED then None else Some RuntimeError.

Definition pylsm_ensure_writable (self : LSM) : option PyExc :=
  match pylsm_ensure_opened self with
  | Some e => Some e
  | None =>
      if negb (readonly self =? 0) then pylsm_error LSM_READONLY else None
  end.

(** ** Transactions on the connection *)

Definition LSM_begin (self : LSM) : PyResult PyObject * LSM :=
  match pylsm_ensure_writable self with
  | Some e => (PyRaise e, self)
  | None =>
      let self := if tx_level self <? 0 then set_tx_level 0 self else self in
      if tx_level self =? INT_MAX then (PyUndefined, self) else
      let level := tx_level self + 1 in
      let '(result, e) := lsm_begin (lsm self) level in
      let self := set_lsm e self in
      match pylsm_error result with
      | Some exc => (PyRaise exc, self)
      | None => (PyOk Py_True, set_tx_level level self)
      end
  end.

Definition LSM_commit_inner (self : LSM) (level : Z) : PyResult PyObject * LSM :=
  match pylsm_ensure_writable self with
  | Some e => (PyRaise e, self)
  | None =>
      let level := if level <? 0 then 0 else level in
      let self := LSM_MutexLock self in
      let '(result, e) := lsm_commit (lsm self) level in
      let self := LSM_MutexLeave (set_lsm e self) in
      match pylsm_error result with
      | Some exc => (PyRaise exc, self)
      | None => (PyOk Py_True, self)
      end
  end.

Definition LSM_rollback_inner (self : LSM) (level : Z) : PyResult PyObject * LSM :=
  match pylsm_ensure_writable self with
  | Some e => (PyRaise e, self)
  | None =>
      let level := if level <? 0 then 0 else level in
      let self := LSM_MutexLock self in
      let '(result, e) := lsm_rollback (lsm self) level in
      let self := LSM_MutexLeave (set_lsm e self) in
      match pylsm_error result with
      | Some exc => (PyRaise exc, self)
      | None => (PyOk Py_True, self)
      end
  end.

Definition LSM_commit (self : LSM) : PyResult PyObject * LSM :=
  let self := if tx_level self <? 0 then set_tx_level 0 self else self in
  LSM_commit_inner self (tx_level self).

Definition LSM_rollback (self : LSM) : PyResult PyObject * LSM :=
  let self := if tx_level self <? 0 then set_tx_level 0 self else self in
  LSM_rollback_inner self (tx_level self).

(** ** The transaction handle *)

Record LSMTransaction : Type := mk_LSMTransaction {
  txn_tx_level : Z;
  txn_state : Z
}.

Definition LSMTransaction_new (db : LSM) : LSMTransaction :=
  mk_LSMTransaction (tx_level db) PY_LSM_INITIALIZED.

(** [LSM_transaction]: [db.transaction()]. *)
Definition LSM_transaction (self : LSM) : PyResult LSMTransaction * LSM :=
  match LSM_begin self with
  | (PyOk _, self') => (PyOk (LSMTransaction_new self'), self')
  | (PyRaise e, self') => (PyRaise e, self')
  | (PyUndefined, self') => (PyUndefined, self')
  | (PyNoFuel, self') => (PyNoFuel, self')
  end.

Definition LSMTransaction_ctx_enter (self : LSMTransaction) (db : LSM)
  : PyResult LSMTransaction :=
  match pylsm_ensure_writable db with
  | Some e => PyRaise e
  | None => PyOk self
  end.

Definition is_None (o : PyObject) : bool :=
  match o with PyNone => true | _ => false end.

(** [LSMTransaction_ctx_exit]: [__exit__(exc_type, exc_value, exc_tb)]; only
    [exc_type] is looked at.  The results of the inner calls are dropped and
    [PyErr_Occurred] decides. *)
Definition LSMTransaction_ctx_exit (self : LSMTransaction) (db : LSM) (exc_type : PyObject)
  : PyResult PyObject * LSMTransaction * LSM :=
  if txn_state self =? PY_LSM_CLOSED then (PyOk PyNone, self, db) else
  let self := mk_LSMTransaction (txn_tx_level self) PY_LSM_CLOSED in
  if is_None exc_type then
    if txn_tx_level self =? INT_MIN then (PyUndefined, self, db) else
    match LSM_commit_inner db (txn_tx_level self - 1) with
    | (PyOk _, db') => (PyOk PyNone, self, db')
    | (PyRaise e, db') => (PyRaise e, self, db')
    | (PyUndefined, db') => (PyUndefined, self, db')
    | (PyNoFuel, db') => (PyNoFuel, self, db')
    end
  else
    match LSM_rollback_inner db (txn_tx_level self) with
    | (PyOk _, db') => (PyOk PyNone, self, db')
    | (PyRaise e, db') => (PyRaise e, self, db')
    | (PyUndefined, db') => (PyUndefined, self, db')
    | (PyNoFuel, db') => (PyNoFuel, self, db')
    end.

(** [LSMTransaction_dealloc]: the destructor; the result of the rollback is
    dropped. *)
Definition LSMTransaction_dealloc (self : LSMTransaction) (db : LSM) : LSM :=
  if negb (txn_state self =? PY_LSM_CLOSED) && negb (state db =? PY_LSM_CLOSED)
  then snd (LSM_rollback_inner db (txn_tx_level self))
  else db.

(** [LSMTransaction_commit]: [lsm_begin] is called on the engine handle
    directly, outside [LSM_MutexLock]/[LSM_MutexLeave]. *)
Definition LSMTransaction_commit (self : LSMTransaction) (db : LSM)
  : PyResult PyObject * LSM :=
  if txn_tx_level self =? INT_MIN then (PyUndefined, db) else
  match LSM_commit_inner db (txn_tx_level self - 1) with
  | (PyOk result, db') =>
      let '(rc, e) := lsm_begin (lsm db') (txn_tx_level self) in
      let db'' := set_lsm e db' in
      match pylsm_error rc with
      | Some exc => (PyRaise exc, db'')
      | None => (PyOk result, db'')
      end
  | (PyRaise e, db') => (PyRaise e, db')
  | (PyUndefined, db') => (PyUndefined, db')
  | (PyNoFuel, db') => (PyNoFuel, db')
  end.

Definition LSMTransaction_rollback (self : LSMTransaction) (db : LSM)
  : PyResult PyObject * LSM :=
  LSM_rollback_inner db (txn_tx_level self).

(** ** Engine cursors: reference model *)

(** A cursor is either at end-of-file (not valid) or on a record, with the
    records before it (nearest first) and after it. *)
Inductive lsm_cursor : Type :=
| CsrEof
| CsrAt (before : list item) (cur : item) (after : list item).

(** [lsm_csr_valid]: the validity query of the engine on a cursor.  It
    returns no result code, and it is the one cursor primitive of the engine
    that is not recorded in the trace.  The wrapper calls it both inside and
    outside its mutex sections ([pylsm_ensure_csr_opened], the first lines of
    the cursor methods and of [__next__] of the views are outside): a trace
    that is unchanged, or whose calls are all under the mutex, says nothing
    about this query. *)
Definition lsm_csr_valid (c : lsm_cursor) : bool :=
  match c with CsrEof => false | CsrAt _ _ _ => true end.

Definition csr_first (l : list item) : lsm_cursor :=
  match l with [] => CsrEof | x :: r => CsrAt [] x r end.

Definition csr_last (l : list item) : lsm_cursor :=
  match rev l with [] => CsrEof | x :: r => CsrAt r x [] end.

Definition csr_next (c : lsm_cursor) : lsm_cursor :=
  match c with
  | CsrAt b x (y :: r) => CsrAt (x :: b) y r
  | _ => CsrEof
  end.

Definition csr_prev (c : lsm_cursor) : lsm_cursor :=
  match c with
  | CsrAt (y :: b) x r => CsrAt b y (x :: r)
  | _ => CsrEof
  end.

(** The least record whose key is greater than or equal to [k]. *)
Fixpoint seek_ge (before l : list item) (k : key) : lsm_cursor :=
  match l with
  | [] => CsrEof
  | x :: r =>
      if String.leb k (fst x) then CsrAt before x r
      else seek_ge (x :: before) r k
  end.

(** The greatest record whose key is less than or equal to [k]; [l] is the
    store in descending order. *)
Fixpoint seek_le (after l : list item) (k : key) : lsm_cursor :=
  match l with
  | [] => CsrEof
  | x :: r =>
      if String.leb (fst x) k then CsrAt r x after
      else seek_le (x :: after) r k
  end.

Fixpoint seek_eq (before l : list item) (k : key) : lsm_cursor :=
  match l with
  | [] => CsrEof
  | x :: r =>
      if key_eqb (fst x) k then CsrAt before x r
      else seek_eq (x :: before) r k
  end.

(** The position a seek reaches in a store; [LSM_SEEK_LEFAST] positions the
    cursor as [LSM_SEEK_LE] does.  No position for a mode that is none of
    the four. *)
Definition csr_seek (l : list item) (k : key) (mode : Z) : option lsm_cursor :=
  if mode =? LSM_SEEK_EQ then Some (seek_eq [] l k)
  else if mode =? LSM_SEEK_GE then Some (seek_ge [] l k)
  else if mode =? LSM_SEEK_LE then Some (seek_le [] (rev l) k)
  else if mode =? LSM_SEEK_LEFAST then Some (seek_le [] (rev l) k)
  else None.

Definition lsm_csr_open (db : lsm_db) : Z * lsm_db * option lsm_cursor :=
  let '(rc, db1) := engine_call EvCsrOpen db in
  if rc =? LSM_OK then (rc, db1, Some CsrEof) else (rc, db1, None).

Definition lsm_csr_close (db : lsm_db) (c : lsm_cursor) : Z * lsm_db :=
  engine_call EvCsrClose db.

Definition lsm_csr_seek (db : lsm_db) (c : lsm_cursor) (k : key) (mode : Z)
  : Z * lsm_db * lsm_cursor :=
  let '(rc, db1) := engine_call (EvCsrSeek k mode) db in
  if rc =? LSM_OK then
    match csr_seek (db_store db1) k mode with
    | Some c' => (rc, db1, c')
    | None => (LSM_MISUSE, db1, c)
    end
  else (rc, db1, c).

Definition lsm_csr_first (db : lsm_db) (c : lsm_cursor) : Z * lsm_db * lsm_cursor :=
  let '(rc, db1) := engine_call EvCsrFirst db in
  if rc =? LSM_OK then (rc, db1, csr_first (db_store db1)) else (rc, db1, c).

Definition lsm_csr_last (db : lsm_db) (c : lsm_cursor) : Z * lsm_db * lsm_cursor :=
  let '(rc, db1) := engine_call EvCsrLast db in
  if rc =? LSM_OK then (rc, db1, csr_last (db_store db1)) else (rc, db1, c).

Definition lsm_csr_next (db : lsm_db) (c : lsm_cursor) : Z * lsm_db * lsm_cursor :=
  let '(rc, db1) := engine_call EvCsrNext db in
  if rc =? LSM_OK then (rc, db1, csr_next c) else (rc, db1, c).

Definition lsm_csr_prev (db : lsm_db) (c : lsm_cursor) : Z * lsm_db * lsm_cursor :=
  let '(rc, db1) := engine_call EvCsrPrev db in
  if rc =? LSM_OK then (rc, db1, csr_prev c) else (rc, db1, c).

(** [lsm_csr_key], [lsm_csr_value]: the buffer of the current record; on a
    cursor that is not valid the model answers [LSM_MISUSE].  A cursor does
    not remember the mode of the seek that placed it: after a seek with
    [LSM_SEEK_LEFAST], where the contract of the engine leaves the value
    unspecified, the model still hands back the value of the record. *)
Definition lsm_csr_key (db : lsm_db) (c : lsm_cursor) : Z * lsm_db * option key :=
  let '(rc, db1) := engine_call EvCsrKey db in
  if rc =? LSM_OK then
    match c with
    | CsrAt _ x _ => (rc, db1, Some (fst x))
    | CsrEof => (LSM_MISUSE, db1, None)
    end
  else (rc, db1, None).

Definition lsm_csr_value (db : lsm_db) (c : lsm_cursor) : Z * lsm_db * option string :=
  let '(rc, db1) := engine_call EvCsrValue db in
  if rc =? LSM_OK then
    match c with
    | CsrAt _ x _ => (rc, db1, Some (snd x))
    | CsrEof => (LSM_MISUSE, db1, None)
    end
  else (rc, db1, None).

Definition cmp_to_Z (c : comparison) : Z :=
  match c with Lt => -1 | Eq => 0 | Gt => 1 end.

(** [lsm_csr_cmp]: negative, zero or positive as the key of the cursor is
    less than, equal to or greater than [k]. *)
Definition lsm_csr_cmp (db : lsm_db) (c : lsm_cursor) (k : key) : Z * lsm_db * Z :=
  let '(rc, db1) := engine_call (EvCsrCmp k) db in
  if rc =? LSM_OK then
    match c with
    | CsrAt _ x _ => (rc, db1, cmp_to_Z (String.compare (fst x) k))
    | CsrEof => (LSM_MISUSE, db1, 0)
    end
  else (rc, db1, 0).

(** ** Argument buffers *)

(** [str_or_bytes_check]: the buffer of a [bytes] object in binary mode, the
    UTF-8 buffer of a [str] object in text mode (a [PyStr] carries its UTF-8
    encoding). *)
Definition str_or_bytes_check (binary : bool) (pObj : PyObject) : PyResult string :=
  if binary then
    match pObj with PyBytes s => PyOk s | _ => PyRaise ValueError end
  else
    match pObj with PyStr s => PyOk s | _ => PyRaise ValueError end.

(** The formats ["y#"] (binary mode) and ["s#"] (text mode) of
    [PyArg_ParseTupleAndKeywords]. *)
Definition parse_buffer (binary : bool) (o : PyObject) : PyResult string :=
  if binary then
    match o with PyBytes s => PyOk s | _ => PyRaise TypeError end
  else
    match o with PyStr s => PyOk s | PyBytes s => PyOk s | _ => PyRaise TypeError end.

Definition too_large (s : string) : bool := INT_MAX <=? Z.of_nat (String.length s).

(** ** Point operations *)

Definition LSM_insert (self : LSM) (k v : PyObject) : PyResult PyObject * LSM :=
  match pylsm_ensure_writable self with
  | Some e => (PyRaise e, self)
  | None =>
      match parse_buffer (binary self) k, parse_buffer (binary self) v with
      | PyOk pKey, PyOk pVal =>
          if too_large pKey then (PyRaise OverflowError, self) else
          if too_large pVal then (PyRaise OverflowError, self) else
          let self := LSM_MutexLock self in
          let '(result, e) := lsm_insert (lsm self) pKey pVal in
          let self := LSM_MutexLeave (set_lsm e self) in
          match pylsm_error result with
          | Some exc => (PyRaise exc, self)
          | None => (PyOk PyNone, self)
          end
      | _, _ => (PyRaise TypeError, self)
      end
  end.

Definition LSM_delete (self : LSM) (k : PyObject) : PyResult PyObject * LSM :=
  match pylsm_ensure_writable self with
  | Some e => (PyRaise e, self)
  | None =>
      match parse_buffer (binary self) k with
      | PyOk pKey =>
          if too_large pKey then (PyRaise OverflowError, self) else
          let self := LSM_MutexLock self in
          let '(result, e) := lsm_delete (lsm self) pKey in
          let self := LSM_MutexLeave (set_lsm e self) in
          match pylsm_error result with
          | Some exc => (PyRaise exc, self)
          | None => (PyOk PyNone, self)
          end
      | _ => (PyRaise TypeError, self)
      end
  end.

(** [pylsm_delitem]: [-1] is the local "not found" answer. *)
Definition pylsm_delitem (db : lsm_db) (pKey : key) : Z * lsm_db :=
  let '(rc, db1, opened) := lsm_csr_open db in
  if negb (rc =? 0) then (rc, db1) else
  match opened with
  | Some cursor =>
      let '(rc, db2, cursor) := lsm_csr_seek db1 cursor pKey LSM_SEEK_EQ in
      if negb (rc =? 0) then (rc, snd (lsm_csr_close db2 cursor)) else
      if negb (lsm_csr_valid cursor) then (-1, snd (lsm_csr_close db2 cursor)) else
      let db3 := snd (lsm_csr_close db2 cursor) in
      let '(rc, db4) := lsm_delete db3 pKey in
      if negb (rc =? 0) then (rc, db4) else (0, db4)
  | None => (rc, db1)
  end.

(** [pylsm_contains]: [0] when the key is there, [-1] when it is not. *)
Definition pylsm_contains (db : lsm_db) (pKey : key) : Z * lsm_db :=
  let '(rc, db1, opened) := lsm_csr_open db in
  if negb (rc =? 0) then (rc, db1) else
  match opened with
  | Some cursor =>
      let '(rc, db2, cursor) := lsm_csr_seek db1 cursor pKey LSM_SEEK_EQ in
      if negb (rc =? 0) then (rc, snd (lsm_csr_close db2 cursor)) else
      let rc := if negb (lsm_csr_valid cursor) then -1 else 0 in
      (rc, snd (lsm_csr_close db2 cursor))
  | None => (rc, db1)
  end.

(** [LSM_set_del_item]: [db[key] = value] when [value] is given, [del db[key]]
    when it is not; the result is the raised exception, if any. *)
Definition LSM_set_del_item (self : LSM) (k : PyObject) (value : option PyObject)
  : option PyExc * LSM :=
  match pylsm_ensure_writable self with
  | Some e => (Some e, self)
  | None =>
      match k with
      | PySlice start stop step =>
          match value with
          | Some _ => (Some NotImplementedError, self)
          | None =>
              if negb (is_None step) then (Some ValueError, self) else
              if is_None start || is_None stop then (Some ValueError, self) else
              match str_or_bytes_check (binary self) start with
              | PyOk pStart =>
                  match str_or_bytes_check (binary self) stop with
                  | PyOk pStop =>
                      if too_large pStart then (Some OverflowError, self) else
                      if too_large pStop then (Some OverflowError, self) else
                      let self := LSM_MutexLock self in
                      let '(rc, e) := lsm_delete_range (lsm self) pStart pStop in
                      let self := LSM_MutexLeave (set_lsm e self) in
                      (pylsm_error rc, self)
                  | _ => (Some ValueError, self)
                  end
              | _ => (Some ValueError, self)
              end
          end
      | _ =>
          match str_or_bytes_check (binary self) k with
          | PyOk pKey =>
              let checked :=
                match value with
                | Some v => match str_or_bytes_check (binary self) v with
                            | PyOk pVal => PyOk (Some pVal)
                            | _ => PyRaise ValueError
                            end
                | None => PyOk None
                end in
              match checked with
              | PyOk pVal =>
                  if too_large pKey then (Some OverflowError, self) else
                  if match pVal with Some b => too_large b | None => false end
                  then (Some OverflowError, self) else
                  let self := LSM_MutexLock self in
                  let '(rc, e) :=
                    match pVal with
                    | None => pylsm_delitem (lsm self) pKey
                    | Some b => lsm_insert (lsm self) pKey b
                    end in
                  let self := LSM_MutexLeave (set_lsm e self) in
                  if rc =? -1 then (Some KeyError, self)
                  else (pylsm_error rc, self)
              | _ => (Some ValueError, self)
              end
          | _ => (Some ValueError, self)
          end
      end
  end.

(** [LSM_contains]: the [sq_contains] slot behind [key in db].  It answers an
    [int]: [1], [0], or [-1] for a raised exception.  When the connection is
    not opened, or the key is not of the type of the connection, it answers
    [0] and leaves the exception set: [PyOk (false, Some e)]. *)
Definition LSM_contains (self : LSM) (k : PyObject)
  : PyResult (bool * option PyExc) * LSM :=
  match pylsm_ensure_opened self with
  | Some e => (PyOk (false, Some e), self)
  | None =>
      match str_or_bytes_check (binary self) k with
      | PyOk pKey =>
          if too_large pKey then (PyRaise OverflowError, self) else
          let self := LSM_MutexLock self in
          let '(rc, e) := pylsm_contains (lsm self) pKey in
          let self := LSM_MutexLeave (set_lsm e self) in
          if rc =? -1 then (PyOk (false, None), self)
          else if rc =? 0 then (PyOk (true, None), self)
          else match pylsm_error rc with
               | Some exc => (PyRaise exc, self)
               | None => (PyUndefined, self)
               end
      | _ => (PyOk (false, Some ValueError), self)
      end
  end.

(** ** Construction of the connection *)

(** [is_power_of_two]: the C function compares [ceil(log2(n))] with
    [floor(log2(n))] in double precision; for a 32-bit [n] both are the exact
    integer logarithms, rounded up and down. *)
Definition is_power_of_two (n : Z) : Z :=
  if n =? 0 then 0
  else if Z.log2_up n =? Z.log2 n then 1 else 0.

Definition to_uint32 (z : Z) : Z := z mod 2 ^ 32.

(** The zstd library is not among the sources; these are its two constants
    used by the level check. *)
Definition ZSTD_CLEVEL_DEFAULT : Z := 3.
Definition ZSTD_maxCLevel : Z := 22.

(** The arguments of [LSM(...)] as [PyArg_ParseTupleAndKeywords] stores them
    in the C fields; the ones that are only handed on to [lsm_config] are
    left out.  [a_logger]: absent, or present and callable or not;
    [a_compress]: the object passed ([PyStr] for a string). *)
Record init_args : Type := mk_init_args {
  a_autoflush : Z;
  a_safety : Z;
  a_block_size : Z;
  a_autocheckpoint : Z;
  a_readonly : Z;
  a_binary : bool;
  a_logger : option bool;
  a_compress : PyObject;
  a_compress_level : Z
}.

Definition default_args : init_args :=
  mk_init_args 1024 LSM_SAFETY_NORMAL 1024 2048 0 true None PyNone
    PYLSM_DEFAULT_COMPRESS_LEVEL.

(** The guard on [block_size] of [LSM_init]. *)
Definition block_size_ok (b : Z) : bool :=
  negb (is_power_of_two (to_uint32 b) =? 0) && (64 <=? b) && (b <? 65537).

(** The choice of the compressor: its id and the level, or [ValueError]. *)
Definition init_compress (compress : PyObject) (level : Z) : PyResult (Z * Z) :=
  match compress with
  | PyNone => PyOk (PY_LSM_COMPRESSOR_EMPTY, level)
  | PyStr s =>
      if String.eqb s "none" then PyOk (PY_LSM_COMPRESSOR_NONE, level)
      else if String.eqb s "lz4" then
        let level := if level =? PYLSM_DEFAULT_COMPRESS_LEVEL
                     then LZ4_COMP_LEVEL_DEFAULT else level in
        if (LZ4_COMP_LEVEL_MAX <? level) || (level <? 1) then PyRaise ValueError
        else PyOk (PY_LSM_COMPRESSOR_LZ4, level)
      else if String.eqb s "zstd" then
        let level := if level =? PYLSM_DEFAULT_COMPRESS_LEVEL
                     then ZSTD_CLEVEL_DEFAULT else level in
        if (ZSTD_maxCLevel <? level) || (level <? 1) then PyRaise ValueError
        else PyOk (PY_LSM_COMPRESSOR_ZSTD, level)
      else PyRaise ValueError
  | _ => PyRaise ValueError
  end.

(** The calls of [lsm_config] at the end of [LSM_init], each checked by
    [pylsm_error]; the first failure ends the construction. *)
Fixpoint lsm_config_all (n : nat) (db : lsm_db) : Z * lsm_db :=
  match n with
  | O => (LSM_OK, db)
  | S n' =>
      let '(rc, db1) := engine_call EvConfig db in
      if rc =? LSM_OK then lsm_config_all n' db1 else (rc, db1)
  end.

(** [LSM_init]: [w] is the engine before [lsm_new]; the validation of the
    arguments comes first, the engine is created and configured afterwards. *)
Definition LSM_init (w : lsm_db) (args : init_args) : option PyExc * LSM :=
  let self := mk_LSM w PY_LSM_INITIALIZED (a_readonly args) 0 (a_binary args)
                (a_block_size args) (a_autoflush args) (a_autocheckpoint args)
                (a_safety args) (a_compress_level args) 0 in
  if LSM_MAX_AUTOFLUSH <? autoflush self then (Some ValueError, self) else
  if autoflush self <? 0 then (Some ValueError, self) else
  if autocheckpoint self <=? 0 then (Some ValueError, self) else
  if negb (block_size_ok (block_size self)) then (Some ValueError, self) else
  if negb ((safety self =? LSM_SAFETY_OFF) || (safety self =? LSM_SAFETY_NORMAL)
           || (safety self =? LSM_SAFETY_FULL))
  then (Some ValueError, self) else
  match init_compress (a_compress args) (compress_level self) with
  | PyOk (compressor_id, level) =>
      let is_compressed := if PY_LSM_COMPRESSOR_NONE <? compressor_id then 1 else 0 in
      let self := mk_LSM w PY_LSM_INITIALIZED (a_readonly args) 0 (a_binary args)
                    (a_block_size args) (a_autoflush args) (a_autocheckpoint args)
                    (a_safety args) level is_compressed in
      if match a_logger args with Some false => true | _ => false end
      then (Some ValueError, self) else
      let '(rc, e) := engine_call EvNew (lsm self) in
      let self := set_lsm e self in
      match pylsm_error rc with
      | Some exc => (Some exc, self)
      | None =>
          let '(rc, e) := engine_call EvMutexNew (lsm self) in
          let self := set_lsm e self in
          match pylsm_error rc with
          | Some exc => (Some exc, self)
          | None =>
              let n := if compressed self =? 0 then 12%nat else 13%nat in
              let '(rc, e) := lsm_config_all n (lsm self) in
              (pylsm_error rc, set_lsm e self)
          end
      end
  | _ => (Some ValueError, self)
  end.

(** [LSM_open]: the engine is opened and, on a writable connection, flushed
    and given one merge pass; none of the three calls is made under the mutex. *)
Definition LSM_open (self : LSM) : PyResult PyObject * LSM :=
  if state self =? PY_LSM_OPENED then (PyRaise RuntimeError, self) else
  if state self =? PY_LSM_CLOSED then (PyRaise RuntimeError, self) else
  let '(result, e) := engine_call EvOpen (lsm self) in
  let self := set_lsm e self in
  match pylsm_error result with
  | Some exc => (PyRaise exc, self)
  | None =>
      if readonly self =? 0 then
        let '(result, e) := engine_call EvFlush (lsm self) in
        let self := set_lsm e self in
        match pylsm_error result with
        | Some exc => (PyRaise exc, self)
        | None =>
            let '(result, e) := engine_call EvWork (lsm self) in
            let self := set_lsm e self in
            match pylsm_error result with
            | Some exc => (PyRaise exc, self)
            | None => (PyOk Py_True, set_state PY_LSM_OPENED self)
            end
        end
      else (PyOk Py_True, set_state PY_LSM_OPENED self)
  end.

(** ** Cursor objects *)

(** The cursor object between [LSMCursor_new] and [LSMCursor_close]: its
    reference to the connection is alive, and the connection is passed along. *)
Record LSMCursor : Type := mk_LSMCursor {
  csr_state : Z;
  cursor : lsm_cursor;
  seek_mode : Z
}.

Definition pylsm_seek_mode_check (mode : Z) : bool :=
  (mode =? LSM_SEEK_EQ) || (mode =? LSM_SEEK_LE) || (mode =? LSM_SEEK_GE)
  || (mode =? LSM_SEEK_LEFAST).

(** [pylsm_ensure_csr_opened]: the first component is the return value being
    non-zero, the second the exception it leaves set.  When the connection is
    not opened the function sets an exception and still returns [0]. *)
Definition pylsm_ensure_csr_opened (self : LSMCursor) (db : LSM) : bool * option PyExc :=
  match pylsm_ensure_opened db with
  | Some e => (false, Some e)
  | None =>
      if (csr_state self =? PY_LSM_OPENED) || (csr_state self =? PY_LSM_ITERATING) then
        if negb (lsm_csr_valid (cursor self)) then (true, Some RuntimeError)
        else (false, None)
      else (true, Some RuntimeError)
  end.

(** A value returned while an exception is set: the interpreter raises
    [SystemError]. *)
Definition py_return (pending : option PyExc) (v : PyObject) : PyResult PyObject :=
  match pending with
  | None => PyOk v
  | Some _ => PyRaise SystemError
  end.

Definition raised (pending : option PyExc) : PyResult PyObject :=
  match pending with
  | Some e => PyRaise e
  | None => PyUndefined
  end.

Definition LSMCursor_new (db : LSM) (mode : Z) : PyResult LSMCursor * LSM :=
  match pylsm_ensure_opened db with
  | Some e => (PyRaise e, db)
  | None =>
      let db := LSM_MutexLock db in
      let '(rc, e, opened) := lsm_csr_open (lsm db) in
      let db := LSM_MutexLeave (set_lsm e db) in
      match pylsm_error rc, opened with
      | Some exc, _ => (PyRaise exc, db)
      | None, None => (PyUndefined, db)
      | None, Some c =>
          let db := LSM_MutexLock db in
          let '(rc, e, c) := lsm_csr_first (lsm db) c in
          let db := LSM_MutexLeave (set_lsm e db) in
          match pylsm_error rc with
          | Some exc => (PyRaise exc, db)
          | None => (PyOk (mk_LSMCursor PY_LSM_OPENED c mode), db)
          end
      end
  end.

(** [LSMCursor_seek]: [mode] is the optional second argument; the field
    [seek_mode] is reset to [LSM_SEEK_EQ] before the arguments are parsed. *)
Definition LSMCursor_seek (self : LSMCursor) (db : LSM) (k : PyObject) (mode : option Z)
  : PyResult PyObject * LSMCursor * LSM :=
  if csr_state self =? PY_LSM_ITERATING then (PyRaise RuntimeError, self, db) else
  let '(failed, pending) := pylsm_ensure_csr_opened self db in
  if failed then (raised pending, self, db) else
  let self := mk_LSMCursor (csr_state self) (cursor self)
                (match mode with Some m => m | None => LSM_SEEK_EQ end) in
  if negb (pylsm_seek_mode_check (seek_mode self)) then (PyRaise ValueError, self, db) else
  match str_or_bytes_check (binary db) k with
  | PyOk pKey =>
      if too_large pKey then (PyRaise OverflowError, self, db) else
      let db := LSM_MutexLock db in
      let '(rc, e, c) := lsm_csr_seek (lsm db) (cursor self) pKey (seek_mode self) in
      let db := LSM_MutexLeave (set_lsm e db) in
      let self := mk_LSMCursor (csr_state self) c (seek_mode self) in
      match pylsm_error rc with
      | Some exc => (PyRaise exc, self, db)
      | None => (py_return pending (PyBool (lsm_csr_valid (cursor self))), self, db)
      end
  | _ => (PyRaise ValueError, self, db)
  end.

Definition LSMCursor_next (self : LSMCursor) (db : LSM)
  : PyResult PyObject * LSMCursor * LSM :=
  if csr_state self =? PY_LSM_ITERATING then (PyRaise RuntimeError, self, db) else
  let '(failed, pending) := pylsm_ensure_csr_opened self db in
  if failed then (raised pending, self, db) else
  if seek_mode self =? LSM_SEEK_EQ then (py_return pending Py_False, self, db) else
  if negb (lsm_csr_valid (cursor self)) then (py_return pending Py_False, self, db) else
  let db := LSM_MutexLock db in
  let '(err, e, c) := lsm_csr_next (lsm db) (cursor self) in
  let db := LSM_MutexLeave (set_lsm e db) in
  let self := mk_LSMCursor (csr_state self) c (seek_mode self) in
  match pylsm_error err with
  | Some exc => (PyRaise exc, self, db)
  | None => (py_return pending (PyBool (lsm_csr_valid (cursor self))), self, db)
  end.

Definition LSMCursor_previous (self : LSMCursor) (db : LSM)
  : PyResult PyObject * LSMCursor * LSM :=
  if csr_state self =? PY_LSM_ITERATING then (PyRaise RuntimeError, self, db) else
  let '(failed, pending) := pylsm_ensure_csr_opened self db in
  if failed then (raised pending, self, db) else
  if seek_mode self =? LSM_SEEK_EQ then (PyRaise RuntimeError, self, db) else
  if negb (lsm_csr_valid (cursor self)) then (py_return pending Py_False, self, db) else
  let db := LSM_MutexLock db in
  let '(err, e, c) := lsm_csr_prev (lsm db) (cursor self) in
  let db := LSM_MutexLeave (set_lsm e db) in
  let self := mk_LSMCursor (csr_state self) c (seek_mode self) in
  match pylsm_error err with
  | Some exc => (PyRaise exc, self, db)
  | None => (py_return pending (PyBool (lsm_csr_valid (cursor self))), self, db)
  end.

Definition py_buffer (binary : bool) (s : string) : PyObject :=
  if binary then PyBytes s else PyStr s.

(** [pylsm_cursor_value_fetch]: key and value are both read, the value is
    returned. *)
Definition pylsm_cursor_value_fetch (db : lsm_db) (c : lsm_cursor) (binary : bool)
  : PyResult PyObject * lsm_db :=
  let '(rc, db1, pKey) := lsm_csr_key db c in
  match pylsm_error rc with
  | Some exc => (PyRaise exc, db1)
  | None =>
      let '(rc, db2, pValue) := lsm_csr_value db1 c in
      match pylsm_error rc with
      | Some exc => (PyRaise exc, db2)
      | None =>
          (PyOk (py_buffer binary (match pValue with Some v => v | None => EmptyString end)),
           db2)
      end
  end.

Definition LSMCursor_value (self : LSMCursor) (db : LSM) : PyResult PyObject * LSM :=
  if csr_state self =? PY_LSM_ITERATING then (PyRaise RuntimeError, db) else
  let '(failed, pending) := pylsm_ensure_csr_opened self db in
  if failed then (raised pending, db) else
  if negb (lsm_csr_valid (cursor self)) then (py_return pending PyNone, db) else
  let db := LSM_MutexLock db in
  let '(result, e) := pylsm_cursor_value_fetch (lsm db) (cursor self) (binary db) in
  let db := LSM_MutexLeave (set_lsm e db) in
  match result with
  | PyOk v => (py_return pending v, db)
  | r => (r, db)
  end.

(** ** Slice views *)

Record LSMSliceView : Type := mk_LSMSliceView {
  sv_cursor : option lsm_cursor;
  pStart : option key;
  pStop : option key;
  sv_state : Z;
  step : Z;
  direction : Z;
  counter : Z
}.

Definition set_sv_cursor (c : option lsm_cursor) (self : LSMSliceView) : LSMSliceView :=
  mk_LSMSliceView c (pStart self) (pStop self) (sv_state self) (step self)
    (direction self) (counter self).
Definition set_sv_state (s : Z) (self : LSMSliceView) : LSMSliceView :=
  mk_LSMSliceView (sv_cursor self) (pStart self) (pStop self) s (step self)
    (direction self) (counter self).
Definition set_counter (n : Z) (self : LSMSliceView) : LSMSliceView :=
  mk_LSMSliceView (sv_cursor self) (pStart self) (pStop self) (sv_state self)
    (step self) (direction self) n.

(** [LSMSliceView_new]: the zero-filled object of [tp_alloc]. *)
Definition LSMSliceView_new : LSMSliceView :=
  mk_LSMSliceView None None None 0 0 0 0.

(** [PyLong_AsLong]: [-1] with an exception set when the number does not fit;
    [LSMSliceView_init] does not look at the exception. *)
Definition PyLong_AsLong (z : Z) : Z :=
  if (LONG_MIN <=? z) && (z <=? LONG_MAX) then z else -1.

(** [LSMSliceView_init]: [db[start:stop:step]]. A [bool] passes
    [PyLong_Check]. *)
Definition LSMSliceView_init (self : LSMSliceView) (db : LSM) (start stop step_obj : PyObject)
  : PyResult LSMSliceView :=
  match pylsm_ensure_opened db with
  | Some e => PyRaise e
  | None =>
      let parsed :=
        match step_obj with
        | PyNone => Some 1
        | PyLong z => Some (PyLong_AsLong z)
        | PyBool b => Some (if b then 1 else 0)
        | _ => None
        end in
      match parsed with
      | None => PyRaise ValueError
      | Some st =>
          let dir := if 0 <? st then PY_LSM_SLICE_FORWARD else PY_LSM_SLICE_BACKWARD in
          let self_stop := if dir =? PY_LSM_SLICE_FORWARD then stop else start in
          let self_start := if dir =? PY_LSM_SLICE_FORWARD then start else stop in
          let stop_buf :=
            if is_None self_stop then PyOk None
            else match str_or_bytes_check (binary db) self_stop with
                 | PyOk b => PyOk (Some b)
                 | _ => PyRaise ValueError
                 end in
          match stop_buf with
          | PyOk p_stop =>
              let start_buf :=
                if is_None self_start then PyOk (pStart self)
                else match str_or_bytes_check (binary db) self_start with
                     | PyOk b => PyOk (Some b)
                     | _ => PyRaise ValueError
                     end in
              match start_buf with
              | PyOk p_start =>
                  PyOk (mk_LSMSliceView (sv_cursor self) p_start p_stop
                          PY_LSM_INITIALIZED st dir 0)
              | _ => PyRaise ValueError
              end
          | _ => PyRaise ValueError
          end
      end
  end.

Definition pylsm_seek_mode_direction (dir : Z) : Z :=
  if dir =? PY_LSM_SLICE_FORWARD then LSM_SEEK_GE else LSM_SEEK_LE.

(** The answer of an internal C function: a returned [int], undefined
    behaviour, or a loop of the model out of iterations. *)
Inductive cres : Type :=
| CRet (rc : Z)
| CUndef
| CNoFuel.

(** [pylsm_slice_view_iter]: opens the cursor and seeks the first record. *)
Definition pylsm_slice_view_iter (self : LSMSliceView) (db : lsm_db)
  : Z * LSMSliceView * lsm_db :=
  let '(rc, db1, opened) := lsm_csr_open db in
  let self := set_sv_cursor opened self in
  if negb (rc =? 0) then (rc, self, db1) else
  match opened with
  | None => (rc, self, db1)
  | Some c =>
      let mode := pylsm_seek_mode_direction (direction self) in
      match pStart self with
      | Some k =>
          let '(rc, db2, c') := lsm_csr_seek db1 c k mode in
          let self := set_sv_cursor (Some c') self in
          if negb (rc =? 0) then (rc, self, db2) else (LSM_OK, self, db2)
      | None =>
          if direction self =? PY_LSM_SLICE_FORWARD then
            let '(rc, db2, c') := lsm_csr_first db1 c in
            let self := set_sv_cursor (Some c') self in
            if negb (rc =? 0) then (rc, self, db2) else (LSM_OK, self, db2)
          else if direction self =? PY_LSM_SLICE_BACKWARD then
            let '(rc, db2, c') := lsm_csr_last db1 c in
            let self := set_sv_cursor (Some c') self in
            if negb (rc =? 0) then (rc, self, db2) else (LSM_OK, self, db2)
          else (LSM_OK, self, db1)
      end
  end.

(** [pylsm_slice_first]: the check of the first record against the stop
    key. *)
Definition pylsm_slice_first (self : LSMSliceView) (db : lsm_db) : cres * lsm_db :=
  match sv_cursor self with
  | None => (CUndef, db)
  | Some c =>
      let checked :=
        match pStop self with
        | Some k =>
            let '(rc, db1, cmp_res) := lsm_csr_cmp db c k in
            if negb (rc =? 0) then (Some rc, db1)
            else if (direction self =? PY_LSM_SLICE_FORWARD) && (0 <? cmp_res)
            then (Some (-1), db1)
            else if (direction self =? PY_LSM_SLICE_BACKWARD) && (cmp_res <? 0)
            then (Some (-1), db1)
            else (None, db1)
        | None => (None, db)
        end in
      match checked with
      | (Some rc, db1) => (CRet rc, db1)
      | (None, db1) =>
          if negb (lsm_csr_valid c) then (CRet (-1), db1) else (CRet 0, db1)
      end
  end.

(** The [while] loop of [pylsm_slice_next]; [fuel] bounds the number of
    iterations. *)
Fixpoint pylsm_slice_next_loop (fuel : nat) (self : LSMSliceView) (db : lsm_db)
  : cres * LSMSliceView * lsm_db :=
  match fuel with
  | O => (CNoFuel, self, db)
  | S fuel' =>
      match sv_cursor self with
      | None => (CUndef, self, db)
      | Some c =>
          if negb (lsm_csr_valid c) then (CRet (-1), self, db) else
          let '(rc, db1, c1) :=
            if direction self =? PY_LSM_SLICE_FORWARD then lsm_csr_next db c
            else if direction self =? PY_LSM_SLICE_BACKWARD then lsm_csr_prev db c
            else (LSM_OK, db, c) in
          let self := set_sv_cursor (Some c1) self in
          if negb (rc =? 0) then (CRet rc, self, db1) else
          if negb (lsm_csr_valid c1) then (CRet (-1), self, db1) else
          let checked :=
            match pStop self with
            | Some k =>
                let '(rc, db2, cmp_res) := lsm_csr_cmp db1 c1 k in
                if negb (rc =? 0) then (Some rc, db2)
                else if (direction self =? PY_LSM_SLICE_FORWARD) && (0 <? cmp_res)
                then (Some (-1), db2)
                else if (direction self =? PY_LSM_SLICE_BACKWARD) && (cmp_res <? 0)
                then (Some (-1), db2)
                else (None, db2)
            | None => (None, db1)
            end in
          match checked with
          | (Some rc, db2) => (CRet rc, self, db2)
          | (None, db2) =>
              let self := set_counter (counter self + 1) self in
              if step self =? 0 then (CUndef, self, db2) else
              if Z.rem (counter self) (step self) =? 0 then (CRet 0, self, db2)
              else pylsm_slice_next_loop fuel' self db2
          end
      end
  end.

(** The number of records on either side of the cursor: a bound on the
    single steps it can still make. *)
Definition csr_span (c : option lsm_cursor) : nat :=
  match c with
  | Some (CsrAt b _ a) => List.length b + List.length a
  | _ => O
  end.

(** [pylsm_slice_next]: every iteration of the loop moves the cursor by one
    record, so one more than the records around it is enough. *)
Definition pylsm_slice_next (self : LSMSliceView) (db : lsm_db)
  : cres * LSMSliceView * lsm_db :=
  pylsm_slice_next_loop (S (csr_span (sv_cursor self))) self db.

(** [pylsm_cursor_items_fetch]: the results of the two engine calls are not
    looked at; a buffer that was not set is empty. *)
Definition pylsm_cursor_items_fetch (db : lsm_db) (c : lsm_cursor) (binary : bool)
  : PyObject * lsm_db :=
  let '(_, db1, pKey) := lsm_csr_key db c in
  let '(_, db2, pValue) := lsm_csr_value db1 c in
  (PyPair (py_buffer binary (match pKey with Some k => k | None => EmptyString end))
          (py_buffer binary (match pValue with Some v => v | None => EmptyString end)),
   db2).

Definition LSMSliceView_iter (self : LSMSliceView) (db : LSM)
  : PyResult unit * LSMSliceView * LSM :=
  match pylsm_ensure_opened db with
  | Some e => (PyRaise e, self, db)
  | None =>
      if negb (sv_state self =? PY_LSM_INITIALIZED) then (PyOk tt, self, db) else
      let self := set_sv_state PY_LSM_OPENED self in
      let db := LSM_MutexLock db in
      let '(err, self, e) := pylsm_slice_view_iter self (lsm db) in
      let db := LSM_MutexLeave (set_lsm e db) in
      match pylsm_error err with
      | Some exc => (PyRaise exc, self, db)
      | None => (PyOk tt, self, db)
      end
  end.

(** [LSMSliceView_next]: [__next__]; the record is fetched after the mutex
    has been released. *)
Definition LSMSliceView_next (self : LSMSliceView) (db : LSM)
  : PyResult PyObject * LSMSliceView * LSM :=
  match pylsm_ensure_opened db with
  | Some e => (PyRaise e, self, db)
  | None =>
      if sv_state self =? PY_LSM_CLOSED then (PyRaise StopIteration, self, db) else
      if negb ((sv_state self =? PY_LSM_OPENED) || (sv_state self =? PY_LSM_ITERATING))
      then (PyRaise RuntimeError, self, db) else
      match sv_cursor self with
      | None => (PyUndefined, self, db)
      | Some c =>
          if negb (lsm_csr_valid c)
          then (PyRaise StopIteration, set_sv_state PY_LSM_CLOSED self, db) else
          let db := LSM_MutexLock db in
          let '(rc, self, e) :=
            if sv_state self =? PY_LSM_OPENED then
              let self := set_sv_state PY_LSM_ITERATING self in
              let '(rc, e) := pylsm_slice_first self (lsm db) in
              (rc, self, e)
            else pylsm_slice_next self (lsm db) in
          let db := LSM_MutexLeave (set_lsm e db) in
          match rc with
          | CUndef => (PyUndefined, self, db)
          | CNoFuel => (PyNoFuel, self, db)
          | CRet rc =>
              if rc =? -1
              then (PyRaise StopIteration, set_sv_state PY_LSM_CLOSED self, db) else
              match pylsm_error rc with
              | Some exc => (PyRaise exc, self, db)
              | None =>
                  match sv_cursor self with
                  | None => (PyUndefined, self, db)
                  | Some c' =>
                      if negb (lsm_csr_valid c')
                      then (PyRaise StopIteration, set_sv_state PY_LSM_CLOSED self, db)
                      else
                        let '(result, e) :=
                          pylsm_cursor_items_fetch (lsm db) c' (binary db) in
                        (PyOk result, self, set_lsm e db)
                  end
              end
          end
      end
  end.

(** The loop of a caller that exhausts the iterator, [list(view)] after
    [iter(view)]: [__next__] until [StopIteration]. *)
Fixpoint slice_drain (fuel : nat) (self : LSMSliceView) (db : LSM)
  : PyResult (list PyObject) * LSMSliceView * LSM :=
  match fuel with
  | O => (PyNoFuel, self, db)
  | S fuel' =>
      match LSMSliceView_next self db with
      | (PyOk x, self', db') =>
          match slice_drain fuel' self' db' with
          | (PyOk l, self'', db'') => (PyOk (x :: l), self'', db'')
          | r => r
          end
      | (PyRaise StopIteration, self', db') => (PyOk [], self', db')
      | (PyRaise e, self', db') => (PyRaise e, self', db')
      | (PyUndefined, self', db') => (PyUndefined, self', db')
      | (PyNoFuel, self', db') => (PyNoFuel, self', db')
      end
  end.

(** [list(db[start:stop:step])]. *)
Definition slice_list (fuel : nat) (db : LSM) (start stop step_obj : PyObject)
  : PyResult (list PyObject) * LSM :=
  match LSMSliceView_init LSMSliceView_new db start stop step_obj with
  | PyOk view =>
      match LSMSliceView_iter view db with
      | (PyOk _, view', db') =>
          let '(r, _, db'') := slice_drain fuel view' db' in (r, db'')
      | (PyRaise e, _, db') => (PyRaise e, db')
      | (PyUndefined, _, db') => (PyUndefined, db')
      | (PyNoFuel, _, db') => (PyNoFuel, db')
      end
  | PyRaise e => (PyRaise e, db)
  | PyUndefined => (PyUndefined, db)
  | PyNoFuel => (PyNoFuel, db)
  end.

(** ** What a slice is to yield *)


Fixpoint drop_while {A : Type} (p : A -> bool) (l : list A) : list A :=
  match l with
  | [] => []
  | x :: r => if p x then drop_while p r else l
  end.



(** The pair [__next__] returns for a record. *)
Definition item_obj (binary : bool) (it : item) : PyObject :=
  PyPair (py_buffer binary (fst it)) (py_buffer binary (snd it)).

(** An optional bound as the argument of a slice. *)
Definition bound_obj (binary : bool) (b : option key) : PyObject :=
  match b with
  | Some k => py_buffer binary k
  | None => PyNone
  end.

(** The records a cursor has in front of it in a direction, the current one
    first. *)
Definition ahead_of (dir : Z) (c : lsm_cursor) : list item :=
  match c with
  | CsrEof => []
  | CsrAt b x a => if dir =? PY_LSM_SLICE_FORWARD then x :: a else x :: b
  end.

(** The cursor on [x] with [ahead] in front of it and [behind] at its back. *)
Definition cursor_at (dir : Z) (behind : list item) (x : item) (ahead : list item)
  : lsm_cursor :=
  if dir =? PY_LSM_SLICE_FORWARD then CsrAt behind x ahead else CsrAt ahead x behind.

(** Whether a record is within the stop key of a view, in its direction. *)
Definition in_stop (dir : Z) (stop : option key) (it : item) : bool :=
  match stop with
  | None => true
  | Some k =>
      if dir =? PY_LSM_SLICE_FORWARD then String.leb (fst it) k
      else String.leb k (fst it)
  end.


(** The records [__iter__] passes over before the first one of the slice. *)
Definition start_skip (dir : Z) (start : option key) (it : item) : bool :=
  match start with
  | None => false
  | Some k =>
      if dir =? PY_LSM_SLICE_FORWARD then String.ltb (fst it) k
      else String.ltb k (fst it)
  end.

(** The store in the order of a direction. *)
Definition ordered (dir : Z) (store : list item) : list item :=
  if dir =? PY_LSM_SLICE_FORWARD then store else rev store.

(** The two values the field [direction] takes. *)
Definition is_direction (d : Z) : Prop :=
  d = PY_LSM_SLICE_FORWARD \/ d = PY_LSM_SLICE_BACKWARD.

(** ** Writes made within a scope *)

Inductive write : Type :=
| WPut (k v : string)
| WDel (k : string).

(** [db.insert(k, v)] and [db.delete(k)], with arguments of the type the mode
    of the connection asks for. *)
Definition apply_write (w : write) (db : LSM) : LSM :=
  match w with
  | WPut k v => snd (LSM_insert db (py_buffer (binary db) k) (py_buffer (binary db) v))
  | WDel k => snd (LSM_delete db (py_buffer (binary db) k))
  end.

Definition apply_writes (ws : list write) (db : LSM) : LSM :=
  fold_left (fun d w => apply_write w d) ws db.

(** ** Mutex discipline on a trace *)

(** Whether every engine call of a trace is made while the mutex is held;
    [held] tells whether it is held when the trace starts. *)
Fixpoint mutex_held_throughout (held : bool) (t : list event) : bool :=
  match t with
  | [] => true
  | EvMutexEnter :: r => mutex_held_throughout true r
  | EvMutexLeave :: r => mutex_held_throughout false r
  | _ :: r => held && mutex_held_throughout held r
  end.

(** [LSM(path, block_size=b)]: every other argument at its default. *)
Definition args_with_block (b : Z) : init_args :=
  mk_init_args 1024 LSM_SAFETY_NORMAL b 2048 0 true None PyNone
    PYLSM_DEFAULT_COMPRESS_LEVEL.

(** The mode a call of [seek] leaves in the cursor: the second argument, or
    [LSM_SEEK_EQ] when it is omitted. *)
Definition seek_mode_of (mode : option Z) : Z :=
  match mode with Some m => m | None => LSM_SEEK_EQ end.

(** ** A connection to compute with *)

Definition empty_engine : lsm_db := mk_lsm_db [] [] [] [].

(** [LSM(path, binary=False)] followed by [open()], on an engine whose calls
    all succeed. *)
Definition demo_db : LSM :=
  snd (LSM_open (snd (LSM_init empty_engine
    (mk_init_args 1024 LSM_SAFETY_NORMAL 1024 2048 0 false None PyNone
       PYLSM_DEFAULT_COMPRESS_LEVEL)))).

Definition demo_put (k v : string) (db : LSM) : LSM :=
  snd (LSM_set_del_item db (PyStr k) (Some (PyStr v))).

(** The records [k0..k3] of the worked examples. *)
Definition demo_db4 : LSM :=
  demo_put "k3" "3" (demo_put "k2" "2" (demo_put "k1" "1" (demo_put "k0" "0" demo_db))).

(** [db.cursor()] on the records [k0..k3]. *)
Definition demo_cursor : LSMCursor :=
  match fst (LSMCursor_new demo_db4 LSM_SEEK_GE) with
  | PyOk c => c
  | _ => mk_LSMCursor PY_LSM_CLOSED CsrEof LSM_SEEK_GE
  end.

(** ** Point lookup *)

(** The conversion of a C [long] to an [int], as the compilers in use do it:
    modulo [2^32]. *)
Definition to_int32 (z : Z) : Z := (z + 2 ^ 31) mod 2 ^ 32 - 2 ^ 31.

(** [pylsm_getitem]: the return value, the engine, and the buffer left in
    [*ppVal] ([None] when it is not set).  [calloc] is taken to return a
    pointer also for a value of length 0, as glibc does. *)
Definition pylsm_getitem (db : lsm_db) (pKey : key) (mode : Z)
  : Z * lsm_db * option string :=
  let '(rc, db1, opened) := lsm_csr_open db in
  if negb (rc =? 0) then (rc, db1, None) else
  match opened with
  | None => (rc, db1, None)
  | Some cursor =>
      let '(rc, db2, cursor) := lsm_csr_seek db1 cursor pKey mode in
      if negb (rc =? 0) then (rc, snd (lsm_csr_close db2 cursor), None) else
      if negb (lsm_csr_valid cursor) then (-1, snd (lsm_csr_close db2 cursor), None) else
      if mode =? LSM_SEEK_LEFAST then (rc, snd (lsm_csr_close db2 cursor), None) else
      let '(rc, db3, pValue) := lsm_csr_value db2 cursor in
      if negb (rc =? 0) then (rc, snd (lsm_csr_close db3 cursor), None) else
      (0, snd (lsm_csr_close db3 cursor),
       Some (match pValue with Some v => v | None => EmptyString end))
  end.

(** What [db[arg]] returns: an object, or a slice view. *)
Inductive getitem_result : Type :=
| GetObject (v : PyObject)
| GetView (view : LSMSliceView).

(** The part of [LSM_getitem] that follows the parsing of the argument: the
    checks of the seek mode and of the key, the lookup under the mutex, and
    the translation of its result.  The test [pValue == NULL] comes before
    the test of the result code. *)
Definition getitem_lookup (self : LSM) (k : PyObject) (mode : Z)
  : PyResult getitem_result * LSM :=
  if negb (pylsm_seek_mode_check mode) then (PyRaise ValueError, self) else
  match str_or_bytes_check (binary self) k with
  | PyOk pKey =>
      if too_large pKey then (PyRaise OverflowError, self) else
      let self := LSM_MutexLock self in
      let '(result, e, pValue) := pylsm_getitem (lsm self) pKey mode in
      let self := LSM_MutexLeave (set_lsm e self) in
      if result =? -1 then (PyRaise KeyError, self) else
      match pValue with
      | None => (PyOk (GetObject Py_True), self)
      | Some v =>
          match pylsm_error result with
          | Some exc => (PyRaise exc, self)
          | None => (PyOk (GetObject (py_buffer (binary self) v)), self)
          end
      end
  | _ => (PyRaise ValueError, self)
  end.

(** [LSM_getitem]: [db[arg]], the argument being a slice, a key, or the pair
    of a key and a seek mode (a tuple of another size raises [ValueError], as
    an object of another type does).  The exception [PyLong_AsLong] leaves set
    for a seek mode out of the range of a [long] is not looked at. *)
Definition LSM_getitem (self : LSM) (arg : PyObject) : PyResult getitem_result * LSM :=
  match pylsm_ensure_opened self with
  | Some e => (PyRaise e, self)
  | None =>
      match arg with
      | PySlice start stop step_obj =>
          match LSMSliceView_init LSMSliceView_new self start stop step_obj with
          | PyOk view => (PyOk (GetView view), self)
          | PyRaise e => (PyRaise e, self)
          | PyUndefined => (PyUndefined, self)
          | PyNoFuel => (PyNoFuel, self)
          end
      | PyPair k (PyLong m) => getitem_lookup self k (to_int32 (PyLong_AsLong m))
      | PyPair k (PyBool b) => getitem_lookup self k (if b then 1 else 0)
      | PyPair _ _ => (PyRaise ValueError, self)
      | _ => getitem_lookup self arg LSM_SEEK_EQ
      end
  end.

(** ** The number of records *)

(** The [while] loop of [pylsm_csr_length]. *)
Fixpoint pylsm_csr_length_loop (fuel : nat) (db : lsm_db) (c : lsm_cursor) (n : Z)
  : option (Z * lsm_db * Z) :=
  match fuel with
  | O => None
  | S fuel' =>
      if negb (lsm_csr_valid c) then Some (0, db, n) else
      let '(rc, db1, c1) := lsm_csr_next db c in
      if negb (rc =? 0) then Some (rc, db1, n + 1)
      else pylsm_csr_length_loop fuel' db1 c1 (n + 1)
  end.

(** [pylsm_csr_length]: the result code and [*result], which is not written
    when [lsm_csr_first] fails ([init] is what the caller had put there). *)
Definition pylsm_csr_length (db : lsm_db) (c : lsm_cursor) (init : Z)
  : option (Z * lsm_db * Z) :=
  let '(rc, db1, c1) := lsm_csr_first db c in
  if negb (rc =? 0) then Some (rc, db1, init)
  else pylsm_csr_length_loop (S (csr_span (Some c1) + 1)) db1 c1 0.

Definition pylsm_length (db : lsm_db) : option (Z * lsm_db * Z) :=
  let '(rc, db1, opened) := lsm_csr_open db in
  if negb (rc =? 0) then Some (rc, db1, 0) else
  match opened with
  | None => Some (rc, db1, 0)
  | Some c =>
      match pylsm_csr_length db1 c 0 with
      | Some (rc, db2, n) => Some (rc, snd (lsm_csr_close db2 c), n)
      | None => None
      end
  end.

(** [LSM_length]: [len(db)].  The state of the connection is not tested
    before the mutex is taken.  [_LSM_close], the only place that writes
    [PY_LSM_CLOSED] into a connection, sets [lsm], [lsm_env] and [lsm_mutex]
    to [NULL] with it, and [LSM_MutexLock] calls
    [self->lsm_env->xMutexEnter]: on a closed connection the call
    dereferences a null pointer, which is written out as [PyUndefined]. *)
Definition LSM_length (self : LSM) : PyResult Z * LSM :=
  if state self =? PY_LSM_CLOSED then (PyUndefined, self) else
  let self := LSM_MutexLock self in
  match pylsm_length (lsm self) with
  | None => (PyNoFuel, self)
  | Some (rc, e, result) =>
      let self := LSM_MutexLeave (set_lsm e self) in
      match pylsm_error rc with
      | Some exc => (PyRaise exc, self)
      | None => (PyOk result, self)
      end
  end.

(** ** Views on keys, values and items *)

Record LSMIterView : Type := mk_LSMIterView {
  iv_state : Z;
  iv_cursor : option lsm_cursor
}.


Definition LSMIterView_iter (self : LSMIterView) (db : LSM)
  : PyResult unit * LSMIterView * LSM :=
  match pylsm_ensure_opened db with
  | Some e => (PyRaise e, self, db)
  | None =>
      if negb (iv_state self =? PY_LSM_INITIALIZED) then (PyOk tt, self, db) else
      let db := LSM_MutexLock db in
      let '(rc, e, opened) := lsm_csr_open (lsm db) in
      let self := mk_LSMIterView PY_LSM_OPENED opened in
      let db := set_lsm e db in
      match pylsm_error rc, opened with
      | Some exc, _ => (PyRaise exc, self, LSM_MutexLeave db)
      | None, None => (PyUndefined, self, db)
      | None, Some c =>
          let '(rc, e, c1) := lsm_csr_first (lsm db) c in
          let self := mk_LSMIterView PY_LSM_OPENED (Some c1) in
          let db := LSM_MutexLeave (set_lsm e db) in
          match pylsm_error rc with
          | Some exc => (PyRaise exc, self, db)
          | None => (PyOk tt, self, db)
          end
      end
  end.

(** [LSMIterView_len]: [len(view)]. *)
Definition LSMIterView_len (self : LSMIterView) (db : LSM) : PyResult Z * LSM :=
  match pylsm_ensure_opened db with
  | Some e => (PyRaise e, db)
  | None => LSM_length db
  end.

(** [pylsm_cursor_key_fetch]: key and value are both read, the key is
    returned. *)
Definition pylsm_cursor_key_fetch (db : lsm_db) (c : lsm_cursor) (binary : bool)
  : PyResult PyObject * lsm_db :=
  let '(rc, db1, pKey) := lsm_csr_key db c in
  match pylsm_error rc with
  | Some exc => (PyRaise exc, db1)
  | None =>
      let '(rc, db2, pValue) := lsm_csr_value db1 c in
      match pylsm_error rc with
      | Some exc => (PyRaise exc, db2)
      | None =>
          (PyOk (py_buffer binary (match pKey with Some k => k | None => EmptyString end)),
           db2)
      end
  end.

(** What the three views fetch. *)
Inductive view_kind : Type := KeysView | ValuesView | ItemsView.

Definition view_fetch (kind : view_kind) (db : lsm_db) (c : lsm_cursor) (binary : bool)
  : PyResult PyObject * lsm_db :=
  match kind with
  | KeysView => pylsm_cursor_key_fetch db c binary
  | ValuesView => pylsm_cursor_value_fetch db c binary
  | ItemsView =>
      let '(r, db') := pylsm_cursor_items_fetch db c binary in (PyOk r, db')
  end.

(** [LSMKeysView_next], [LSMValuesView_next], [LSMItemsView_next]: only the
    first one looks at the state of the view. *)
Definition LSMIterView_next (kind : view_kind) (self : LSMIterView) (db : LSM)
  : PyResult PyObject * LSMIterView * LSM :=
  match pylsm_ensure_opened db with
  | Some e => (PyRaise e, self, db)
  | None =>
      if match kind with
         | KeysView => negb (iv_state self =? PY_LSM_OPENED)
         | _ => false
         end
      then (PyRaise RuntimeError, self, db) else
      match iv_cursor self with
      | None => (PyUndefined, self, db)
      | Some c =>
          if negb (lsm_csr_valid c)
          then (PyRaise StopIteration, mk_LSMIterView PY_LSM_CLOSED (Some c), db) else
          let db := LSM_MutexLock db in
          let '(result, e) := view_fetch kind (lsm db) c (binary db) in
          let db := set_lsm e db in
          match result with
          | PyOk v =>
              let '(rc, e, c1) := lsm_csr_next (lsm db) c in
              let self := mk_LSMIterView (iv_state self) (Some c1) in
              let db := LSM_MutexLeave (set_lsm e db) in
              match pylsm_error rc with
              | Some exc => (PyRaise exc, self, db)
              | None => (PyOk v, self, db)
              end
          | r => (r, self, LSM_MutexLeave db)
          end
      end
  end.

(** The loop of a caller that exhausts a view: [__next__] until
    [StopIteration]. *)
Fixpoint view_drain (kind : view_kind) (fuel : nat) (self : LSMIterView) (db : LSM)
  : PyResult (list PyObject) * LSMIterView * LSM :=
  match fuel with
  | O => (PyNoFuel, self, db)
  | S fuel' =>
      match LSMIterView_next kind self db with
      | (PyOk x, self', db') =>
          match view_drain kind fuel' self' db' with
          | (PyOk l, self'', db'') => (PyOk (x :: l), self'', db'')
          | r => r
          end
      | (PyRaise StopIteration, self', db') => (PyOk [], self', db')
      | (PyRaise e, self', db') => (PyRaise e, self', db')
      | (PyUndefined, self', db') => (PyUndefined, self', db')
      | (PyNoFuel, self', db') => (PyNoFuel, self', db')
      end
  end.


(** What a view yields for a record. *)
Definition view_obj (kind : view_kind) (binary : bool) (it : item) : PyObject :=
  match kind with
  | KeysView => py_buffer binary (fst it)
  | ValuesView => py_buffer binary (snd it)
  | ItemsView => item_obj binary it
  end.

(** ** Bulk operations *)

(** The first loop of [LSM_update]: the buffers of the pairs, in order, or
    the exception of the first pair that has none. *)
Fixpoint update_buffers (binary : bool) (items : list (PyObject * PyObject))
  : PyResult (list (string * string)) :=
  match items with
  | [] => PyOk []
  | (k, v) :: r =>
      match str_or_bytes_check binary k with
      | PyOk pKey =>
          if too_large pKey then PyRaise OverflowError else
          match str_or_bytes_check binary v with
          | PyOk pVal =>
              if too_large pVal then PyRaise OverflowError else
              match update_buffers binary r with
              | PyOk l => PyOk ((pKey, pVal) :: l)
              | e => e
              end
          | _ => PyRaise ValueError
          end
      | _ => PyRaise ValueError
      end
  end.

(** The second loop of [LSM_update]: one [lsm_insert] per pair, up to the
    first that fails; the result code of the last call made. *)
Fixpoint update_inserts (db : lsm_db) (l : list (string * string)) (rc : Z)
  : Z * lsm_db :=
  match l with
  | [] => (rc, db)
  | (k, v) :: r =>
      let '(rc1, db1) := lsm_insert db k v in
      if negb (rc1 =? 0) then (rc1, db1) else update_inserts db1 r rc1
  end.

(** [LSM_update]: [db.update(mapping)], [items] being the list
    [mapping.items()].  With no pair at all the result code is tested without
    having been assigned. *)
Definition LSM_update (self : LSM) (items : list (PyObject * PyObject))
  : PyResult PyObject * LSM :=
  match pylsm_ensure_writable self with
  | Some e => (PyRaise e, self)
  | None =>
      match update_buffers (binary self) items with
      | PyOk l =>
          let self := LSM_MutexLock self in
          match l with
          | [] => (PyUndefined, LSM_MutexLeave self)
          | _ :: _ =>
              let '(rc, e) := update_inserts (lsm self) l 0 in
              let self := LSM_MutexLeave (set_lsm e self) in
              match pylsm_error rc with
              | Some exc => (PyRaise exc, self)
              | None => (PyOk PyNone, self)
              end
          end
      | PyRaise e => (PyRaise e, self)
      | PyUndefined => (PyUndefined, self)
      | PyNoFuel => (PyNoFuel, self)
      end
  end.

Definition LSM_delete_range (self : LSM) (a b : PyObject) : PyResult PyObject * LSM :=
  match pylsm_ensure_writable self with
  | Some e => (PyRaise e, self)
  | None =>
      match parse_buffer (binary self) a, parse_buffer (binary self) b with
      | PyOk pStart, PyOk pEnd =>
          if too_large pStart then (PyRaise OverflowError, self) else
          if too_large pEnd then (PyRaise OverflowError, self) else
          let self := LSM_MutexLock self in
          let '(result, e) := lsm_delete_range (lsm self) pStart pEnd in
          let self := LSM_MutexLeave (set_lsm e self) in
          match pylsm_error result with
          | Some exc => (PyRaise exc, self)
          | None => (PyOk PyNone, self)
          end
      | _, _ => (PyRaise TypeError, self)
      end
  end.

Definition LSM_flush (self : LSM) : PyResult PyObject * LSM :=
  match pylsm_ensure_writable self with
  | Some e => (PyRaise e, self)
  | None =>
      let self := LSM_MutexLock self in
      let '(rc, e) := engine_call EvFlush (lsm self) in
      let self := LSM_MutexLeave (set_lsm e self) in
      match pylsm_error rc with
      | Some exc => (PyRaise exc, self)
      | None => (PyOk Py_True, self)
      end
  end.

(** ** More of the cursor object *)

(** [LSM_cursor]: [db.cursor(seek_mode)], the mode being [LSM_SEEK_GE] when
    it is omitted. *)
Definition LSM_cursor (self : LSM) (mode : option Z) : PyResult LSMCursor * LSM :=
  match pylsm_ensure_opened self with
  | Some e => (PyRaise e, self)
  | None =>
      let m := match mode with Some m => m | None => LSM_SEEK_GE end in
      if negb (pylsm_seek_mode_check m) then (PyRaise ValueError, self)
      else LSMCursor_new self m
  end.

Definition LSMCursor_first (self : LSMCursor) (db : LSM)
  : PyResult PyObject * LSMCursor * LSM :=
  if csr_state self =? PY_LSM_ITERATING then (PyRaise RuntimeError, self, db) else
  let '(failed, pending) := pylsm_ensure_csr_opened self db in
  if failed then (raised pending, self, db) else
  let db := LSM_MutexLock db in
  let '(result, e, c) := lsm_csr_first (lsm db) (cursor self) in
  let db := LSM_MutexLeave (set_lsm e db) in
  let self := mk_LSMCursor (csr_state self) c (seek_mode self) in
  match pylsm_error result with
  | Some exc => (PyRaise exc, self, db)
  | None =>
      let self := mk_LSMCursor PY_LSM_OPENED c (seek_mode self) in
      (py_return pending (PyBool (lsm_csr_valid c)), self, db)
  end.

Definition LSMCursor_last (self : LSMCursor) (db : LSM)
  : PyResult PyObject * LSMCursor * LSM :=
  if csr_state self =? PY_LSM_ITERATING then (PyRaise RuntimeError, self, db) else
  let '(failed, pending) := pylsm_ensure_csr_opened self db in
  if failed then (raised pending, self, db) else
  let db := LSM_MutexLock db in
  let '(result, e, c) := lsm_csr_last (lsm db) (cursor self) in
  let db := LSM_MutexLeave (set_lsm e db) in
  let self := mk_LSMCursor (csr_state self) c (seek_mode self) in
  match pylsm_error result with
  | Some exc => (PyRaise exc, self, db)
  | None =>
      let self := mk_LSMCursor PY_LSM_OPENED c (seek_mode self) in
      (py_return pending (PyBool (lsm_csr_valid c)), self, db)
  end.

(** [LSMCursor_compare]: the sign of the engine's answer is changed when the
    mode of the cursor is [LSM_SEEK_GE]. *)
Definition LSMCursor_compare (self : LSMCursor) (db : LSM) (k : PyObject)
  : PyResult PyObject * LSM :=
  let '(failed, pending) := pylsm_ensure_csr_opened self db in
  if failed then (raised pending, db) else
  if negb (lsm_csr_valid (cursor self)) then (PyRaise RuntimeError, db) else
  match str_or_bytes_check (binary db) k with
  | PyOk pKey =>
      if too_large pKey then (PyRaise OverflowError, db) else
      let db := LSM_MutexLock db in
      let '(result, e, cmp_result) := lsm_csr_cmp (lsm db) (cursor self) pKey in
      let db := LSM_MutexLeave (set_lsm e db) in
      let cmp_result := if seek_mode self =? LSM_SEEK_GE then - cmp_result else cmp_result in
      match pylsm_error result with
      | Some exc => (PyRaise exc, db)
      | None => (py_return pending (PyLong cmp_result), db)
      end
  | _ => (PyRaise ValueError, db)
  end.

Definition LSMCursor_key (self : LSMCursor) (db : LSM) : PyResult PyObject * LSM :=
  if csr_state self =? PY_LSM_ITERATING then (PyRaise RuntimeError, db) else
  let '(failed, pending) := pylsm_ensure_csr_opened self db in
  if failed then (raised pending, db) else
  if negb (lsm_csr_valid (cursor self)) then (py_return pending PyNone, db) else
  let db := LSM_MutexLock db in
  let '(result, e) := pylsm_cursor_key_fetch (lsm db) (cursor self) (binary db) in
  let db := LSM_MutexLeave (set_lsm e db) in
  match result with
  | PyOk v => (py_return pending v, db)
  | r => (r, db)
  end.

Definition LSMCursor_retrieve (self : LSMCursor) (db : LSM) : PyResult PyObject * LSM :=
  if csr_state self =? PY_LSM_ITERATING then (PyRaise RuntimeError, db) else
  let '(failed, pending) := pylsm_ensure_csr_opened self db in
  if failed then (raised pending, db) else
  if negb (lsm_csr_valid (cursor self)) then (py_return pending PyNone, db) else
  let db := LSM_MutexLock db in
  let '(result, e) := pylsm_cursor_items_fetch (lsm db) (cursor self) (binary db) in
  let db := LSM_MutexLeave (set_lsm e db) in
  (py_return pending result, db).

(** ** The compression level of lz4 *)

(** The acceleration [pylsm_lz4_xCompress] passes on,
    [(2 << (15 - compress_level)) + 1]: not defined when the shift count is
    negative or the shifted value leaves the range of an [int]. *)
Definition lz4_acceleration (level : Z) : option Z :=
  let n := 15 - level in
  if (n <? 0) || (30 <=? n) then None
  else Some (Z.shiftl 2 n + 1).

(** ** Sequences of calls on a connection *)

(** The calls of a program on one connection and the transaction handles it
    has obtained from it; a handle is named by its rank among them. *)
Inductive conn_op : Type :=
| OpBegin
| OpCommit
| OpRollback
| OpWrite (w : write)
| OpTransaction
| OpTxCommit (i : nat)
| OpTxRollback (i : nat)
| OpTxExit (i : nat) (exc_type : PyObject)
| OpTxDealloc (i : nat).

Fixpoint replace_nth {A : Type} (i : nat) (x : A) (l : list A) : list A :=
  match l, i with
  | [], _ => []
  | _ :: r, O => x :: r
  | y :: r, S j => y :: replace_nth j x r
  end.

(** One call; a call on a handle the program does not have does nothing (a
    program does not use a handle it has destroyed; the model does not forbid
    it). *)
Definition run_op (op : conn_op) (st : LSM * list LSMTransaction)
  : LSM * list LSMTransaction :=
  let '(db, hs) := st in
  match op with
  | OpBegin => (snd (LSM_begin db), hs)
  | OpCommit => (snd (LSM_commit db), hs)
  | OpRollback => (snd (LSM_rollback db), hs)
  | OpWrite w => (apply_write w db, hs)
  | OpTransaction =>
      match LSM_transaction db with
      | (PyOk tx, db') => (db', hs ++ [tx])
      | (_, db') => (db', hs)
      end
  | OpTxCommit i =>
      match nth_error hs i with
      | Some tx => (snd (LSMTransaction_commit tx db), hs)
      | None => st
      end
  | OpTxRollback i =>
      match nth_error hs i with
      | Some tx => (snd (LSMTransaction_rollback tx db), hs)
      | None => st
      end
  | OpTxExit i exc_type =>
      match nth_error hs i with
      | Some tx =>
          let '(_, tx', db') := LSMTransaction_ctx_exit tx db exc_type in
          (db', replace_nth i tx' hs)
      | None => st
      end
  | OpTxDealloc i =>
      match nth_error hs i with
      | Some tx => (LSMTransaction_dealloc tx db, hs)
      | None => st
      end
  end.

Definition run_ops (ops : list conn_op) (st : LSM * list LSMTransaction)
  : LSM * list LSMTransaction :=
  fold_left (fun s op => run_op op s) ops st.

(** ** Traces of a call *)

(** The events that are engine calls, as opposed to mutex operations. *)
Definition is_call (ev : event) : bool :=
  match ev with
  | EvMutexEnter | EvMutexLeave => false
  | _ => true
  end.

(** [db'] is [db] after some engine calls and no mutex operation. *)
Definition calls_only (db db' : lsm_db) : Prop :=
  exists t, db_trace db' = db_trace db ++ t /\ forallb is_call t = true.

(** Whether the mutex is held at the end of a trace. *)
Fixpoint mutex_held_after (held : bool) (t : list event) : bool :=
  match t with
  | [] => held
  | EvMutexEnter :: r => mutex_held_after true r
  | EvMutexLeave :: r => mutex_held_after false r
  | _ :: r => mutex_held_after held r
  end.

(** [db'] is [db] after engine calls that were all made with the mutex held,
    the mutex being free before and afterwards.  The calls are the ones a
    trace records: the query [lsm_csr_valid] is not among them. *)
Definition bracketed (db db' : lsm_db) : Prop :=
  exists t, db_trace db' = db_trace db ++ t /\
            mutex_held_throughout false t = true /\
            mutex_held_after false t = false.

(** * Properties *)

(** ** The engine model *)

Lemma engine_call_trace (ev : event) (db : lsm_db) :
  db_trace (snd (engine_call ev db)) = db_trace db ++ [ev].
Proof.
  unfold engine_call; simpl.
  destruct (db_faults db); reflexivity.
Qed.

Lemma engine_call_ok (ev : event) (db : lsm_db) :
  db_faults db = [] -> engine_call ev db = (LSM_OK, log ev db).
Proof.
  intros H. unfold engine_call. simpl. rewrite H. reflexivity.
Qed.

Lemma engine_call_fault (ev : event) (db : lsm_db) (rc : Z) (fs : list Z) :
  db_faults db = rc :: fs -> engine_call ev db = (rc, set_faults fs (log ev db)).
Proof.
  intros H. unfold engine_call. simpl. rewrite H. reflexivity.
Qed.

Lemma pylsm_error_ok : pylsm_error LSM_OK = None.
Proof. reflexivity. Qed.

Lemma pylsm_error_fail (rc : Z) :
  rc <> LSM_OK -> exists e, pylsm_error rc = Some e.
Proof.
  intros H. unfold pylsm_error.
  destruct (rc =? LSM_OK) eqn:E; [apply Z.eqb_eq in E; contradiction|].
  repeat match goal with
         | |- context [if ?c then _ else _] => destruct c; [eexists; reflexivity|]
         end.
  eexists; reflexivity.
Qed.

Lemma pylsm_error_none (rc : Z) : pylsm_error rc = None -> rc = LSM_OK.
Proof.
  intros H. destruct (Z.eq_dec rc LSM_OK) as [E|E]; [exact E|].
  destruct (pylsm_error_fail rc E) as [e He]. congruence.
Qed.

Lemma lsm_begin_trace (db : lsm_db) (l : Z) :
  db_trace (snd (lsm_begin db l)) = db_trace db ++ [EvBegin l].
Proof.
  unfold lsm_begin.
  pose proof (engine_call_trace (EvBegin l) db) as T.
  destruct (engine_call (EvBegin l) db) as [rc db1]; simpl in T.
  destruct (rc =? LSM_OK); simpl; exact T.
Qed.


Lemma lsm_rollback_trace (db : lsm_db) (l : Z) :
  db_trace (snd (lsm_rollback db l)) = db_trace db ++ [EvRollback l].
Proof.
  unfold lsm_rollback.
  pose proof (engine_call_trace (EvRollback l) db) as T.
  destruct (engine_call (EvRollback l) db) as [rc db1]; simpl in T.
  destruct (rc =? LSM_OK); simpl; [|exact T].
  destruct (nth_error _ _); simpl; [|exact T].
  destruct (_ <=? _); simpl; exact T.
Qed.

(** ** The connection *)

Lemma ensure_writable_ok (db : LSM) :
  state db = PY_LSM_OPENED -> readonly db = 0 -> pylsm_ensure_writable db = None.
Proof.
  intros Hs Hr. unfold pylsm_ensure_writable, pylsm_ensure_opened.
  rewrite Hs, Hr. reflexivity.
Qed.

Lemma app_one_three {A : Type} (l : list A) (a b c : A) :
  ((l ++ [a]) ++ [b]) ++ [c] = l ++ [a; b; c].
Proof. rewrite <- !app_assoc. reflexivity. Qed.


Lemma LSM_rollback_inner_spec (db : LSM) (n : Z) :
  state db = PY_LSM_OPENED -> readonly db = 0 ->
  let db' := snd (LSM_rollback_inner db n) in
  tx_level db' = tx_level db /\ state db' = state db /\ readonly db' = readonly db /\
  db_trace (lsm db') =
    db_trace (lsm db) ++ [EvMutexEnter; EvRollback (Z.max 0 n); EvMutexLeave].
Proof.
  intros Hs Hr. unfold LSM_rollback_inner.
  rewrite (ensure_writable_ok db Hs Hr).
  replace (if n <? 0 then 0 else n) with (Z.max 0 n)
    by (destruct (Z.ltb_spec n 0); lia).
  pose proof (lsm_rollback_trace (lsm (LSM_MutexLock db)) (Z.max 0 n)) as T.
  destruct (lsm_rollback (lsm (LSM_MutexLock db)) (Z.max 0 n)) as [rc e].
  simpl in T.
  destruct (pylsm_error rc); simpl; rewrite T, app_one_three; auto.
Qed.

Lemma LSM_rollback_unfold (db : LSM) :
  0 <= tx_level db -> LSM_rollback db = LSM_rollback_inner db (tx_level db).
Proof.
  intros H. unfold LSM_rollback.
  destruct (Z.ltb_spec (tx_level db) 0); [lia|reflexivity].
Qed.

Lemma LSM_commit_unfold (db : LSM) :
  0 <= tx_level db -> LSM_commit db = LSM_commit_inner db (tx_level db).
Proof.
  intros H. unfold LSM_commit.
  destruct (Z.ltb_spec (tx_level db) 0); [lia|reflexivity].
Qed.

(** What a rollback does to the tracked level: on an opened writable
    connection [LSM_rollback_inner] calls the engine at level [n] under the
    mutex and does not write [tx_level]; the rollback without argument is the
    one at the tracked level. *)
Lemma LSM_rollback_inner_keeps_level (db : LSM) (n : Z) :
  state db = PY_LSM_OPENED -> readonly db = 0 -> 0 < tx_level db ->
  tx_level (snd (LSM_rollback_inner db n)) = tx_level db /\
  db_trace (lsm (snd (LSM_rollback_inner db n))) =
    db_trace (lsm db) ++ [EvMutexEnter; EvRollback (Z.max 0 n); EvMutexLeave] /\
  LSM_rollback db = LSM_rollback_inner db (tx_level db).
Proof.
  intros Hs Hr HL.
  destruct (LSM_rollback_inner_spec db n Hs Hr) as (Ht & _ & _ & Htr).
  split; [exact Ht|]. split; [exact Htr|].
  apply LSM_rollback_unfold. lia.
Qed.

(** C1, on the scenario of the README: a scope at level 1, a nested scope at
    level 2 that ends normally, then a successful rollback through the outer
    handle, at level 1.  The claim has the level read afterwards at 1; the
    code leaves it at 2, because no rollback path assigns [tx_level].  The
    field is documented as the transaction nesting level, and [LSM_rollback]
    still clamps it at zero before use, a test that only a level that is
    lowered somewhere could need. *)
Theorem C1_rollback_level_not_lowered :
  exists txn db1 txn2 db2 closed db3 db4,
    LSM_transaction demo_db = (PyOk txn, db1) /\
    LSM_transaction db1 = (PyOk txn2, db2) /\
    LSMTransaction_ctx_exit txn2 db2 PyNone = (PyOk PyNone, closed, db3) /\
    state db3 = PY_LSM_OPENED /\ readonly db3 = 0 /\ 0 < tx_level db3 /\
    LSMTransaction_rollback txn db3 = (PyOk Py_True, db4) /\
    txn_tx_level txn = 1 /\ tx_level db4 = 2 /\
    db_trace (lsm db4) =
      db_trace (lsm db3) ++ [EvMutexEnter; EvRollback 1; EvMutexLeave] /\
    nTransOpen (lsm db4) = 1.
Proof.
  do 7 eexists.
  split; [vm_compute; reflexivity|].
  split; [vm_compute; reflexivity|].
  split; [vm_compute; reflexivity|].
  split; [reflexivity|].
  split; [reflexivity|].
  split; [vm_compute; reflexivity|].
  split; [vm_compute; reflexivity|].
  split; [reflexivity|].
  split; [reflexivity|].
  split; [vm_compute; reflexivity|].
  vm_compute; reflexivity.
Qed.

(** ** Transaction handles *)




(** ** Failing engine calls *)

Lemma lsm_begin_fault (db : lsm_db) (l rc : Z) (fs : list Z) :
  db_faults db = rc :: fs -> rc <> LSM_OK ->
  lsm_begin db l = (rc, set_faults fs (log (EvBegin l) db)).
Proof.
  intros H Hrc. unfold lsm_begin. rewrite (engine_call_fault _ _ _ _ H).
  apply Z.eqb_neq in Hrc. rewrite Hrc. reflexivity.
Qed.

Lemma lsm_commit_fault (db : lsm_db) (l rc : Z) (fs : list Z) :
  db_faults db = rc :: fs -> rc <> LSM_OK ->
  lsm_commit db l = (rc, set_faults fs (log (EvCommit l) db)).
Proof.
  intros H Hrc. unfold lsm_commit. rewrite (engine_call_fault _ _ _ _ H).
  apply Z.eqb_neq in Hrc. rewrite Hrc. reflexivity.
Qed.

Lemma lsm_rollback_fault (db : lsm_db) (l rc : Z) (fs : list Z) :
  db_faults db = rc :: fs -> rc <> LSM_OK ->
  lsm_rollback db l = (rc, set_faults fs (log (EvRollback l) db)).
Proof.
  intros H Hrc. unfold lsm_rollback. rewrite (engine_call_fault _ _ _ _ H).
  apply Z.eqb_neq in Hrc. rewrite Hrc. reflexivity.
Qed.

Lemma LSM_commit_inner_fault (db : LSM) (n rc : Z) (fs : list Z) (e : PyExc) :
  state db = PY_LSM_OPENED -> readonly db = 0 ->
  db_faults (lsm db) = rc :: fs -> rc <> LSM_OK -> pylsm_error rc = Some e ->
  fst (LSM_commit_inner db n) = PyRaise e /\
  tx_level (snd (LSM_commit_inner db n)) = tx_level db.
Proof.
  intros Hs Hr Hf Hrc He. unfold LSM_commit_inner.
  rewrite (ensure_writable_ok db Hs Hr).
  rewrite (lsm_commit_fault (lsm (LSM_MutexLock db)) _ rc fs Hf Hrc).
  rewrite He. split; reflexivity.
Qed.

Lemma LSM_rollback_inner_fault (db : LSM) (n rc : Z) (fs : list Z) (e : PyExc) :
  state db = PY_LSM_OPENED -> readonly db = 0 ->
  db_faults (lsm db) = rc :: fs -> rc <> LSM_OK -> pylsm_error rc = Some e ->
  fst (LSM_rollback_inner db n) = PyRaise e /\
  tx_level (snd (LSM_rollback_inner db n)) = tx_level db.
Proof.
  intros Hs Hr Hf Hrc He. unfold LSM_rollback_inner.
  rewrite (ensure_writable_ok db Hs Hr).
  rewrite (lsm_rollback_fault (lsm (LSM_MutexLock db)) _ rc fs Hf Hrc).
  rewrite He. split; reflexivity.
Qed.

(** The tracked level starts at 0 and [begin()] keeps it from going
    negative; nothing else writes it. *)
Lemma LSM_init_level (w : lsm_db) (args : init_args) :
  tx_level (snd (LSM_init w args)) = 0.
Proof.
  unfold LSM_init.
  repeat match goal with
         | |- context [if ?c then _ else _] => destruct c; [reflexivity|]
         end.
  destruct (init_compress _ _) as [[cid lvl]| | |]; try reflexivity.
  destruct (match a_logger args with Some false => true | _ => false end);
    [reflexivity|].
  destruct (engine_call EvNew _) as [rc e]. cbn [lsm set_lsm].
  destruct (pylsm_error rc); [reflexivity|].
  destruct (engine_call EvMutexNew _) as [rc2 e2]. cbn [lsm set_lsm].
  destruct (pylsm_error rc2); [reflexivity|].
  destruct (lsm_config_all _ _) as [rc3 e3]. reflexivity.
Qed.

Lemma LSM_begin_level_nonneg (db : LSM) :
  0 <= tx_level db -> 0 <= tx_level (snd (LSM_begin db)).
Proof.
  intros H. unfold LSM_begin.
  destruct (pylsm_ensure_writable db); [exact H|].
  destruct (Z.ltb_spec (tx_level db) 0); [lia|].
  destruct (tx_level db =? INT_MAX); [exact H|].
  destruct (lsm_begin (lsm db) (tx_level db + 1)) as [rc e].
  destruct (pylsm_error rc); simpl; lia.
Qed.

(** C4: on an opened writable connection (tracked level within the range of
    a C [int], not negative), when the engine call of [begin()], [commit()] or
    [rollback()] returns a result code other than [LSM_OK], the operation
    raises the exception [pylsm_error] assigns to that code and the tracked
    level is what it was before the call. *)
Theorem C4_failed_call_keeps_level (db : LSM) (rc : Z) (fs : list Z) :
  state db = PY_LSM_OPENED -> readonly db = 0 ->
  0 <= tx_level db < INT_MAX ->
  db_faults (lsm db) = rc :: fs -> rc <> LSM_OK ->
  exists e, pylsm_error rc = Some e /\
    fst (LSM_begin db) = PyRaise e /\
    tx_level (snd (LSM_begin db)) = tx_level db /\
    fst (LSM_commit db) = PyRaise e /\
    tx_level (snd (LSM_commit db)) = tx_level db /\
    fst (LSM_rollback db) = PyRaise e /\
    tx_level (snd (LSM_rollback db)) = tx_level db.
Proof.
  intros Hs Hr HL Hf Hrc.
  destruct (pylsm_error_fail rc Hrc) as [e He].
  exists e. split; [exact He|].
  assert (Hbegin : LSM_begin db =
            (PyRaise e,
             set_lsm (set_faults fs (log (EvBegin (tx_level db + 1)) (lsm db))) db)).
  { unfold LSM_begin. rewrite (ensure_writable_ok db Hs Hr).
    destruct (Z.ltb_spec (tx_level db) 0); [lia|].
    destruct (Z.eqb_spec (tx_level db) INT_MAX); [lia|].
    rewrite (lsm_begin_fault (lsm db) _ rc fs Hf Hrc).
    rewrite He. reflexivity. }
  rewrite Hbegin.
  rewrite LSM_commit_unfold, LSM_rollback_unfold by lia.
  destruct (LSM_commit_inner_fault db (tx_level db) rc fs e Hs Hr Hf Hrc He) as [Hc1 Hc2].
  destruct (LSM_rollback_inner_fault db (tx_level db) rc fs e Hs Hr Hf Hrc He) as [Hr1 Hr2].
  repeat split; assumption.
Qed.

(** The connection with [LSM_BUSY] scripted for the next engine call. *)
Lemma C4_failed_call_keeps_level_witness :
  let db := set_lsm (set_faults [LSM_BUSY] (lsm (snd (LSM_begin demo_db))))
              (snd (LSM_begin demo_db)) in
  exists e, pylsm_error LSM_BUSY = Some e /\
    fst (LSM_begin db) = PyRaise e /\
    tx_level (snd (LSM_begin db)) = tx_level db /\
    fst (LSM_commit db) = PyRaise e /\
    tx_level (snd (LSM_commit db)) = tx_level db /\
    fst (LSM_rollback db) = PyRaise e /\
    tx_level (snd (LSM_rollback db)) = tx_level db.
Proof.
  intros db.
  apply (C4_failed_call_keeps_level db LSM_BUSY []).
  - reflexivity.
  - reflexivity.
  - vm_compute. split; [discriminate | reflexivity].
  - reflexivity.
  - discriminate.
Defined.

(** ** Engine calls that succeed *)

Lemma lsm_commit_ok (db : lsm_db) (l : Z) :
  db_faults db = [] -> 0 <= l ->
  lsm_commit db l =
    (LSM_OK, set_trans (firstn (Z.to_nat l) (db_trans db)) (log (EvCommit l) db)).
Proof.
  intros Hf Hl. unfold lsm_commit. rewrite (engine_call_ok _ _ Hf).
  destruct (Z.ltb_spec l 0); [lia|]. reflexivity.
Qed.

Lemma lsm_begin_ok (db : lsm_db) (l : Z) :
  db_faults db = [] -> 0 <= l ->
  lsm_begin db l =
    (LSM_OK,
     set_trans (db_trans db ++ repeat (db_store db) (Z.to_nat (l - nTransOpen db)))
       (log (EvBegin l) db)).
Proof.
  intros Hf Hl. unfold lsm_begin. rewrite (engine_call_ok _ _ Hf).
  destruct (Z.ltb_spec l 0); [lia|]. reflexivity.
Qed.

Lemma lsm_rollback_ok (db : lsm_db) (l : Z) (mark : list item) :
  db_faults db = [] -> 1 <= l ->
  nth_error (db_trans db) (Z.to_nat (l - 1)) = Some mark ->
  lsm_rollback db l =
    (LSM_OK,
     set_trans (firstn (Z.to_nat l) (db_trans db)) (set_store mark (log (EvRollback l) db))).
Proof.
  intros Hf Hl Hm. unfold lsm_rollback. rewrite (engine_call_ok _ _ Hf).
  destruct (Z.ltb_spec l 0); [lia|].
  destruct (Z.eqb_spec l 0); [lia|].
  cbn [Z.eqb LSM_OK db_trans log].
  rewrite Hm.
  assert (Hlen : (Z.to_nat (l - 1) < List.length (db_trans db))%nat).
  { apply nth_error_Some. congruence. }
  unfold nTransOpen. cbn [db_trans log].
  destruct (Z.leb_spec l (Z.of_nat (List.length (db_trans db)))); [reflexivity|lia].
Qed.

Lemma LSM_commit_inner_ok (db : LSM) (n : Z) :
  state db = PY_LSM_OPENED -> readonly db = 0 -> db_faults (lsm db) = [] -> 0 <= n ->
  LSM_commit_inner db n =
    (PyOk Py_True,
     set_lsm (log EvMutexLeave
                (set_trans (firstn (Z.to_nat n) (db_trans (lsm db)))
                   (log (EvCommit n) (log EvMutexEnter (lsm db))))) db).
Proof.
  intros Hs Hr Hf Hn. unfold LSM_commit_inner.
  rewrite (ensure_writable_ok db Hs Hr).
  destruct (Z.ltb_spec n 0); [lia|].
  rewrite lsm_commit_ok by assumption.
  reflexivity.
Qed.

Lemma LSM_rollback_inner_ok (db : LSM) (n : Z) (mark : list item) :
  state db = PY_LSM_OPENED -> readonly db = 0 -> db_faults (lsm db) = [] -> 1 <= n ->
  nth_error (db_trans (lsm db)) (Z.to_nat (n - 1)) = Some mark ->
  LSM_rollback_inner db n =
    (PyOk Py_True,
     set_lsm (log EvMutexLeave
                (set_trans (firstn (Z.to_nat n) (db_trans (lsm db)))
                   (set_store mark (log (EvRollback n) (log EvMutexEnter (lsm db)))))) db).
Proof.
  intros Hs Hr Hf Hn Hm. unfold LSM_rollback_inner.
  rewrite (ensure_writable_ok db Hs Hr).
  destruct (Z.ltb_spec n 0); [lia|].
  rewrite (lsm_rollback_ok _ _ mark) by assumption.
  reflexivity.
Qed.

Lemma nth_error_app_repeat {A : Type} (l : list A) (x : A) (k i : nat) :
  (List.length l <= i < List.length l + k)%nat ->
  nth_error (l ++ repeat x k) i = Some x.
Proof.
  intros H. rewrite nth_error_app2 by lia.
  apply nth_error_repeat. lia.
Qed.

(** Writes keep the connection opened and writable and do not touch the
    transaction marks. *)
Lemma apply_write_inv (w : write) (db : LSM) :
  state db = PY_LSM_OPENED -> readonly db = 0 -> db_faults (lsm db) = [] ->
  let db' := apply_write w db in
  state db' = PY_LSM_OPENED /\ readonly db' = 0 /\ db_faults (lsm db') = [] /\
  db_trans (lsm db') = db_trans (lsm db).
Proof.
  intros Hs Hr Hf. destruct w as [k v|k]; unfold apply_write.
  - unfold LSM_insert. rewrite (ensure_writable_ok db Hs Hr).
    destruct (binary db); simpl.
    + destruct (too_large k); [auto|]. destruct (too_large v); [auto|].
      unfold lsm_insert. rewrite engine_call_ok by exact Hf. simpl. auto.
    + destruct (too_large k); [auto|]. destruct (too_large v); [auto|].
      unfold lsm_insert. rewrite engine_call_ok by exact Hf. simpl. auto.
  - unfold LSM_delete. rewrite (ensure_writable_ok db Hs Hr).
    destruct (binary db); simpl.
    + destruct (too_large k); [auto|].
      unfold lsm_delete. rewrite engine_call_ok by exact Hf. simpl. auto.
    + destruct (too_large k); [auto|].
      unfold lsm_delete. rewrite engine_call_ok by exact Hf. simpl. auto.
Qed.

Lemma apply_writes_inv (ws : list write) (db : LSM) :
  state db = PY_LSM_OPENED -> readonly db = 0 -> db_faults (lsm db) = [] ->
  let db' := apply_writes ws db in
  state db' = PY_LSM_OPENED /\ readonly db' = 0 /\ db_faults (lsm db') = [] /\
  db_trans (lsm db') = db_trans (lsm db).
Proof.
  revert db. induction ws as [|w ws IH]; intros db Hs Hr Hf; simpl.
  - auto.
  - destruct (apply_write_inv w db Hs Hr Hf) as (Hs' & Hr' & Hf' & Ht').
    destruct (IH (apply_write w db) Hs' Hr' Hf') as (A & B & C & D).
    unfold apply_writes in *. simpl. rewrite <- Ht'. auto.
Qed.

(** C3: [commit()] of a handle bound to level [n], on an opened writable
    connection and an engine whose calls succeed.  The engine is committed at
    level [n - 1] and at once begun again at level [n]: afterwards exactly [n]
    transactions are open and the store is the one at the time of the commit.
    Writes made afterwards leave [n] transactions open, and a later
    [rollback()] of the handle brings the store back to what it was at the
    commit.  The commit of a normal scope exit makes the same engine commit
    and no begin: at most [n - 1] transactions stay open. *)
Theorem C3_commit_reopens (tx : LSMTransaction) (db : LSM) (n : Z) (ws : list write) :
  state db = PY_LSM_OPENED -> readonly db = 0 -> db_faults (lsm db) = [] ->
  txn_tx_level tx = n -> 1 <= n -> txn_state tx <> PY_LSM_CLOSED ->
  let db1 := snd (LSMTransaction_commit tx db) in
  let db2 := apply_writes ws db1 in
  let db3 := snd (LSMTransaction_ctx_exit tx db PyNone) in
  fst (LSMTransaction_commit tx db) = PyOk Py_True /\
  db_trace (lsm db1) =
    db_trace (lsm db) ++ [EvMutexEnter; EvCommit (n - 1); EvMutexLeave; EvBegin n] /\
  db_store (lsm db1) = db_store (lsm db) /\
  nTransOpen (lsm db1) = n /\
  nTransOpen (lsm db2) = n /\
  fst (LSMTransaction_rollback tx db2) = PyOk Py_True /\
  db_store (lsm (snd (LSMTransaction_rollback tx db2))) = db_store (lsm db) /\
  db_trace (lsm db3) =
    db_trace (lsm db) ++ [EvMutexEnter; EvCommit (n - 1); EvMutexLeave] /\
  nTransOpen (lsm db3) = Z.min (nTransOpen (lsm db)) (n - 1).
Proof.
  intros Hs Hr Hf Hn Hn1 Hopen db1 db2 db3.
  assert (Hmin : (n =? INT_MIN) = false) by (apply Z.eqb_neq; unfold INT_MIN; lia).
  assert (E1 : LSMTransaction_commit tx db =
    (PyOk Py_True,
     set_lsm
       (set_trans
          (firstn (Z.to_nat (n - 1)) (db_trans (lsm db)) ++
           repeat (db_store (lsm db))
             (Z.to_nat (n - Z.of_nat (List.length (firstn (Z.to_nat (n - 1)) (db_trans (lsm db)))))))
          (log (EvBegin n)
             (log EvMutexLeave
                (set_trans (firstn (Z.to_nat (n - 1)) (db_trans (lsm db)))
                   (log (EvCommit (n - 1)) (log EvMutexEnter (lsm db))))))) db)).
  { unfold LSMTransaction_commit. rewrite Hn, Hmin.
    rewrite LSM_commit_inner_ok by (assumption || lia).
    rewrite lsm_begin_ok by (simpl; assumption || lia).
    reflexivity. }
  set (T1 := firstn (Z.to_nat (n - 1)) (db_trans (lsm db))) in *.
  assert (HT1 : (List.length T1 <= Z.to_nat (n - 1))%nat).
  { subst T1. rewrite length_firstn. lia. }
  assert (Hlen1 : nTransOpen (lsm db1) = n).
  { subst db1. rewrite E1. unfold nTransOpen. simpl.
    rewrite length_app, repeat_length. lia. }
  assert (Hst1 : state db1 = PY_LSM_OPENED /\ readonly db1 = 0 /\ db_faults (lsm db1) = []).
  { subst db1. rewrite E1. simpl. auto. }
  destruct Hst1 as (Hs1 & Hr1 & Hf1).
  destruct (apply_writes_inv ws db1 Hs1 Hr1 Hf1) as (Hs2 & Hr2 & Hf2 & Ht2).
  fold db2 in Hs2, Hr2, Hf2, Ht2.
  assert (Hmark : nth_error (db_trans (lsm db2)) (Z.to_nat (n - 1)) = Some (db_store (lsm db))).
  { rewrite Ht2. subst db1. rewrite E1. simpl.
    apply nth_error_app_repeat. lia. }
  assert (E2 := LSM_rollback_inner_ok db2 n _ Hs2 Hr2 Hf2 Hn1 Hmark).
  assert (E3 : LSMTransaction_ctx_exit tx db PyNone =
    (PyOk PyNone, mk_LSMTransaction n PY_LSM_CLOSED,
     set_lsm (log EvMutexLeave
                (set_trans T1 (log (EvCommit (n - 1)) (log EvMutexEnter (lsm db))))) db)).
  { unfold LSMTransaction_ctx_exit.
    destruct (Z.eqb_spec (txn_state tx) PY_LSM_CLOSED); [contradiction|].
    simpl. rewrite Hn, Hmin.
    rewrite LSM_commit_inner_ok by (assumption || lia). reflexivity. }
  repeat split.
  - rewrite E1. reflexivity.
  - subst db1. rewrite E1. simpl. rewrite <- !app_assoc. reflexivity.
  - subst db1. rewrite E1. reflexivity.
  - exact Hlen1.
  - unfold nTransOpen. rewrite Ht2. exact Hlen1.
  - unfold LSMTransaction_rollback. rewrite Hn, E2. reflexivity.
  - unfold LSMTransaction_rollback. rewrite Hn, E2. reflexivity.
  - subst db3. rewrite E3. simpl. rewrite <- !app_assoc. reflexivity.
  - subst db3. rewrite E3. unfold nTransOpen. simpl. subst T1.
    rewrite length_firstn. lia.
Qed.

(** The worked example of the README: write, commit through the handle,
    write again, a nested scope that writes and ends normally, then a rollback
    through the outer handle. *)
Example commit_then_continue :
  let s1 := LSM_transaction demo_db in
  let txn := mk_LSMTransaction 1 PY_LSM_INITIALIZED in
  let d1 := demo_put "x" "1" (snd s1) in
  let d2 := snd (LSMTransaction_commit txn d1) in
  let d3 := demo_put "x" "2" d2 in
  let txn2 := mk_LSMTransaction 2 PY_LSM_INITIALIZED in
  let d4 := demo_put "x" "3" (snd (LSM_transaction d3)) in
  let d5 := snd (LSMTransaction_ctx_exit txn2 d4 PyNone) in
  let d6 := snd (LSMTransaction_rollback txn d5) in
  fst s1 = PyOk txn /\ fst (LSM_transaction d3) = PyOk txn2 /\
  db_store (lsm d5) = [("x"%string, "3"%string)] /\
  db_store (lsm d6) = [("x"%string, "1"%string)].
Proof.
  cbv zeta.
  split; [vm_compute; reflexivity|].
  split; [vm_compute; reflexivity|].
  split; vm_compute; reflexivity.
Qed.

Lemma C3_commit_reopens_witness :
  let tx := mk_LSMTransaction 1 PY_LSM_INITIALIZED in
  let db := demo_put "x" "1" (snd (LSM_begin demo_db)) in
  let db1 := snd (LSMTransaction_commit tx db) in
  let db2 := apply_writes [WPut "x" "2"; WDel "y"] db1 in
  db_store (lsm db) = [("x"%string, "1"%string)] /\
  db_store (lsm db2) = [("x"%string, "2"%string)] /\
  nTransOpen (lsm db2) = 1 /\
  db_store (lsm (snd (LSMTransaction_rollback tx db2))) = db_store (lsm db) /\
  nTransOpen (lsm (snd (LSMTransaction_ctx_exit tx db PyNone))) =
    Z.min (nTransOpen (lsm db)) (1 - 1).
Proof.
  intros tx db db1 db2.
  split; [vm_compute; reflexivity|].
  split; [vm_compute; reflexivity|].
  assert (Hs : state db = PY_LSM_OPENED) by reflexivity.
  assert (Hr : readonly db = 0) by reflexivity.
  assert (Hf : db_faults (lsm db) = []) by reflexivity.
  assert (Hn : txn_tx_level tx = 1) by reflexivity.
  assert (Hc : txn_state tx <> PY_LSM_CLOSED) by discriminate.
  destruct (C3_commit_reopens tx db 1 [WPut "x" "2"; WDel "y"] Hs Hr Hf Hn
              (Z.le_refl 1) Hc)
    as (_ & _ & _ & _ & H5 & _ & H7 & _ & H9).
  exact (conj H5 (conj H7 H9)).
Defined.

(** ** The mutex around engine calls *)

Lemma LSM_begin_trace (db : LSM) :
  state db = PY_LSM_OPENED -> readonly db = 0 -> 0 <= tx_level db < INT_MAX ->
  db_trace (lsm (snd (LSM_begin db))) =
    db_trace (lsm db) ++ [EvBegin (tx_level db + 1)].
Proof.
  intros Hs Hr HL. unfold LSM_begin. rewrite (ensure_writable_ok db Hs Hr).
  destruct (Z.ltb_spec (tx_level db) 0); [lia|].
  destruct (Z.eqb_spec (tx_level db) INT_MAX); [lia|].
  pose proof (lsm_begin_trace (lsm db) (tx_level db + 1)) as T.
  destruct (lsm_begin (lsm db) (tx_level db + 1)) as [rc e]. simpl in T.
  destruct (pylsm_error rc); simpl; exact T.
Qed.

(** C8, at [db.begin()] on an opened writable connection: the only event
    [LSM_begin] adds to the trace is the engine call [lsm_begin]; no mutex
    operation comes before or after it, while [LSM_commit_inner] brackets its
    engine call with the mutex.  [commit()] of a transaction handle repeats
    the defect: its [lsm_begin] comes after the mutex has been released. *)
Theorem C8_begin_outside_mutex :
  db_trace (lsm (snd (LSM_begin demo_db))) = db_trace (lsm demo_db) ++ [EvBegin 1] /\
  mutex_held_throughout false [EvBegin 1] = false /\
  db_trace (lsm (snd (LSM_commit_inner demo_db 0))) =
    db_trace (lsm demo_db) ++ [EvMutexEnter; EvCommit 0; EvMutexLeave] /\
  mutex_held_throughout false [EvMutexEnter; EvCommit 0; EvMutexLeave] = true /\
  db_trace (lsm (snd (LSMTransaction_commit (mk_LSMTransaction 1 PY_LSM_INITIALIZED)
                        (snd (LSM_begin demo_db))))) =
    db_trace (lsm (snd (LSM_begin demo_db))) ++
      [EvMutexEnter; EvCommit 0; EvMutexLeave; EvBegin 1] /\
  mutex_held_throughout false [EvMutexEnter; EvCommit 0; EvMutexLeave; EvBegin 1] = false.
Proof.
  split; [vm_compute; reflexivity|].
  split; [reflexivity|].
  split; [vm_compute; reflexivity|].
  split; [reflexivity|].
  split; [vm_compute; reflexivity|].
  reflexivity.
Qed.

(** ** The block size *)

Lemma is_power_of_two_spec (n : Z) :
  0 < n -> (is_power_of_two n = 1 <-> exists k, 0 <= k /\ n = 2 ^ k).
Proof.
  intros Hn. unfold is_power_of_two.
  destruct (Z.eqb_spec n 0); [lia|].
  pose proof (Z.log2_log2_up_exact n Hn) as E.
  destruct (Z.eqb_spec (Z.log2_up n) (Z.log2 n)) as [Heq|Hne]; split.
  - intros _. symmetry in Heq. apply E in Heq. destruct Heq as [k Hk].
    exists k. split; [|exact Hk].
    destruct (Z.lt_ge_cases k 0) as [Hneg|]; [|assumption].
    rewrite (Z.pow_neg_r 2 k Hneg) in Hk. lia.
  - reflexivity.
  - discriminate.
  - intros [k [_ Hk]]. exfalso. apply Hne. symmetry. apply E. exists k. exact Hk.
Qed.

Lemma block_size_ok_spec (b : Z) :
  block_size_ok b = true <-> exists k, 6 <= k <= 16 /\ b = 2 ^ k.
Proof.
  unfold block_size_ok. split.
  - intros H. apply andb_prop in H. destruct H as [H Hhi].
    apply andb_prop in H. destruct H as [Hp Hlo].
    apply Z.leb_le in Hlo. apply Z.ltb_lt in Hhi.
    assert (Hu : to_uint32 b = b) by (unfold to_uint32; apply Z.mod_small; lia).
    rewrite Hu in Hp.
    assert (Hp1 : is_power_of_two b = 1).
    { unfold is_power_of_two in *. destruct (b =? 0); [discriminate|].
      destruct (Z.log2_up b =? Z.log2 b); [reflexivity|discriminate]. }
    apply is_power_of_two_spec in Hp1; [|lia].
    destruct Hp1 as [k [Hk Hb]]. exists k. split; [|exact Hb].
    subst b. split.
    + destruct (Z.lt_ge_cases k 6) as [Hlt|]; [|assumption].
      assert (2 ^ k <= 2 ^ 5) by (apply Z.pow_le_mono_r; lia).
      change (2 ^ 5) with 32 in *. lia.
    + destruct (Z.lt_ge_cases 16 k) as [Hlt|]; [|lia].
      assert (2 ^ 17 <= 2 ^ k) by (apply Z.pow_le_mono_r; lia).
      change (2 ^ 17) with 131072 in *. lia.
  - intros [k [Hk Hb]].
    assert (Hcases : k = 6 \/ k = 7 \/ k = 8 \/ k = 9 \/ k = 10 \/ k = 11 \/ k = 12 \/
                     k = 13 \/ k = 14 \/ k = 15 \/ k = 16) by lia.
    subst b.
    repeat (destruct Hcases as [->|Hcases]; [vm_compute; reflexivity|]).
    subst k. vm_compute. reflexivity.
Qed.

(** C9, as the code has it: the guard of [LSM_init] lets [b] through exactly
    when [b] is a power of two from 64 to 65536, both included; with every
    other argument at its default that is exactly when the construction
    succeeds; and whatever the other arguments are, a block size the guard
    refuses ends the construction with [ValueError] before any engine call. *)
Theorem C9_block_size_guard (w : lsm_db) (args : init_args) (b : Z) :
  (block_size_ok b = true <-> exists k, 6 <= k <= 16 /\ b = 2 ^ k) /\
  (block_size_ok b = true <-> fst (LSM_init empty_engine (args_with_block b)) = None) /\
  (block_size_ok (a_block_size args) = false ->
   fst (LSM_init w args) = Some ValueError /\ lsm (snd (LSM_init w args)) = w).
Proof.
  split; [apply block_size_ok_spec|]. split.
  - unfold LSM_init, args_with_block. cbn [block_size autoflush autocheckpoint safety
      a_block_size a_autoflush a_autocheckpoint a_safety a_compress a_compress_level
      a_readonly a_binary a_logger compress_level].
    change (LSM_MAX_AUTOFLUSH <? 1024) with false.
    change (1024 <? 0) with false. change (2048 <=? 0) with false.
    cbv iota.
    destruct (block_size_ok b); cbn [negb]; cbv iota.
    + split; [intros _|reflexivity]. vm_compute. reflexivity.
    + split; discriminate.
  - intros H. unfold LSM_init.
    cbn [block_size autoflush autocheckpoint safety compress_level].
    rewrite H. cbn [negb].
    destruct (LSM_MAX_AUTOFLUSH <? a_autoflush args); [split; reflexivity|].
    destruct (a_autoflush args <? 0); [split; reflexivity|].
    destruct (a_autocheckpoint args <=? 0); split; reflexivity.
Qed.

(** The failure of C9 as stated: 65536 is accepted, and it is not between 64
    and 65535. *)
Lemma C9_block_size_counterexample :
  fst (LSM_init empty_engine (args_with_block 65536)) = None /\
  65536 = 2 ^ 16 /\ ~ (64 <= 65536 <= 65535).
Proof.
  split; [vm_compute; reflexivity|]. split; [reflexivity|]. lia.
Qed.

Lemma C9_block_size_guard_witness :
  fst (LSM_init empty_engine (args_with_block 100)) = Some ValueError /\
  lsm (snd (LSM_init empty_engine (args_with_block 100))) = empty_engine.
Proof.
  destruct (C9_block_size_guard empty_engine (args_with_block 100) 100)
    as (_ & _ & H).
  apply H. vm_compute. reflexivity.
Defined.

(** ** Deleting a key *)

Lemma seek_eq_absent (l before : list item) (k : key) :
  (forall it, In it l -> key_eqb (fst it) k = false) ->
  seek_eq before l k = CsrEof.
Proof.
  revert before. induction l as [|x r IH]; intros before H; simpl.
  - reflexivity.
  - rewrite (H x (or_introl eq_refl)). apply IH.
    intros it Hit. apply H. right. exact Hit.
Qed.

Lemma seek_eq_present (l before : list item) (k : key) :
  (exists it, In it l /\ key_eqb (fst it) k = true) ->
  lsm_csr_valid (seek_eq before l k) = true.
Proof.
  revert before. induction l as [|x r IH]; intros before [it [Hin Hk]]; simpl.
  - destruct Hin.
  - destruct (key_eqb (fst x) k) eqn:E; [reflexivity|].
    apply IH. destruct Hin as [->|Hin]; [congruence|].
    exists it. auto.
Qed.

Lemma store_delete_absent (l : list item) (k : key) :
  (forall it, In it l -> key_eqb (fst it) k = false) -> store_delete k l = l.
Proof.
  intros H. unfold store_delete. induction l as [|x r IH]; simpl.
  - reflexivity.
  - rewrite (H x (or_introl eq_refl)). simpl. f_equal. apply IH.
    intros it Hit. apply H. right. exact Hit.
Qed.

Lemma str_or_bytes_check_buffer (b : bool) (k : string) :
  str_or_bytes_check b (py_buffer b k) = PyOk k.
Proof. destruct b; reflexivity. Qed.

Lemma parse_buffer_buffer (b : bool) (k : string) :
  parse_buffer b (py_buffer b k) = PyOk k.
Proof. destruct b; reflexivity. Qed.

(** [pylsm_delitem] on an engine whose calls succeed. *)
Lemma pylsm_delitem_ok (db : lsm_db) (k : key) :
  db_faults db = [] ->
  pylsm_delitem db k =
    if lsm_csr_valid (seek_eq [] (db_store db) k)
    then (0, set_store (store_delete k (db_store db))
               (log (EvDelete k) (log EvCsrClose
                  (log (EvCsrSeek k LSM_SEEK_EQ) (log EvCsrOpen db)))))
    else (-1, log EvCsrClose (log (EvCsrSeek k LSM_SEEK_EQ) (log EvCsrOpen db))).
Proof.
  intros Hf. unfold pylsm_delitem, lsm_csr_open.
  rewrite (engine_call_ok _ _ Hf). cbn [Z.eqb LSM_OK negb].
  unfold lsm_csr_seek. rewrite engine_call_ok by exact Hf.
  cbn [Z.eqb LSM_OK negb csr_seek LSM_SEEK_EQ db_store log].
  destruct (lsm_csr_valid (seek_eq [] (db_store db) k)); cbn [negb].
  - unfold lsm_csr_close, lsm_delete.
    rewrite (engine_call_ok EvCsrClose) by exact Hf. cbn [snd].
    rewrite (engine_call_ok (EvDelete k)) by exact Hf. reflexivity.
  - unfold lsm_csr_close. rewrite (engine_call_ok EvCsrClose) by exact Hf.
    reflexivity.
Qed.

(** C10: on an opened writable connection and an engine whose calls
    succeed, [del db[key]] opens a cursor and seeks [key] with [LSM_SEEK_EQ]
    before anything else; when the key is absent it raises [KeyError], makes
    no delete call and leaves the store as it is; when the key is present the
    engine delete follows.  [db.delete(key)] makes the engine delete at once
    and returns [None], the key being there or not. *)
Theorem C10_delitem_checks_delete_does_not (db : LSM) (k : string) :
  state db = PY_LSM_OPENED -> readonly db = 0 -> db_faults (lsm db) = [] ->
  too_large k = false ->
  let kobj := py_buffer (binary db) k in
  let deleted := LSM_set_del_item db kobj None in
  let removed := LSM_delete db kobj in
  ((forall it, In it (db_store (lsm db)) -> key_eqb (fst it) k = false) ->
   fst deleted = Some KeyError /\
   db_store (lsm (snd deleted)) = db_store (lsm db) /\
   db_trace (lsm (snd deleted)) =
     db_trace (lsm db) ++
       [EvMutexEnter; EvCsrOpen; EvCsrSeek k LSM_SEEK_EQ; EvCsrClose; EvMutexLeave] /\
   db_store (lsm (snd removed)) = db_store (lsm db)) /\
  ((exists it, In it (db_store (lsm db)) /\ key_eqb (fst it) k = true) ->
   fst deleted = None /\
   db_store (lsm (snd deleted)) = store_delete k (db_store (lsm db)) /\
   db_trace (lsm (snd deleted)) =
     db_trace (lsm db) ++
       [EvMutexEnter; EvCsrOpen; EvCsrSeek k LSM_SEEK_EQ; EvCsrClose; EvDelete k;
        EvMutexLeave]) /\
  fst removed = PyOk PyNone /\
  db_store (lsm (snd removed)) = store_delete k (db_store (lsm db)) /\
  db_trace (lsm (snd removed)) =
    db_trace (lsm db) ++ [EvMutexEnter; EvDelete k; EvMutexLeave].
Proof.
  intros Hs Hr Hf Hk kobj deleted removed.
  assert (Ed : deleted =
    let '(rc, e) := pylsm_delitem (lsm (LSM_MutexLock db)) k in
    (if rc =? -1 then Some KeyError else pylsm_error rc,
     LSM_MutexLeave (set_lsm e (LSM_MutexLock db)))).
  { subst deleted kobj. unfold LSM_set_del_item.
    rewrite (ensure_writable_ok db Hs Hr).
    destruct (binary db); cbn [py_buffer str_or_bytes_check]; rewrite Hk;
      destruct (pylsm_delitem (lsm (LSM_MutexLock db)) k) as [rc e];
      destruct (rc =? -1); reflexivity. }
  rewrite pylsm_delitem_ok in Ed by exact Hf.
  assert (Er : removed =
    (PyOk PyNone,
     set_lsm (log EvMutexLeave
                (set_store (store_delete k (db_store (lsm db)))
                   (log (EvDelete k) (log EvMutexEnter (lsm db))))) db)).
  { subst removed kobj. unfold LSM_delete.
    rewrite (ensure_writable_ok db Hs Hr), parse_buffer_buffer, Hk.
    unfold lsm_delete. rewrite engine_call_ok by exact Hf. reflexivity. }
  cbn [lsm LSM_MutexLock set_lsm db_store log] in Ed.
  split; [|split; [|split; [|split]]].
  - intros Habs. rewrite (seek_eq_absent _ _ _ Habs) in Ed. cbn in Ed.
    rewrite Ed, Er. cbn. rewrite <- !app_assoc.
    rewrite (store_delete_absent _ _ Habs). auto.
  - intros Hpres. rewrite (seek_eq_present _ [] _ Hpres) in Ed. cbn in Ed.
    rewrite Ed. cbn. rewrite <- !app_assoc. auto.
  - rewrite Er. reflexivity.
  - rewrite Er. reflexivity.
  - rewrite Er. cbn. rewrite <- !app_assoc. reflexivity.
Qed.

Lemma C10_delitem_checks_delete_does_not_witness :
  fst (LSM_set_del_item demo_db4 (PyStr "zz") None) = Some KeyError /\
  db_store (lsm (snd (LSM_set_del_item demo_db4 (PyStr "zz") None))) =
    db_store (lsm demo_db4) /\
  fst (LSM_delete demo_db4 (PyStr "zz")) = PyOk PyNone.
Proof.
  destruct (C10_delitem_checks_delete_does_not demo_db4 "zz"
              eq_refl eq_refl eq_refl eq_refl) as (Habs & _ & Hdel & _).
  assert (A : forall it, In it (db_store (lsm demo_db4)) ->
                         key_eqb (fst it) "zz"%string = false).
  { intros it Hin. vm_compute in Hin.
    repeat (destruct Hin as [<-|Hin]; [reflexivity|]). destruct Hin. }
  destruct (Habs A) as (H1 & H2 & _).
  exact (conj H1 (conj H2 Hdel)).
Defined.

(** ** Cursor misuse *)

(** What a seek that returned a value tells about the cursor. *)
Lemma LSMCursor_seek_returned (self0 self : LSMCursor) (db0 db : LSM) (k r : PyObject)
    (mode : option Z) :
  LSMCursor_seek self0 db0 k mode = (PyOk r, self, db) ->
  csr_state self = PY_LSM_OPENED /\ seek_mode self = seek_mode_of mode /\
  r = PyBool (lsm_csr_valid (cursor self)).
Proof.
  unfold LSMCursor_seek, pylsm_ensure_csr_opened, pylsm_ensure_opened.
  destruct (Z.eqb_spec (csr_state self0) PY_LSM_ITERATING) as [|Hit]; [discriminate|].
  destruct (state db0 =? PY_LSM_OPENED).
  - destruct (Z.eqb_spec (csr_state self0) PY_LSM_OPENED) as [Hop|Hop].
    + cbn [orb].
      destruct (lsm_csr_valid (cursor self0)); cbn [negb raised]; [|discriminate].
      cbn [seek_mode csr_state cursor].
      destruct (pylsm_seek_mode_check _); cbn [negb]; [|discriminate].
      destruct (str_or_bytes_check (binary db0) k) as [pKey| | |]; try discriminate.
      destruct (too_large pKey); [discriminate|].
      destruct (lsm_csr_seek _ _ _ _) as [[rc e] c].
      destruct (pylsm_error rc); [discriminate|].
      cbn [py_return cursor]. intros H. inversion H; subst. cbn. auto.
    + cbn [orb]. destruct (csr_state self0 =? PY_LSM_ITERATING) eqn:E.
      * apply Z.eqb_eq in E. contradiction.
      * cbn [raised]. discriminate.
  - cbn [seek_mode csr_state cursor].
    destruct (pylsm_seek_mode_check _); cbn [negb]; [|discriminate].
    destruct (str_or_bytes_check (binary db0) k) as [pKey| | |]; try discriminate.
    destruct (too_large pKey); [discriminate|].
    destruct (lsm_csr_seek _ _ _ _) as [[rc e] c].
    destruct (pylsm_error rc); discriminate.
Qed.

Lemma LSMCursor_previous_eq (self : LSMCursor) (db : LSM) :
  seek_mode self = LSM_SEEK_EQ ->
  LSMCursor_previous self db = (PyRaise RuntimeError, self, db).
Proof.
  intros Hm. unfold LSMCursor_previous, pylsm_ensure_csr_opened, pylsm_ensure_opened.
  destruct (csr_state self =? PY_LSM_ITERATING) eqn:Hit; [reflexivity|].
  rewrite Hm. cbn [Z.eqb LSM_SEEK_EQ].
  destruct (state db =? PY_LSM_OPENED); [|reflexivity].
  rewrite orb_false_r.
  destruct (csr_state self =? PY_LSM_OPENED); [|reflexivity].
  destruct (lsm_csr_valid (cursor self)); reflexivity.
Qed.

(** [value()] of an opened cursor that is on a record, on an opened
    connection: no guard stops it.  It takes the mutex, runs
    [pylsm_cursor_value_fetch] and releases the mutex; its outcome is the
    outcome of the fetch. *)
Lemma LSMCursor_value_fetches (self : LSMCursor) (db : LSM) :
  csr_state self = PY_LSM_OPENED -> lsm_csr_valid (cursor self) = true ->
  state db = PY_LSM_OPENED ->
  LSMCursor_value self db =
    (fst (pylsm_cursor_value_fetch (lsm (LSM_MutexLock db)) (cursor self) (binary db)),
     LSM_MutexLeave
       (set_lsm (snd (pylsm_cursor_value_fetch (lsm (LSM_MutexLock db)) (cursor self)
                        (binary db)))
          (LSM_MutexLock db))).
Proof.
  intros Hst Hv Hs.
  unfold LSMCursor_value, pylsm_ensure_csr_opened, pylsm_ensure_opened.
  rewrite Hst, Hs, Hv. cbn [Z.eqb PY_LSM_OPENED PY_LSM_ITERATING orb negb].
  change (binary (LSM_MutexLock db)) with (binary db).
  destruct (pylsm_cursor_value_fetch _ _ _) as [result e].
  destruct result; reflexivity.
Qed.

Lemma lsm_csr_key_trace (db : lsm_db) (c : lsm_cursor) :
  db_trace (snd (fst (lsm_csr_key db c))) = db_trace db ++ [EvCsrKey].
Proof.
  unfold lsm_csr_key. pose proof (engine_call_trace EvCsrKey db) as H.
  destruct (engine_call EvCsrKey db) as [rc db1]. cbn [snd] in H.
  destruct (rc =? LSM_OK); [destruct c|]; exact H.
Qed.

Lemma lsm_csr_value_trace (db : lsm_db) (c : lsm_cursor) :
  db_trace (snd (fst (lsm_csr_value db c))) = db_trace db ++ [EvCsrValue].
Proof.
  unfold lsm_csr_value. pose proof (engine_call_trace EvCsrValue db) as H.
  destruct (engine_call EvCsrValue db) as [rc db1]. cbn [snd] in H.
  destruct (rc =? LSM_OK); [destruct c|]; exact H.
Qed.

(** The engine calls of [pylsm_cursor_value_fetch] on a cursor that is on a
    record: [lsm_csr_key], then [lsm_csr_value] unless the first call
    returned an error code. *)
Lemma pylsm_cursor_value_fetch_trace (db : lsm_db) (c : lsm_cursor) (bin : bool) :
  lsm_csr_valid c = true ->
  db_trace (snd (pylsm_cursor_value_fetch db c bin)) =
    db_trace db ++
      EvCsrKey :: (if hd LSM_OK (db_faults db) =? LSM_OK then [EvCsrValue] else []).
Proof.
  intros Hv. destruct c as [|b x a]; [discriminate|].
  unfold pylsm_cursor_value_fetch, lsm_csr_key.
  assert (Hok : forall d, db_trace d = db_trace db ++ [EvCsrKey] ->
            db_trace (snd (let '(rc, db2, pValue) := lsm_csr_value d (CsrAt b x a) in
                           match pylsm_error rc with
                           | Some exc => (PyRaise exc, db2)
                           | None =>
                               (PyOk (py_buffer bin
                                        match pValue with Some v => v | None => EmptyString end),
                                db2)
                           end))
            = db_trace db ++ [EvCsrKey; EvCsrValue]).
  { intros d Hd. pose proof (lsm_csr_value_trace d (CsrAt b x a)) as H2.
    destruct (lsm_csr_value d (CsrAt b x a)) as [[rc2 db2] pValue]. cbn [fst snd] in H2.
    destruct (pylsm_error rc2); cbn [snd]; rewrite H2, Hd, <- app_assoc; reflexivity. }
  destruct (db_faults db) as [|rc fs] eqn:Hf; cbn [hd].
  - rewrite (engine_call_ok EvCsrKey db Hf).
    change (LSM_OK =? LSM_OK) with true. cbv iota. rewrite pylsm_error_ok.
    apply Hok. reflexivity.
  - rewrite (engine_call_fault EvCsrKey db rc fs Hf).
    destruct (Z.eqb_spec rc LSM_OK) as [E|E].
    + subst rc. rewrite pylsm_error_ok. apply Hok. reflexivity.
    + destruct (pylsm_error_fail rc E) as [e He]. rewrite He. reflexivity.
Qed.

(** C7, as the code has it.  After a seek that used [LSM_SEEK_EQ] (given or
    by default), [previous()] raises [RuntimeError] and leaves the cursor and
    the connection as they were: the mutex is not taken, the cursor is not
    moved, and no engine call other than the validity query [lsm_csr_valid]
    of [pylsm_ensure_csr_opened], which comes before the test of the mode, is
    made.  After a seek that used [LSM_SEEK_LEFAST] and found a record,
    [value()] on an opened connection is not rejected: whatever the engine
    answers, it takes the mutex, calls [lsm_csr_key] and, unless that call
    returned an error code, [lsm_csr_value], releases the mutex, and its
    outcome is the outcome of that fetch. *)
Theorem C7_previous_rejected_value_not (self0 self : LSMCursor) (db0 db1 db : LSM)
    (k r : PyObject) (mode : option Z) :
  LSMCursor_seek self0 db0 k mode = (PyOk r, self, db1) ->
  (seek_mode_of mode = LSM_SEEK_EQ ->
   LSMCursor_previous self db = (PyRaise RuntimeError, self, db)) /\
  (seek_mode_of mode = LSM_SEEK_LEFAST -> r = Py_True -> state db = PY_LSM_OPENED ->
   fst (LSMCursor_value self db) =
     fst (pylsm_cursor_value_fetch (lsm (LSM_MutexLock db)) (cursor self) (binary db)) /\
   db_trace (lsm (snd (LSMCursor_value self db))) =
     db_trace (lsm db) ++ [EvMutexEnter; EvCsrKey] ++
       (if hd LSM_OK (db_faults (lsm db)) =? LSM_OK then [EvCsrValue] else []) ++
       [EvMutexLeave]).
Proof.
  intros Hseek.
  destruct (LSMCursor_seek_returned _ _ _ _ _ _ _ Hseek) as (Hst & Hm & Hr).
  split.
  - intros He. apply LSMCursor_previous_eq. congruence.
  - intros _ Htrue Hs. subst r.
    assert (Hv : lsm_csr_valid (cursor self) = true).
    { destruct (lsm_csr_valid (cursor self)); [reflexivity|discriminate]. }
    rewrite (LSMCursor_value_fetches self db Hst Hv Hs). cbn [fst snd].
    split; [reflexivity|].
    pose proof (pylsm_cursor_value_fetch_trace (lsm (LSM_MutexLock db)) (cursor self)
                  (binary db) Hv) as Htr.
    cbn [LSM_MutexLeave LSM_MutexLock lsm set_lsm log db_trace db_faults] in *.
    rewrite Htr. rewrite <- !app_assoc. reflexivity.
Qed.

(** The failure of C7 as stated: after a seek with [LSM_SEEK_EQ] that found
    its key, [next()] returns [False] and raises nothing; after a seek with
    [LSM_SEEK_LEFAST] that found a record, [value()] is not stopped before
    the engine: it takes the mutex and calls [lsm_csr_key] and
    [lsm_csr_value]. *)
Lemma C7_cursor_misuse_counterexample :
  (exists self db,
     LSMCursor_seek demo_cursor demo_db4 (PyStr "k1") (Some LSM_SEEK_EQ)
       = (PyOk Py_True, self, db) /\
     LSMCursor_next self db = (PyOk Py_False, self, db)) /\
  (exists self db,
     LSMCursor_seek demo_cursor demo_db4 (PyStr "k1") (Some LSM_SEEK_LEFAST)
       = (PyOk Py_True, self, db) /\
     db_trace (lsm (snd (LSMCursor_value self db))) =
       db_trace (lsm db) ++ [EvMutexEnter; EvCsrKey; EvCsrValue; EvMutexLeave]).
Proof.
  split.
  - do 2 eexists. split; [vm_compute; reflexivity|]. vm_compute. reflexivity.
  - do 2 eexists. split; [vm_compute; reflexivity|]. vm_compute. reflexivity.
Qed.

Lemma C7_previous_rejected_value_not_witness :
  (let seek := LSMCursor_seek demo_cursor demo_db4 (PyStr "k1") None in
   LSMCursor_previous (snd (fst seek)) demo_db4 =
     (PyRaise RuntimeError, snd (fst seek), demo_db4)) /\
  (let seek := LSMCursor_seek demo_cursor demo_db4 (PyStr "k1") (Some LSM_SEEK_LEFAST) in
   fst (LSMCursor_value (snd (fst seek)) demo_db4) =
     fst (pylsm_cursor_value_fetch (lsm (LSM_MutexLock demo_db4)) (cursor (snd (fst seek)))
            (binary demo_db4)) /\
   db_trace (lsm (snd (LSMCursor_value (snd (fst seek)) demo_db4))) =
     db_trace (lsm demo_db4) ++ [EvMutexEnter; EvCsrKey; EvCsrValue; EvMutexLeave]).
Proof.
  split.
  - intros seek.
    assert (H : seek = (PyOk Py_True, snd (fst seek), snd seek))
      by (vm_compute; reflexivity).
    destruct (C7_previous_rejected_value_not _ _ _ _ demo_db4 _ _ _ H) as [Hprev _].
    apply Hprev. reflexivity.
  - intros seek.
    assert (H : seek = (PyOk Py_True, snd (fst seek), snd seek))
      by (vm_compute; reflexivity).
    destruct (C7_previous_rejected_value_not _ _ _ _ demo_db4 _ _ _ H) as [_ Hval].
    exact (Hval eq_refl eq_refl eq_refl).
Defined.

(** ** Slices *)


Lemma lsm_csr_next_ok (db : lsm_db) (c : lsm_cursor) :
  db_faults db = [] -> lsm_csr_next db c = (LSM_OK, log EvCsrNext db, csr_next c).
Proof. intros H. unfold lsm_csr_next. rewrite (engine_call_ok _ _ H). reflexivity. Qed.

Lemma lsm_csr_prev_ok (db : lsm_db) (c : lsm_cursor) :
  db_faults db = [] -> lsm_csr_prev db c = (LSM_OK, log EvCsrPrev db, csr_prev c).
Proof. intros H. unfold lsm_csr_prev. rewrite (engine_call_ok _ _ H). reflexivity. Qed.

Lemma lsm_csr_cmp_ok (db : lsm_db) (b a : list item) (x : item) (k : key) :
  db_faults db = [] ->
  lsm_csr_cmp db (CsrAt b x a) k =
    (LSM_OK, log (EvCsrCmp k) db, cmp_to_Z (String.compare (fst x) k)).
Proof. intros H. unfold lsm_csr_cmp. rewrite (engine_call_ok _ _ H). reflexivity. Qed.

Lemma cmp_forward (a k : string) :
  (0 <? cmp_to_Z (String.compare a k)) = negb (String.leb a k).
Proof. unfold String.leb. destruct (String.compare a k); reflexivity. Qed.

Lemma cmp_backward (a k : string) :
  (cmp_to_Z (String.compare a k) <? 0) = negb (String.leb k a).
Proof.
  unfold String.leb. rewrite (String.compare_antisym a k).
  destruct (String.compare k a); reflexivity.
Qed.

Lemma leb_ltb (a k : string) : negb (String.leb k a) = String.ltb a k.
Proof.
  unfold String.leb, String.ltb. rewrite (String.compare_antisym a k).
  destruct (String.compare k a); reflexivity.
Qed.


Lemma lsm_csr_key_ok (db : lsm_db) (b a : list item) (x : item) :
  db_faults db = [] ->
  lsm_csr_key db (CsrAt b x a) = (LSM_OK, log EvCsrKey db, Some (fst x)).
Proof. intros H. unfold lsm_csr_key. rewrite (engine_call_ok _ _ H). reflexivity. Qed.

Lemma lsm_csr_value_ok (db : lsm_db) (b a : list item) (x : item) :
  db_faults db = [] ->
  lsm_csr_value db (CsrAt b x a) = (LSM_OK, log EvCsrValue db, Some (snd x)).
Proof. intros H. unfold lsm_csr_value. rewrite (engine_call_ok _ _ H). reflexivity. Qed.

Lemma items_fetch_ok (db : lsm_db) (b a : list item) (x : item) (bin : bool) :
  db_faults db = [] ->
  pylsm_cursor_items_fetch db (CsrAt b x a) bin =
    (item_obj bin x, log EvCsrValue (log EvCsrKey db)).
Proof.
  intros H. unfold pylsm_cursor_items_fetch.
  rewrite lsm_csr_key_ok by exact H.
  rewrite lsm_csr_value_ok by exact H. reflexivity.
Qed.

Lemma items_fetch_cursor_at (db : lsm_db) (d : Z) (b a : list item) (x : item)
    (bin : bool) :
  db_faults db = [] ->
  pylsm_cursor_items_fetch db (cursor_at d b x a) bin =
    (item_obj bin x, log EvCsrValue (log EvCsrKey db)).
Proof.
  intros H. unfold cursor_at.
  destruct (d =? PY_LSM_SLICE_FORWARD); apply items_fetch_ok; exact H.
Qed.

Lemma cursor_at_valid (d : Z) (behind ahead : list item) (x : item) :
  lsm_csr_valid (cursor_at d behind x ahead) = true.
Proof. unfold cursor_at. destruct (d =? PY_LSM_SLICE_FORWARD); reflexivity. Qed.


Lemma ensure_opened_ok (db : LSM) :
  state db = PY_LSM_OPENED -> pylsm_ensure_opened db = None.
Proof. intros H. unfold pylsm_ensure_opened. rewrite H. reflexivity. Qed.



Lemma stop_check_spec {T : Type} (d : Z) (k : key) (x : item) (stop go : T) :
  is_direction d ->
  (if (d =? PY_LSM_SLICE_FORWARD) && (0 <? cmp_to_Z (String.compare (fst x) k))
   then stop
   else if (d =? PY_LSM_SLICE_BACKWARD) && (cmp_to_Z (String.compare (fst x) k) <? 0)
        then stop else go)
  = if in_stop d (Some k) x then go else stop.
Proof.
  intros [-> | ->]; cbn [Z.eqb Pos.eqb PY_LSM_SLICE_FORWARD PY_LSM_SLICE_BACKWARD andb in_stop].
  - rewrite cmp_forward. destruct (String.leb (fst x) k); reflexivity.
  - rewrite cmp_backward. destruct (String.leb k (fst x)); reflexivity.
Qed.

(** The first pull on a view whose cursor is on a record. *)
Lemma next_opened_spec (d : Z) (ps pe : option key) (s : Z) :
  is_direction d ->
  forall (ahead behind : list item) (x : item) (db : LSM),
    state db = PY_LSM_OPENED -> db_faults (lsm db) = [] ->
    exists r self' db',
      LSMSliceView_next
        (mk_LSMSliceView (Some (cursor_at d behind x ahead)) ps pe PY_LSM_OPENED s d 0)
        db = (r, self', db') /\
      state db' = PY_LSM_OPENED /\ binary db' = binary db /\ db_faults (lsm db') = [] /\
      if in_stop d pe x
      then r = PyOk (item_obj (binary db) x) /\
           self' = mk_LSMSliceView (Some (cursor_at d behind x ahead)) ps pe
                     PY_LSM_ITERATING s d 0
      else r = PyRaise StopIteration.
Proof.
  intros Hd ahead behind x db Hst Hf.
  unfold LSMSliceView_next. rewrite (ensure_opened_ok db Hst).
  cbn [sv_state sv_cursor Z.eqb Pos.eqb PY_LSM_ITERATING PY_LSM_CLOSED PY_LSM_OPENED
       orb negb].
  rewrite cursor_at_valid. cbn [negb].
  unfold pylsm_slice_first.
  cbn [sv_cursor set_sv_state pStop pStart step direction counter sv_state
       LSM_MutexLock lsm set_lsm].
  destruct pe as [k|].
  - assert (Ecmp : lsm_csr_cmp (log EvMutexEnter (lsm db)) (cursor_at d behind x ahead) k
                   = (LSM_OK, log (EvCsrCmp k) (log EvMutexEnter (lsm db)),
                      cmp_to_Z (String.compare (fst x) k))).
    { unfold cursor_at. destruct (d =? PY_LSM_SLICE_FORWARD);
        apply lsm_csr_cmp_ok; exact Hf. }
    rewrite Ecmp. cbn [Z.eqb LSM_OK negb].
    rewrite (stop_check_spec d k x _ _ Hd).
    destruct (in_stop d (Some k) x).
    + rewrite cursor_at_valid.
      cbn [negb Z.eqb LSM_OK pylsm_error sv_cursor LSM_MutexLeave lsm set_lsm
           set_sv_state].
      rewrite cursor_at_valid. cbn [negb].
      rewrite items_fetch_cursor_at by (simpl; exact Hf).
      do 3 eexists. split; [reflexivity|]. cbn. auto.
    + cbn. do 3 eexists. split; [reflexivity|]. cbn. auto.
  - cbv beta iota. rewrite cursor_at_valid.
    cbn [negb Z.eqb LSM_OK pylsm_error sv_cursor in_stop LSM_MutexLeave lsm set_lsm
         set_sv_state].
    rewrite cursor_at_valid. cbn [negb].
    rewrite items_fetch_cursor_at by (simpl; exact Hf).
    do 3 eexists. split; [reflexivity|]. cbn. auto.
Qed.



Lemma seek_ge_ahead (l before : list item) (k : key) :
  ahead_of PY_LSM_SLICE_FORWARD (seek_ge before l k)
  = drop_while (start_skip PY_LSM_SLICE_FORWARD (Some k)) l.
Proof.
  revert before. induction l as [|x r IH]; intros before; simpl.
  - reflexivity.
  - rewrite <- leb_ltb. destruct (String.leb k (fst x)); simpl.
    + reflexivity.
    + apply IH.
Qed.

Lemma seek_le_ahead (l after : list item) (k : key) :
  ahead_of PY_LSM_SLICE_BACKWARD (seek_le after l k)
  = drop_while (start_skip PY_LSM_SLICE_BACKWARD (Some k)) l.
Proof.
  revert after. induction l as [|x r IH]; intros after; simpl.
  - reflexivity.
  - rewrite <- leb_ltb. destruct (String.leb (fst x) k); simpl.
    + reflexivity.
    + apply IH.
Qed.

Lemma csr_first_ahead (l : list item) :
  ahead_of PY_LSM_SLICE_FORWARD (csr_first l) = l.
Proof. destruct l; reflexivity. Qed.

Lemma csr_last_ahead (l : list item) :
  ahead_of PY_LSM_SLICE_BACKWARD (csr_last l) = rev l.
Proof. unfold csr_last. destruct (rev l); reflexivity. Qed.

Lemma drop_while_none (d : Z) (l : list item) :
  drop_while (start_skip d None) l = l.
Proof. destruct l; reflexivity. Qed.

(** [__iter__] on a view fresh from [LSMSliceView_init]. *)
Lemma iter_spec (d : Z) (ps pe : option key) (s : Z) (db : LSM) :
  is_direction d -> state db = PY_LSM_OPENED -> db_faults (lsm db) = [] ->
  exists c db',
    LSMSliceView_iter (mk_LSMSliceView None ps pe PY_LSM_INITIALIZED s d 0) db
      = (PyOk tt, mk_LSMSliceView (Some c) ps pe PY_LSM_OPENED s d 0, db') /\
    state db' = PY_LSM_OPENED /\ binary db' = binary db /\ db_faults (lsm db') = [] /\
    ahead_of d c = drop_while (start_skip d ps) (ordered d (db_store (lsm db))).
Proof.
  intros Hd Hst Hf.
  unfold LSMSliceView_iter. rewrite (ensure_opened_ok db Hst).
  cbn [sv_state Z.eqb PY_LSM_INITIALIZED negb set_sv_state sv_cursor pStart pStop step
       direction counter LSM_MutexLock lsm set_lsm].
  unfold pylsm_slice_view_iter, lsm_csr_open.
  rewrite (engine_call_ok EvCsrOpen) by exact Hf.
  cbn [Z.eqb LSM_OK negb set_sv_cursor set_sv_state sv_cursor pStart pStop step
       direction counter sv_state].
  destruct ps as [k|].
  - unfold lsm_csr_seek. rewrite (engine_call_ok (EvCsrSeek k _)) by exact Hf.
    cbn [Z.eqb LSM_OK].
    destruct Hd as [-> | ->]; cbn.
    + do 2 eexists. split; [reflexivity|]. cbn.
      repeat split; auto. apply seek_ge_ahead.
    + do 2 eexists. split; [reflexivity|]. cbn.
      repeat split; auto. apply seek_le_ahead.
  - destruct Hd as [-> | ->]; cbn [Z.eqb Pos.eqb PY_LSM_SLICE_FORWARD PY_LSM_SLICE_BACKWARD].
    + unfold lsm_csr_first. rewrite (engine_call_ok EvCsrFirst) by exact Hf.
      cbn [Z.eqb LSM_OK negb lsm set_lsm LSM_MutexLeave db_store log].
      do 2 eexists. split; [reflexivity|].
      split; [exact Hst|]. split; [reflexivity|]. split; [exact Hf|].
      rewrite drop_while_none. apply csr_first_ahead.
    + unfold lsm_csr_last. rewrite (engine_call_ok EvCsrLast) by exact Hf.
      cbn [Z.eqb LSM_OK negb lsm set_lsm LSM_MutexLeave db_store log].
      do 2 eexists. split; [reflexivity|].
      split; [exact Hst|]. split; [reflexivity|]. split; [exact Hf|].
      rewrite drop_while_none. apply csr_last_ahead.
Qed.




Lemma is_None_bound (b : bool) (o : option key) :
  is_None (bound_obj b o) = match o with None => true | Some _ => false end.
Proof. destruct o, b; reflexivity. Qed.

(** [LSMSliceView_init] on bounds of the right type and an [int] step. *)
Lemma init_spec (db : LSM) (start stop : option key) (s : Z) :
  state db = PY_LSM_OPENED -> LONG_MIN <= s <= LONG_MAX ->
  LSMSliceView_init LSMSliceView_new db (bound_obj (binary db) start)
    (bound_obj (binary db) stop) (PyLong s)
  = PyOk (if 0 <? s
          then mk_LSMSliceView None start stop PY_LSM_INITIALIZED s PY_LSM_SLICE_FORWARD 0
          else mk_LSMSliceView None stop start PY_LSM_INITIALIZED s PY_LSM_SLICE_BACKWARD 0).
Proof.
  intros Hst Hs. unfold LSMSliceView_init. rewrite (ensure_opened_ok db Hst).
  unfold PyLong_AsLong.
  destruct (Z.leb_spec LONG_MIN s); [|lia].
  destruct (Z.leb_spec s LONG_MAX); [|lia].
  cbn [andb].
  destruct (0 <? s);
    cbn [Z.eqb Pos.eqb PY_LSM_SLICE_FORWARD PY_LSM_SLICE_BACKWARD];
    rewrite !is_None_bound;
    destruct start as [a|], stop as [b|]; cbn [bound_obj];
    rewrite ?str_or_bytes_check_buffer; reflexivity.
Qed.














(** * Further properties of the code *)

(** ** Point lookups *)

Lemma compare_refl (k : string) : String.compare k k = Eq.
Proof.
  pose proof (String.compare_antisym k k) as H.
  destruct (String.compare k k); try reflexivity; discriminate.
Qed.

Lemma key_eqb_refl (k : key) : key_eqb k k = true.
Proof. unfold key_eqb. rewrite compare_refl. reflexivity. Qed.

(** After an insertion the exact seek lands on the inserted record. *)
Lemma seek_eq_store_insert (k : key) (v : string) (l before : list item) :
  exists b a, seek_eq before (store_insert k v l) k = CsrAt b (k, v) a.
Proof.
  revert before. induction l as [|[k' v'] r IH]; intros before; simpl.
  - rewrite key_eqb_refl. eauto.
  - destruct (String.compare k k') eqn:E; simpl.
    + rewrite key_eqb_refl. eauto.
    + rewrite key_eqb_refl. eauto.
    + assert (Hne : key_eqb k' k = false).
      { unfold key_eqb. rewrite String.compare_antisym, E. reflexivity. }
      rewrite Hne. apply IH.
Qed.

Lemma store_delete_no_key (k : key) (l : list item) :
  forall it, In it (store_delete k l) -> key_eqb (fst it) k = false.
Proof.
  intros it Hin. unfold store_delete in Hin. apply filter_In in Hin.
  destruct Hin as [_ H]. apply negb_true_iff in H. exact H.
Qed.

(** [pylsm_getitem] on an engine whose calls succeed. *)
Lemma pylsm_getitem_ok (db : lsm_db) (k : key) (mode : Z) (c : lsm_cursor) :
  db_faults db = [] -> csr_seek (db_store db) k mode = Some c ->
  pylsm_getitem db k mode =
    match c with
    | CsrEof =>
        (-1, log EvCsrClose (log (EvCsrSeek k mode) (log EvCsrOpen db)), None)
    | CsrAt _ x _ =>
        if mode =? LSM_SEEK_LEFAST
        then (0, log EvCsrClose (log (EvCsrSeek k mode) (log EvCsrOpen db)), None)
        else (0, log EvCsrClose (log EvCsrValue
                   (log (EvCsrSeek k mode) (log EvCsrOpen db))), Some (snd x))
    end.
Proof.
  intros Hf Hc. unfold pylsm_getitem, lsm_csr_open.
  rewrite (engine_call_ok EvCsrOpen) by exact Hf. cbn [Z.eqb LSM_OK negb].
  unfold lsm_csr_seek. rewrite (engine_call_ok (EvCsrSeek k mode)) by exact Hf.
  cbn [Z.eqb LSM_OK negb db_store log]. rewrite Hc. cbn [Z.eqb negb].
  unfold lsm_csr_close.
  destruct c as [|b x a]; cbn [lsm_csr_valid negb].
  - rewrite (engine_call_ok EvCsrClose) by exact Hf. reflexivity.
  - destruct (mode =? LSM_SEEK_LEFAST).
    + rewrite (engine_call_ok EvCsrClose) by exact Hf. reflexivity.
    + unfold lsm_csr_value. rewrite (engine_call_ok EvCsrValue) by exact Hf.
      cbn [Z.eqb LSM_OK negb].
      rewrite (engine_call_ok EvCsrClose) by exact Hf. reflexivity.
Qed.

(** The lookup of a key of the type of the connection, on an engine whose
    calls succeed, in terms of the position the seek reaches. *)
Lemma getitem_lookup_ok (db : LSM) (k : string) (mode : Z) (c : lsm_cursor) :
  db_faults (lsm db) = [] -> too_large k = false ->
  pylsm_seek_mode_check mode = true ->
  csr_seek (db_store (lsm db)) k mode = Some c ->
  getitem_lookup db (py_buffer (binary db) k) mode =
    match c with
    | CsrEof =>
        (PyRaise KeyError,
         set_lsm (log EvMutexLeave (log EvCsrClose (log (EvCsrSeek k mode)
                    (log EvCsrOpen (log EvMutexEnter (lsm db)))))) db)
    | CsrAt _ x _ =>
        if mode =? LSM_SEEK_LEFAST
        then (PyOk (GetObject Py_True),
              set_lsm (log EvMutexLeave (log EvCsrClose (log (EvCsrSeek k mode)
                         (log EvCsrOpen (log EvMutexEnter (lsm db)))))) db)
        else (PyOk (GetObject (py_buffer (binary db) (snd x))),
              set_lsm (log EvMutexLeave (log EvCsrClose (log EvCsrValue
                         (log (EvCsrSeek k mode)
                            (log EvCsrOpen (log EvMutexEnter (lsm db))))))) db)
    end.
Proof.
  intros Hf Hk Hm Hc. unfold getitem_lookup.
  rewrite Hm, str_or_bytes_check_buffer, Hk. cbn [negb].
  rewrite (pylsm_getitem_ok _ k mode c) by (try exact Hf; exact Hc).
  destruct c as [|b x a]; [reflexivity|].
  destruct (mode =? LSM_SEEK_LEFAST); reflexivity.
Qed.

Lemma LSM_getitem_key (db : LSM) (k : string) :
  state db = PY_LSM_OPENED ->
  LSM_getitem db (py_buffer (binary db) k)
  = getitem_lookup db (py_buffer (binary db) k) LSM_SEEK_EQ.
Proof.
  intros Hs. unfold LSM_getitem. rewrite (ensure_opened_ok db Hs).
  destruct (binary db); reflexivity.
Qed.


(** [db[key] = value] on an engine whose calls succeed. *)
Lemma LSM_set_item_ok (db : LSM) (k v : string) :
  state db = PY_LSM_OPENED -> readonly db = 0 -> db_faults (lsm db) = [] ->
  too_large k = false -> too_large v = false ->
  LSM_set_del_item db (py_buffer (binary db) k) (Some (py_buffer (binary db) v)) =
    (None,
     set_lsm (log EvMutexLeave
                (set_store (store_insert k v (db_store (lsm db)))
                   (log (EvInsert k v) (log EvMutexEnter (lsm db))))) db).
Proof.
  intros Hs Hr Hf Hk Hv. unfold LSM_set_del_item.
  rewrite (ensure_writable_ok db Hs Hr).
  destruct (binary db); cbn [py_buffer str_or_bytes_check]; rewrite Hk, Hv;
    unfold lsm_insert; rewrite engine_call_ok by exact Hf; reflexivity.
Qed.

(** Round trip of an item assignment.  On an opened writable connection and an
    engine whose calls succeed, [db[key] = value] raises nothing; afterwards
    [db[key]] returns [value] and [key in db] is true, whatever the store held
    before. *)
Theorem set_then_get (db : LSM) (k v : string) :
  state db = PY_LSM_OPENED -> readonly db = 0 -> db_faults (lsm db) = [] ->
  too_large k = false -> too_large v = false ->
  let kobj := py_buffer (binary db) k in
  let db' := snd (LSM_set_del_item db kobj (Some (py_buffer (binary db) v))) in
  fst (LSM_set_del_item db kobj (Some (py_buffer (binary db) v))) = None /\
  fst (LSM_getitem db' kobj) = PyOk (GetObject (py_buffer (binary db) v)) /\
  fst (LSM_contains db' kobj) = PyOk (true, None).
Proof.
  intros Hs Hr Hf Hk Hv kobj db'.
  subst db' kobj. rewrite (LSM_set_item_ok db k v Hs Hr Hf Hk Hv). cbn [fst snd].
  set (db' := set_lsm _ db).
  assert (Hs' : state db' = PY_LSM_OPENED) by exact Hs.
  assert (Hf' : db_faults (lsm db') = []) by exact Hf.
  assert (Hb' : binary db' = binary db) by reflexivity.
  destruct (seek_eq_store_insert k v (db_store (lsm db)) []) as (b & a & Hseek).
  split; [reflexivity|]. split.
  - rewrite <- Hb'. rewrite (LSM_getitem_key db' k Hs').
    rewrite (getitem_lookup_ok db' k LSM_SEEK_EQ (CsrAt b (k, v) a) Hf' Hk eq_refl)
      by (change (Some (seek_eq [] (store_insert k v (db_store (lsm db))) k)
                  = Some (CsrAt b (k, v) a)); f_equal; exact Hseek).
    reflexivity.
  - unfold LSM_contains. rewrite (ensure_opened_ok db' Hs').
    rewrite <- Hb', str_or_bytes_check_buffer, Hk.
    unfold pylsm_contains, lsm_csr_open.
    rewrite (engine_call_ok EvCsrOpen) by exact Hf'. cbn [Z.eqb LSM_OK negb].
    unfold lsm_csr_seek. rewrite (engine_call_ok (EvCsrSeek k _)) by exact Hf'.
    cbn [Z.eqb LSM_OK negb csr_seek LSM_SEEK_EQ db_store log].
    change (db_store (lsm (LSM_MutexLock db')))
      with (store_insert k v (db_store (lsm db))).
    rewrite Hseek. reflexivity.
Qed.

Lemma set_then_get_witness :
  fst (LSM_getitem (snd (LSM_set_del_item demo_db4 (PyStr "k2") (Some (PyStr "two"))))
         (PyStr "k2"))
  = PyOk (GetObject (PyStr "two")).
Proof.
  destruct (set_then_get demo_db4 "k2" "two" eq_refl eq_refl eq_refl eq_refl eq_refl)
    as (_ & H & _).
  exact H.
Defined.


Lemma seek_eq_eof (l before : list item) (k : key) :
  seek_eq before l k = CsrEof ->
  forall it, In it l -> key_eqb (fst it) k = false.
Proof.
  revert before. induction l as [|x r IH]; intros before H it Hin; [destruct Hin|].
  simpl in H. destruct (key_eqb (fst x) k) eqn:E; [discriminate|].
  destruct Hin as [<-|Hin]; [exact E|]. exact (IH _ H it Hin).
Qed.

(** [del db[key]] on an engine whose calls succeed. *)
Lemma LSM_del_item_ok (db : LSM) (k : string) :
  state db = PY_LSM_OPENED -> readonly db = 0 -> db_faults (lsm db) = [] ->
  too_large k = false ->
  LSM_set_del_item db (py_buffer (binary db) k) None =
    if lsm_csr_valid (seek_eq [] (db_store (lsm db)) k)
    then (None,
          set_lsm (log EvMutexLeave
                     (set_store (store_delete k (db_store (lsm db)))
                        (log (EvDelete k) (log EvCsrClose
                           (log (EvCsrSeek k LSM_SEEK_EQ)
                              (log EvCsrOpen (log EvMutexEnter (lsm db)))))))) db)
    else (Some KeyError,
          set_lsm (log EvMutexLeave
                     (log EvCsrClose (log (EvCsrSeek k LSM_SEEK_EQ)
                        (log EvCsrOpen (log EvMutexEnter (lsm db)))))) db).
Proof.
  intros Hs Hr Hf Hk. unfold LSM_set_del_item.
  rewrite (ensure_writable_ok db Hs Hr).
  destruct (binary db); cbn [py_buffer str_or_bytes_check]; rewrite Hk;
    rewrite pylsm_delitem_ok by exact Hf;
    cbn [lsm LSM_MutexLock set_lsm db_store log];
    destruct (lsm_csr_valid (seek_eq [] (db_store (lsm db)) k)); reflexivity.
Qed.

(** [key in db] on an engine whose calls succeed. *)
Lemma LSM_contains_ok (db : LSM) (k : string) :
  state db = PY_LSM_OPENED -> db_faults (lsm db) = [] -> too_large k = false ->
  fst (LSM_contains db (py_buffer (binary db) k))
  = PyOk (lsm_csr_valid (seek_eq [] (db_store (lsm db)) k), None).
Proof.
  intros Hs Hf Hk. unfold LSM_contains. rewrite (ensure_opened_ok db Hs).
  rewrite str_or_bytes_check_buffer, Hk.
  unfold pylsm_contains, lsm_csr_open.
  rewrite (engine_call_ok EvCsrOpen) by exact Hf. cbn [Z.eqb LSM_OK negb].
  unfold lsm_csr_seek. rewrite (engine_call_ok (EvCsrSeek k _)) by exact Hf.
  cbn [Z.eqb LSM_OK negb csr_seek LSM_SEEK_EQ db_store log lsm LSM_MutexLock set_lsm].
  destruct (lsm_csr_valid (seek_eq [] (db_store (lsm db)) k)); reflexivity.
Qed.

(** After [del db[key]] on an opened writable connection and an engine whose
    calls succeed, whether the deletion found the key or raised [KeyError]:
    [db[key]] raises [KeyError], [key in db] is false, and a second
    [del db[key]] raises [KeyError]. *)
Theorem del_then_get (db : LSM) (k : string) :
  state db = PY_LSM_OPENED -> readonly db = 0 -> db_faults (lsm db) = [] ->
  too_large k = false ->
  let kobj := py_buffer (binary db) k in
  let db' := snd (LSM_set_del_item db kobj None) in
  fst (LSM_getitem db' kobj) = PyRaise KeyError /\
  fst (LSM_contains db' kobj) = PyOk (false, None) /\
  fst (LSM_set_del_item db' kobj None) = Some KeyError.
Proof.
  intros Hs Hr Hf Hk kobj db'.
  assert (H : state db' = PY_LSM_OPENED /\ readonly db' = 0 /\
              db_faults (lsm db') = [] /\ binary db' = binary db /\
              seek_eq [] (db_store (lsm db')) k = CsrEof).
  { subst db' kobj. rewrite (LSM_del_item_ok db k Hs Hr Hf Hk).
    destruct (lsm_csr_valid (seek_eq [] (db_store (lsm db)) k)) eqn:E; cbn.
    - repeat split; auto. apply seek_eq_absent. apply store_delete_no_key.
    - repeat split; auto.
      destruct (seek_eq [] (db_store (lsm db)) k); [reflexivity|discriminate]. }
  destruct H as (Hs' & Hr' & Hf' & Hb' & Hseek).
  subst kobj. rewrite <- Hb'.
  split; [|split].
  - rewrite (LSM_getitem_key db' k Hs').
    rewrite (getitem_lookup_ok db' k LSM_SEEK_EQ CsrEof Hf' Hk eq_refl)
      by (cbn; f_equal; exact Hseek).
    reflexivity.
  - rewrite (LSM_contains_ok db' k Hs' Hf' Hk), Hseek. reflexivity.
  - rewrite (LSM_del_item_ok db' k Hs' Hr' Hf' Hk), Hseek. reflexivity.
Qed.

Lemma del_then_get_witness :
  fst (LSM_getitem (snd (LSM_set_del_item demo_db4 (PyStr "k1") None)) (PyStr "k1"))
  = PyRaise KeyError.
Proof.
  destruct (del_then_get demo_db4 "k1" eq_refl eq_refl eq_refl eq_refl) as (H & _).
  exact H.
Defined.







(** [pylsm_getitem] when opening the cursor or the seek fails: the result
    code of the failed call, and no buffer. *)
Lemma pylsm_getitem_fault (db : lsm_db) (k : key) (mode rc : Z) (pre fs : list Z) :
  pre = [] \/ pre = [LSM_OK] -> rc <> LSM_OK ->
  db_faults db = pre ++ rc :: fs ->
  exists db', pylsm_getitem db k mode = (rc, db', None).
Proof.
  intros Hpre Hrc Hf. apply Z.eqb_neq in Hrc. unfold pylsm_getitem, lsm_csr_open.
  destruct Hpre as [-> | ->]; cbn [app] in Hf.
  - rewrite (engine_call_fault EvCsrOpen _ _ _ Hf). rewrite Hrc.
    unfold LSM_OK in Hrc. rewrite Hrc. cbn [negb]. eauto.
  - rewrite (engine_call_fault EvCsrOpen _ _ _ Hf).
    cbn [Z.eqb LSM_OK negb]. unfold lsm_csr_seek.
    rewrite (engine_call_fault (EvCsrSeek k mode) _ rc fs) by reflexivity.
    rewrite Hrc. unfold LSM_OK in Hrc. rewrite Hrc. cbn [negb]. eauto.
Qed.

Lemma pylsm_contains_fault (db : lsm_db) (k : key) (rc : Z) (pre fs : list Z) :
  pre = [] \/ pre = [LSM_OK] -> rc <> LSM_OK ->
  db_faults db = pre ++ rc :: fs ->
  exists db', pylsm_contains db k = (rc, db').
Proof.
  intros Hpre Hrc Hf. apply Z.eqb_neq in Hrc. unfold pylsm_contains, lsm_csr_open.
  destruct Hpre as [-> | ->]; cbn [app] in Hf.
  - rewrite (engine_call_fault EvCsrOpen _ _ _ Hf). rewrite Hrc.
    unfold LSM_OK in Hrc. rewrite Hrc. cbn [negb]. eauto.
  - rewrite (engine_call_fault EvCsrOpen _ _ _ Hf).
    cbn [Z.eqb LSM_OK negb]. unfold lsm_csr_seek.
    rewrite (engine_call_fault (EvCsrSeek k LSM_SEEK_EQ) _ rc fs) by reflexivity.
    rewrite Hrc. unfold LSM_OK in Hrc. rewrite Hrc. cbn [negb]. eauto.
Qed.

(** [LSM_getitem] tests the value buffer before the result code: when the
    engine fails to open the cursor or to seek (with a result code other than
    [LSM_OK], and other than the [-1] the wrapper reads as "not found"),
    [db[key]] raises nothing and returns [True], while [key in db] on the same
    connection raises the exception of that result code. *)
Theorem getitem_failure_returns_true
  (db : LSM) (k : string) (rc : Z) (pre fs : list Z) :
  state db = PY_LSM_OPENED -> too_large k = false ->
  pre = [] \/ pre = [LSM_OK] -> rc <> LSM_OK -> rc <> -1 ->
  db_faults (lsm db) = pre ++ rc :: fs ->
  fst (LSM_getitem db (py_buffer (binary db) k)) = PyOk (GetObject Py_True) /\
  exists e, pylsm_error rc = Some e /\
            fst (LSM_contains db (py_buffer (binary db) k)) = PyRaise e.
Proof.
  intros Hs Hk Hpre Hrc Hrc1 Hf. split.
  - rewrite (LSM_getitem_key db k Hs). unfold getitem_lookup.
    rewrite str_or_bytes_check_buffer, Hk.
    change (pylsm_seek_mode_check LSM_SEEK_EQ) with true. cbn [negb].
    destruct (pylsm_getitem_fault (lsm (LSM_MutexLock db)) k LSM_SEEK_EQ rc pre fs Hpre Hrc Hf)
      as [db' E].
    rewrite E. apply Z.eqb_neq in Hrc1. rewrite Hrc1. reflexivity.
  - destruct (pylsm_error_fail rc Hrc) as [e He]. exists e. split; [exact He|].
    unfold LSM_contains. rewrite (ensure_opened_ok db Hs).
    rewrite str_or_bytes_check_buffer, Hk.
    destruct (pylsm_contains_fault (lsm (LSM_MutexLock db)) k rc pre fs Hpre Hrc Hf)
      as [db' E].
    rewrite E. apply Z.eqb_neq in Hrc1. rewrite Hrc1.
    apply Z.eqb_neq in Hrc. unfold LSM_OK in Hrc. rewrite Hrc. rewrite He. reflexivity.
Qed.

Lemma getitem_failure_returns_true_witness :
  let db := set_lsm (set_faults [LSM_IOERR] (lsm demo_db4)) demo_db4 in
  fst (LSM_getitem db (PyStr "k1")) = PyOk (GetObject Py_True).
Proof.
  intros db.
  destruct (getitem_failure_returns_true db "k1" LSM_IOERR [] [] eq_refl eq_refl
              (or_introl eq_refl)) as (H & _); [discriminate|discriminate|reflexivity|].
  exact H.
Defined.

(** ** The tracked level along a sequence of calls *)

Lemma engine_call_parts (ev : event) (db : lsm_db) :
  db_store (snd (engine_call ev db)) = db_store db /\
  db_trans (snd (engine_call ev db)) = db_trans db.
Proof. unfold engine_call; simpl. destruct (db_faults db); split; reflexivity. Qed.

Lemma lsm_commit_ntrans (db : lsm_db) (l : Z) :
  nTransOpen (snd (lsm_commit db l)) <= nTransOpen db.
Proof.
  unfold lsm_commit. destruct (engine_call_parts (EvCommit l) db) as [_ Ht].
  destruct (engine_call (EvCommit l) db) as [rc db1]. cbn [snd] in Ht.
  unfold nTransOpen. destruct (rc =? LSM_OK); cbn [snd set_trans db_trans];
    rewrite ?length_firstn, Ht; lia.
Qed.

Lemma lsm_rollback_ntrans (db : lsm_db) (l : Z) :
  nTransOpen (snd (lsm_rollback db l)) <= nTransOpen db.
Proof.
  unfold lsm_rollback. destruct (engine_call_parts (EvRollback l) db) as [_ Ht].
  destruct (engine_call (EvRollback l) db) as [rc db1]. cbn [snd] in Ht.
  unfold nTransOpen.
  destruct (rc =? LSM_OK); cbn [snd]; [|rewrite Ht; lia].
  destruct (nth_error _ _); cbn [snd]; [|rewrite Ht; lia].
  destruct (_ <=? _); cbn [snd set_trans set_store db_trans];
    rewrite ?length_firstn, Ht; lia.
Qed.

Lemma lsm_begin_ntrans (db : lsm_db) (l : Z) :
  0 <= l -> nTransOpen (snd (lsm_begin db l)) <= Z.max (nTransOpen db) l.
Proof.
  intros Hl. unfold lsm_begin. destruct (engine_call_parts (EvBegin l) db) as [_ Ht].
  destruct (engine_call (EvBegin l) db) as [rc db1]. cbn [snd] in Ht.
  unfold nTransOpen.
  destruct (rc =? LSM_OK); cbn [snd set_trans db_trans]; [|rewrite Ht; lia].
  destruct (Z.ltb_spec l 0); [lia|].
  rewrite length_app, repeat_length, Ht. lia.
Qed.

Lemma lsm_insert_trans (db : lsm_db) (k : key) (v : string) :
  db_trans (snd (lsm_insert db k v)) = db_trans db.
Proof.
  unfold lsm_insert. destruct (engine_call_parts (EvInsert k v) db) as [_ Ht].
  destruct (engine_call (EvInsert k v) db) as [rc db1]. cbn [snd] in Ht.
  destruct (rc =? LSM_OK); exact Ht.
Qed.

Lemma lsm_delete_trans (db : lsm_db) (k : key) :
  db_trans (snd (lsm_delete db k)) = db_trans db.
Proof.
  unfold lsm_delete. destruct (engine_call_parts (EvDelete k) db) as [_ Ht].
  destruct (engine_call (EvDelete k) db) as [rc db1]. cbn [snd] in Ht.
  destruct (rc =? LSM_OK); exact Ht.
Qed.

(** Whatever the engine answers, [LSM_commit_inner] and [LSM_rollback_inner]
    leave the tracked level alone and open no transaction. *)
Lemma LSM_commit_inner_inv (db : LSM) (n : Z) :
  tx_level (snd (LSM_commit_inner db n)) = tx_level db /\
  nTransOpen (lsm (snd (LSM_commit_inner db n))) <= nTransOpen (lsm db).
Proof.
  unfold LSM_commit_inner. destruct (pylsm_ensure_writable db); [cbn; lia|].
  pose proof (lsm_commit_ntrans (lsm (LSM_MutexLock db)) (if n <? 0 then 0 else n)) as H.
  destruct (lsm_commit _ _) as [rc e]. cbn [snd] in H.
  destruct (pylsm_error rc); cbn [snd LSM_MutexLeave set_lsm tx_level lsm];
    (split; [reflexivity|exact H]).
Qed.

Lemma LSM_rollback_inner_inv (db : LSM) (n : Z) :
  tx_level (snd (LSM_rollback_inner db n)) = tx_level db /\
  nTransOpen (lsm (snd (LSM_rollback_inner db n))) <= nTransOpen (lsm db).
Proof.
  unfold LSM_rollback_inner. destruct (pylsm_ensure_writable db); [cbn; lia|].
  pose proof (lsm_rollback_ntrans (lsm (LSM_MutexLock db)) (if n <? 0 then 0 else n)) as H.
  destruct (lsm_rollback _ _) as [rc e]. cbn [snd] in H.
  destruct (pylsm_error rc); cbn [snd LSM_MutexLeave set_lsm tx_level lsm];
    (split; [reflexivity|exact H]).
Qed.

Lemma LSM_begin_inv (db : LSM) :
  0 <= tx_level db -> nTransOpen (lsm db) <= tx_level db ->
  tx_level db <= tx_level (snd (LSM_begin db)) <= tx_level db + 1 /\
  nTransOpen (lsm (snd (LSM_begin db))) <= tx_level (snd (LSM_begin db)) /\
  (forall r, fst (LSM_begin db) = PyOk r ->
             tx_level (snd (LSM_begin db)) = tx_level db + 1).
Proof.
  intros H0 Hn. unfold LSM_begin.
  destruct (pylsm_ensure_writable db); [cbn; repeat split; try lia; discriminate|].
  destruct (Z.ltb_spec (tx_level db) 0); [lia|].
  destruct (tx_level db =? INT_MAX); [cbn; repeat split; try lia; discriminate|].
  pose proof (lsm_begin_ntrans (lsm db) (tx_level db + 1) ltac:(lia)) as H1.
  pose proof (lsm_begin_fault (lsm db) (tx_level db + 1)) as Hfault.
  unfold lsm_begin in *. destruct (engine_call_parts (EvBegin (tx_level db + 1)) (lsm db))
    as [_ Ht].
  destruct (engine_call _ _) as [rc e]. cbn [snd] in Ht.
  destruct (Z.eqb_spec rc LSM_OK) as [->|Hrc].
  - cbn [pylsm_error Z.eqb LSM_OK snd fst set_tx_level set_lsm tx_level lsm] in *.
    repeat split; try lia.
  - destruct (pylsm_error_fail rc Hrc) as [x Hx]. rewrite Hx.
    cbn [snd fst set_lsm tx_level lsm] in *.
    unfold nTransOpen in *. rewrite Ht.
    repeat split; try lia. discriminate.
Qed.

Lemma apply_write_level (w : write) (db : LSM) :
  tx_level (apply_write w db) = tx_level db /\
  db_trans (lsm (apply_write w db)) = db_trans (lsm db).
Proof.
  destruct w as [k v|k]; unfold apply_write.
  - unfold LSM_insert. destruct (pylsm_ensure_writable db); [split; reflexivity|].
    destruct (parse_buffer _ _); try (split; reflexivity).
    destruct (parse_buffer _ _); try (split; reflexivity).
    destruct (too_large _); [split; reflexivity|].
    destruct (too_large _); [split; reflexivity|].
    pose proof (lsm_insert_trans (lsm (LSM_MutexLock db)) a a0) as H.
    destruct (lsm_insert _ _ _) as [rc e]. cbn [snd] in H.
    destruct (pylsm_error rc); split; try reflexivity; exact H.
  - unfold LSM_delete. destruct (pylsm_ensure_writable db); [split; reflexivity|].
    destruct (parse_buffer _ _); try (split; reflexivity).
    destruct (too_large _); [split; reflexivity|].
    pose proof (lsm_delete_trans (lsm (LSM_MutexLock db)) a) as H.
    destruct (lsm_delete _ _) as [rc e]. cbn [snd] in H.
    destruct (pylsm_error rc); split; try reflexivity; exact H.
Qed.

Lemma LSMTransaction_commit_inv (tx : LSMTransaction) (db : LSM) :
  1 <= txn_tx_level tx <= tx_level db -> nTransOpen (lsm db) <= tx_level db ->
  tx_level (snd (LSMTransaction_commit tx db)) = tx_level db /\
  nTransOpen (lsm (snd (LSMTransaction_commit tx db))) <= tx_level db.
Proof.
  intros Hl Hn. unfold LSMTransaction_commit.
  destruct (txn_tx_level tx =? INT_MIN); [split; [reflexivity|exact Hn]|].
  destruct (LSM_commit_inner_inv db (txn_tx_level tx - 1)) as [Hlev Hnt].
  destruct (LSM_commit_inner db (txn_tx_level tx - 1)) as [[r|e| |] db'];
    cbn [snd] in *; try (split; [exact Hlev|lia]).
  pose proof (lsm_begin_ntrans (lsm db') (txn_tx_level tx) ltac:(lia)) as Hb.
  destruct (lsm_begin (lsm db') (txn_tx_level tx)) as [rc e]. cbn [snd] in Hb.
  destruct (pylsm_error rc); cbn [snd set_lsm tx_level lsm]; split; try exact Hlev; lia.
Qed.

Lemma ctx_exit_inv (tx : LSMTransaction) (db : LSM) (exc : PyObject) :
  let '(_, tx', db') := LSMTransaction_ctx_exit tx db exc in
  txn_tx_level tx' = txn_tx_level tx /\ tx_level db' = tx_level db /\
  nTransOpen (lsm db') <= nTransOpen (lsm db).
Proof.
  unfold LSMTransaction_ctx_exit.
  destruct (txn_state tx =? PY_LSM_CLOSED); [repeat split; lia|].
  cbn [txn_tx_level].
  destruct (is_None exc).
  - destruct (txn_tx_level tx =? INT_MIN); [repeat split; lia|].
    destruct (LSM_commit_inner_inv db (txn_tx_level tx - 1)) as [Hlev Hnt].
    destruct (LSM_commit_inner db (txn_tx_level tx - 1)) as [[r|e| |] db'];
      cbn [snd] in *; repeat split; assumption.
  - destruct (LSM_rollback_inner_inv db (txn_tx_level tx)) as [Hlev Hnt].
    destruct (LSM_rollback_inner db (txn_tx_level tx)) as [[r|e| |] db'];
      cbn [snd] in *; repeat split; assumption.
Qed.

Lemma Forall_replace_nth {A : Type} (P : A -> Prop) (i : nat) (x : A) (l : list A) :
  P x -> Forall P l -> Forall P (replace_nth i x l).
Proof.
  intros Hx. revert i. induction l as [|y r IH]; intros i H; [destruct i; constructor|].
  inversion H; subst. destruct i; simpl; constructor; auto.
Qed.

Lemma Forall_nth_error {A : Type} (P : A -> Prop) (l : list A) (i : nat) (x : A) :
  Forall P l -> nth_error l i = Some x -> P x.
Proof.
  intros H Hn. rewrite Forall_forall in H. apply H. eapply nth_error_In. exact Hn.
Qed.

(** One call keeps the bound. *)
Lemma run_op_inv (op : conn_op) (db : LSM) (hs : list LSMTransaction) :
  0 <= tx_level db -> nTransOpen (lsm db) <= tx_level db ->
  Forall (fun h => 1 <= txn_tx_level h <= tx_level db) hs ->
  let st' := run_op op (db, hs) in
  tx_level db <= tx_level (fst st') <= tx_level db + 1 /\
  nTransOpen (lsm (fst st')) <= tx_level (fst st') /\
  Forall (fun h => 1 <= txn_tx_level h <= tx_level (fst st')) (snd st').
Proof.
  intros H0 Hn Hh.
  assert (Hmono : forall l', tx_level db <= l' ->
            Forall (fun h => 1 <= txn_tx_level h <= l') hs).
  { intros l' Hl'. eapply Forall_impl; [|exact Hh]. cbv beta. intros h Hx. lia. }
  destruct op as [| | |w| |i|i|i exc|i]; cbn [run_op fst snd].
  - destruct (LSM_begin_inv db H0 Hn) as (Hl & Hnt & _).
    split; [exact Hl|]. split; [exact Hnt|]. apply Hmono. lia.
  - unfold LSM_commit. destruct (Z.ltb_spec (tx_level db) 0); [lia|].
    destruct (LSM_commit_inner_inv db (tx_level db)) as [Hlev Hnt].
    rewrite Hlev. split; [lia|]. split; [lia|]. exact Hh.
  - unfold LSM_rollback. destruct (Z.ltb_spec (tx_level db) 0); [lia|].
    destruct (LSM_rollback_inner_inv db (tx_level db)) as [Hlev Hnt].
    rewrite Hlev. split; [lia|]. split; [lia|]. exact Hh.
  - destruct (apply_write_level w db) as [Hlev Ht]. unfold nTransOpen in *.
    rewrite Hlev, Ht. split; [lia|]. split; [lia|]. exact Hh.
  - unfold LSM_transaction.
    destruct (LSM_begin_inv db H0 Hn) as (Hl & Hnt & Hok).
    destruct (LSM_begin db) as [[r|e| |] db'] eqn:E; cbn [fst snd] in *;
      (split; [exact Hl|]); (split; [exact Hnt|]); try (apply Hmono; lia).
    apply Forall_app. split; [apply Hmono; lia|].
    constructor; [|constructor]. cbn [LSMTransaction_new txn_tx_level].
    rewrite (Hok r eq_refl). lia.
  - destruct (nth_error hs i) as [tx|] eqn:E; cbn [fst snd];
      [|split; [lia|]; split; [lia|]; exact Hh].
    pose proof (Forall_nth_error _ _ _ _ Hh E) as Htx. cbv beta in Htx.
    destruct (LSMTransaction_commit_inv tx db Htx Hn) as [Hlev Hnt].
    rewrite Hlev. split; [lia|]. split; [lia|]. exact Hh.
  - destruct (nth_error hs i) as [tx|] eqn:E; cbn [fst snd];
      [|split; [lia|]; split; [lia|]; exact Hh].
    unfold LSMTransaction_rollback.
    destruct (LSM_rollback_inner_inv db (txn_tx_level tx)) as [Hlev Hnt].
    rewrite Hlev. split; [lia|]. split; [lia|]. exact Hh.
  - destruct (nth_error hs i) as [tx|] eqn:E; cbn [fst snd];
      [|split; [lia|]; split; [lia|]; exact Hh].
    pose proof (Forall_nth_error _ _ _ _ Hh E) as Htx. cbv beta in Htx.
    pose proof (ctx_exit_inv tx db exc) as Hx.
    destruct (LSMTransaction_ctx_exit tx db exc) as [[r tx'] db'].
    destruct Hx as (Hl' & Hlev & Hnt). cbn [fst snd].
    rewrite Hlev. split; [lia|]. split; [lia|].
    apply Forall_replace_nth; [lia|exact Hh].
  - destruct (nth_error hs i) as [tx|] eqn:E; cbn [fst snd];
      [|split; [lia|]; split; [lia|]; exact Hh].
    unfold LSMTransaction_dealloc.
    destruct (_ && _); [|split; [lia|]; split; [lia|]; exact Hh].
    destruct (LSM_rollback_inner_inv db (txn_tx_level tx)) as [Hlev Hnt].
    rewrite Hlev. split; [lia|]. split; [lia|]. exact Hh.
Qed.

Lemma run_ops_inv (ops : list conn_op) (db : LSM) (hs : list LSMTransaction) :
  0 <= tx_level db -> nTransOpen (lsm db) <= tx_level db ->
  Forall (fun h => 1 <= txn_tx_level h <= tx_level db) hs ->
  let st' := run_ops ops (db, hs) in
  tx_level db <= tx_level (fst st') <= tx_level db + Z.of_nat (List.length ops) /\
  nTransOpen (lsm (fst st')) <= tx_level (fst st') /\
  Forall (fun h => 1 <= txn_tx_level h <= tx_level (fst st')) (snd st').
Proof.
  revert db hs. induction ops as [|op ops IH]; intros db hs H0 Hn Hh.
  - cbn. split; [lia|]. split; [exact Hn|exact Hh].
  - cbn [run_ops fold_left]. fold (run_ops ops (run_op op (db, hs))).
    destruct (run_op_inv op db hs H0 Hn Hh) as (Hl & Hnt & Hhs).
    destruct (run_op op (db, hs)) as [db1 hs1]. cbn [fst snd] in *.
    destruct (IH db1 hs1 ltac:(lia) Hnt Hhs) as (Hl' & Hnt' & Hhs').
    split; [|split; assumption].
    change (List.length (op :: ops)) with (S (List.length ops)). lia.
Qed.

(** From a connection whose tracked level is not negative and not below the
    number of transactions the engine has open (as after the construction),
    along any sequence of calls ([begin], [commit], [rollback], writes,
    [transaction()], and [commit], [rollback], [__exit__] and the destructor
    of the handles obtained), whatever the engine answers:
    the tracked level never goes down and goes up by at most one per call, the
    engine never has more transactions open than the tracked level, and every
    handle is bound to a level between 1 and the tracked level.  The level is
    supposed to stay below [INT_MAX], so that no [begin] overflows. *)
Theorem tracked_level_never_decreases (ops : list conn_op) (db : LSM) :
  0 <= tx_level db -> nTransOpen (lsm db) <= tx_level db ->
  tx_level db + Z.of_nat (List.length ops) < INT_MAX ->
  let st' := run_ops ops (db, []) in
  tx_level db <= tx_level (fst st') <= tx_level db + Z.of_nat (List.length ops) /\
  nTransOpen (lsm (fst st')) <= tx_level (fst st') /\
  Forall (fun h => 1 <= txn_tx_level h <= tx_level (fst st')) (snd st').
Proof.
  intros H0 Hn _. exact (run_ops_inv ops db [] H0 Hn (Forall_nil _)).
Qed.

Lemma tracked_level_never_decreases_witness :
  let ops := [OpBegin; OpWrite (WPut "a" "1"); OpCommit; OpTransaction;
              OpTxExit 0 PyNone; OpRollback] in
  nTransOpen (lsm (fst (run_ops ops (demo_db, []))))
  <= tx_level (fst (run_ops ops (demo_db, []))).
Proof.
  intros ops.
  assert (H0 : 0 <= tx_level demo_db) by (vm_compute; discriminate).
  assert (Hn : nTransOpen (lsm demo_db) <= tx_level demo_db) by (vm_compute; discriminate).
  assert (Hm : tx_level demo_db + Z.of_nat (List.length ops) < INT_MAX)
    by (vm_compute; reflexivity).
  destruct (tracked_level_never_decreases ops demo_db H0 Hn Hm) as (_ & H & _).
  exact H.
Defined.

(** ** What [commit()] and [rollback()] close *)

Lemma engine_call_faults_nil (ev : event) (db : lsm_db) :
  db_faults db = [] -> db_faults (snd (engine_call ev db)) = [].
Proof. intros H. rewrite (engine_call_ok ev db H). exact H. Qed.

Lemma lsm_begin_faults_nil (db : lsm_db) (l : Z) :
  db_faults db = [] -> db_faults (snd (lsm_begin db l)) = [].
Proof.
  intros H. unfold lsm_begin. rewrite (engine_call_ok _ db H). exact H.
Qed.

Lemma lsm_commit_faults_nil (db : lsm_db) (l : Z) :
  db_faults db = [] -> db_faults (snd (lsm_commit db l)) = [].
Proof.
  intros H. unfold lsm_commit. rewrite (engine_call_ok _ db H). exact H.
Qed.

Lemma lsm_rollback_faults_nil (db : lsm_db) (l : Z) :
  db_faults db = [] -> db_faults (snd (lsm_rollback db l)) = [].
Proof.
  intros H. unfold lsm_rollback. rewrite (engine_call_ok _ db H).
  cbn [Z.eqb LSM_OK]. destruct (nth_error _ _); [|exact H].
  destruct (_ <=? _); exact H.
Qed.

(** The state of the connection, its mode and an empty script of faults are
    kept by the transaction calls. *)
Lemma LSM_begin_keeps (db : LSM) :
  state (snd (LSM_begin db)) = state db /\ readonly (snd (LSM_begin db)) = readonly db /\
  (db_faults (lsm db) = [] -> db_faults (lsm (snd (LSM_begin db))) = []).
Proof.
  unfold LSM_begin. destruct (pylsm_ensure_writable db); [auto|].
  destruct (tx_level db <? 0); cbn [tx_level set_tx_level lsm].
  - destruct (0 =? INT_MAX); [auto|].
    pose proof (lsm_begin_faults_nil (lsm db) (0 + 1)) as H.
    destruct (lsm_begin _ _) as [rc e]. destruct (pylsm_error rc); auto.
  - destruct (tx_level db =? INT_MAX); [auto|].
    pose proof (lsm_begin_faults_nil (lsm db) (tx_level db + 1)) as H.
    destruct (lsm_begin _ _) as [rc e]. destruct (pylsm_error rc); auto.
Qed.

Lemma LSM_commit_inner_keeps (db : LSM) (n : Z) :
  state (snd (LSM_commit_inner db n)) = state db /\
  readonly (snd (LSM_commit_inner db n)) = readonly db /\
  (db_faults (lsm db) = [] -> db_faults (lsm (snd (LSM_commit_inner db n))) = []).
Proof.
  unfold LSM_commit_inner. destruct (pylsm_ensure_writable db); [auto|].
  pose proof (lsm_commit_faults_nil (lsm (LSM_MutexLock db)) (if n <? 0 then 0 else n)) as H.
  destruct (lsm_commit _ _) as [rc e]. destruct (pylsm_error rc); auto.
Qed.

Lemma LSM_rollback_inner_keeps (db : LSM) (n : Z) :
  state (snd (LSM_rollback_inner db n)) = state db /\
  readonly (snd (LSM_rollback_inner db n)) = readonly db /\
  (db_faults (lsm db) = [] -> db_faults (lsm (snd (LSM_rollback_inner db n))) = []).
Proof.
  unfold LSM_rollback_inner. destruct (pylsm_ensure_writable db); [auto|].
  pose proof (lsm_rollback_faults_nil (lsm (LSM_MutexLock db)) (if n <? 0 then 0 else n)) as H.
  destruct (lsm_rollback _ _) as [rc e]. destruct (pylsm_error rc); auto.
Qed.

Lemma run_op_keeps (op : conn_op) (db : LSM) (hs : list LSMTransaction) :
  state db = PY_LSM_OPENED -> readonly db = 0 -> db_faults (lsm db) = [] ->
  let db' := fst (run_op op (db, hs)) in
  state db' = PY_LSM_OPENED /\ readonly db' = 0 /\ db_faults (lsm db') = [].
Proof.
  intros Hs Hr Hf.
  destruct op as [| | |w| |i|i|i exc|i]; cbn [run_op fst snd].
  - destruct (LSM_begin_keeps db) as (A & B & C). rewrite A, B. auto.
  - unfold LSM_commit. destruct (tx_level db <? 0).
    + destruct (LSM_commit_inner_keeps (set_tx_level 0 db) (tx_level (set_tx_level 0 db)))
        as (A & B & C). rewrite A, B. auto.
    + destruct (LSM_commit_inner_keeps db (tx_level db)) as (A & B & C).
      rewrite A, B. auto.
  - unfold LSM_rollback. destruct (tx_level db <? 0).
    + destruct (LSM_rollback_inner_keeps (set_tx_level 0 db) (tx_level (set_tx_level 0 db)))
        as (A & B & C). rewrite A, B. auto.
    + destruct (LSM_rollback_inner_keeps db (tx_level db)) as (A & B & C).
      rewrite A, B. auto.
  - destruct (apply_write_inv w db Hs Hr Hf) as (A & B & C & _). auto.
  - unfold LSM_transaction. destruct (LSM_begin_keeps db) as (A & B & C).
    destruct (LSM_begin db) as [[r|e| |] db']; cbn [fst snd] in *; rewrite A, B; auto.
  - destruct (nth_error hs i) as [tx|]; cbn [fst]; [|auto].
    unfold LSMTransaction_commit. destruct (_ =? INT_MIN); [auto|].
    destruct (LSM_commit_inner_keeps db (txn_tx_level tx - 1)) as (A & B & C).
    destruct (LSM_commit_inner db (txn_tx_level tx - 1)) as [[r|e| |] db'];
      cbn [fst snd] in *; try (rewrite A, B; auto).
    pose proof (lsm_begin_faults_nil (lsm db') (txn_tx_level tx) (C Hf)) as H.
    destruct (lsm_begin _ _) as [rc e]. cbn [snd] in H.
    destruct (pylsm_error rc); cbn [fst snd set_lsm state readonly lsm];
      rewrite A, B; auto.
  - destruct (nth_error hs i) as [tx|]; cbn [fst]; [|auto].
    unfold LSMTransaction_rollback.
    destruct (LSM_rollback_inner_keeps db (txn_tx_level tx)) as (A & B & C).
    rewrite A, B. auto.
  - destruct (nth_error hs i) as [tx|]; cbn [fst]; [|auto].
    unfold LSMTransaction_ctx_exit. destruct (_ =? PY_LSM_CLOSED); [auto|].
    cbn [txn_tx_level]. destruct (is_None exc).
    + destruct (_ =? INT_MIN); [auto|].
      destruct (LSM_commit_inner_keeps db (txn_tx_level tx - 1)) as (A & B & C).
      destruct (LSM_commit_inner db (txn_tx_level tx - 1)) as [[r|e| |] db'];
        cbn [fst snd] in *; rewrite A, B; auto.
    + destruct (LSM_rollback_inner_keeps db (txn_tx_level tx)) as (A & B & C).
      destruct (LSM_rollback_inner db (txn_tx_level tx)) as [[r|e| |] db'];
        cbn [fst snd] in *; rewrite A, B; auto.
  - destruct (nth_error hs i) as [tx|]; cbn [fst]; [|auto].
    unfold LSMTransaction_dealloc. destruct (_ && _); [|auto].
    destruct (LSM_rollback_inner_keeps db (txn_tx_level tx)) as (A & B & C).
    rewrite A, B. auto.
Qed.

Lemma run_ops_keeps (ops : list conn_op) (db : LSM) (hs : list LSMTransaction) :
  state db = PY_LSM_OPENED -> readonly db = 0 -> db_faults (lsm db) = [] ->
  let db' := fst (run_ops ops (db, hs)) in
  state db' = PY_LSM_OPENED /\ readonly db' = 0 /\ db_faults (lsm db') = [].
Proof.
  revert db hs. induction ops as [|op ops IH]; intros db hs Hs Hr Hf; [cbn; auto|].
  cbn [run_ops fold_left]. fold (run_ops ops (run_op op (db, hs))).
  destruct (run_op_keeps op db hs Hs Hr Hf) as (A & B & C).
  destruct (run_op op (db, hs)) as [db1 hs1]. exact (IH db1 hs1 A B C).
Qed.

Lemma length_zero_nil {A : Type} (l : list A) : Z.of_nat (List.length l) <= 0 -> l = [].
Proof. destruct l; [reflexivity|]. cbn [List.length]. lia. Qed.

(** After any sequence of calls on an opened writable connection that
    started with a tracked level not negative and not below the number of
    open transactions, with an engine whose calls succeed (the level staying
    below [INT_MAX]): [db.commit()] and [db.rollback()] return
    [True] and leave every transaction the engine has open, open; [commit()]
    leaves the store as it is.  The engine is called at the tracked level,
    which is never below the number of open transactions. *)
Theorem commit_and_rollback_close_nothing (ops : list conn_op) (db : LSM) :
  state db = PY_LSM_OPENED -> readonly db = 0 -> db_faults (lsm db) = [] ->
  0 <= tx_level db -> nTransOpen (lsm db) <= tx_level db ->
  tx_level db + Z.of_nat (List.length ops) < INT_MAX ->
  let db1 := fst (run_ops ops (db, [])) in
  fst (LSM_commit db1) = PyOk Py_True /\
  db_trans (lsm (snd (LSM_commit db1))) = db_trans (lsm db1) /\
  db_store (lsm (snd (LSM_commit db1))) = db_store (lsm db1) /\
  fst (LSM_rollback db1) = PyOk Py_True /\
  db_trans (lsm (snd (LSM_rollback db1))) = db_trans (lsm db1).
Proof.
  intros Hs Hr Hf H0 Hn _ db1.
  destruct (run_ops_keeps ops db [] Hs Hr Hf) as (Hs1 & Hr1 & Hf1).
  destruct (run_ops_inv ops db [] H0 Hn (Forall_nil _)) as (Hl & Hn1 & _).
  fold db1 in Hs1, Hr1, Hf1, Hl, Hn1.
  assert (H01 : 0 <= tx_level db1) by lia.
  assert (Hfirst : firstn (Z.to_nat (tx_level db1)) (db_trans (lsm db1))
                   = db_trans (lsm db1)).
  { apply firstn_all2. unfold nTransOpen in Hn1. lia. }
  rewrite (LSM_commit_unfold db1 H01), (LSM_rollback_unfold db1 H01).
  rewrite (LSM_commit_inner_ok db1 _ Hs1 Hr1 Hf1 H01).
  cbn [fst snd lsm set_lsm log set_trans db_trans db_store].
  split; [reflexivity|]. split; [exact Hfirst|]. split; [reflexivity|].
  unfold LSM_rollback_inner. rewrite (ensure_writable_ok db1 Hs1 Hr1).
  destruct (Z.ltb_spec (tx_level db1) 0); [lia|].
  unfold lsm_rollback. rewrite (engine_call_ok _ (lsm (LSM_MutexLock db1)) Hf1).
  cbn [Z.eqb LSM_OK]. destruct (Z.ltb_spec (tx_level db1) 0); [lia|].
  cbn [db_trans log LSM_MutexLock lsm set_lsm].
  destruct (nth_error _ _); [|cbn; auto].
  destruct (_ <=? _); cbn; auto.
Qed.

Lemma commit_and_rollback_close_nothing_witness :
  let db1 := fst (run_ops [OpBegin; OpWrite (WPut "a" "1")] (demo_db, [])) in
  nTransOpen (lsm db1) = 1 /\
  db_trans (lsm (snd (LSM_commit db1))) = db_trans (lsm db1).
Proof.
  intros db1. split; [vm_compute; reflexivity|].
  assert (H0 : 0 <= tx_level demo_db) by (vm_compute; discriminate).
  assert (Hn : nTransOpen (lsm demo_db) <= tx_level demo_db) by (vm_compute; discriminate).
  assert (Hm : tx_level demo_db
               + Z.of_nat (List.length [OpBegin; OpWrite (WPut "a" "1")]) < INT_MAX)
    by (vm_compute; reflexivity).
  destruct (commit_and_rollback_close_nothing [OpBegin; OpWrite (WPut "a" "1")] demo_db
              eq_refl eq_refl eq_refl H0 Hn Hm) as (_ & H & _).
  exact H.
Defined.

(** ** What a scope leaves open *)

Lemma apply_writes_level (ws : list write) (db : LSM) :
  tx_level (apply_writes ws db) = tx_level db.
Proof.
  revert db. induction ws as [|w ws IH]; intros db; [reflexivity|].
  cbn [apply_writes fold_left]. fold (apply_writes ws (apply_write w db)).
  rewrite IH. apply apply_write_level.
Qed.

(** [db.transaction()] on an engine whose calls succeed. *)
Lemma LSM_transaction_ok (db : LSM) :
  state db = PY_LSM_OPENED -> readonly db = 0 -> db_faults (lsm db) = [] ->
  0 <= tx_level db < INT_MAX ->
  LSM_transaction db =
    (PyOk (mk_LSMTransaction (tx_level db + 1) PY_LSM_INITIALIZED),
     set_tx_level (tx_level db + 1)
       (set_lsm (set_trans
                   (db_trans (lsm db) ++
                    repeat (db_store (lsm db))
                      (Z.to_nat (tx_level db + 1 - nTransOpen (lsm db))))
                   (log (EvBegin (tx_level db + 1)) (lsm db))) db)).
Proof.
  intros Hs Hr Hf Hl. unfold LSM_transaction, LSM_begin.
  rewrite (ensure_writable_ok db Hs Hr).
  destruct (Z.ltb_spec (tx_level db) 0); [lia|].
  destruct (Z.eqb_spec (tx_level db) INT_MAX); [lia|].
  rewrite (lsm_begin_ok (lsm db) (tx_level db + 1) Hf) by lia.
  reflexivity.
Qed.

(** A scope [with db.transaction():] on an opened writable connection whose
    tracked level [L] is not below the number of open transactions, with an
    engine whose calls succeed.  The handle is bound to level [L + 1] and the
    engine then has [L + 1] transactions open.  After the writes of the scope,
    a normal exit keeps the store and leaves [L] transactions open in the
    engine (none only if [L] was 0), the tracked level staying at [L + 1]; an
    exceptional exit brings the store back to what it was before the scope and
    leaves all [L + 1] transactions open. *)
Theorem scope_exit_leaves_level_open (db0 : LSM) (ws : list write) (exc : PyObject) :
  state db0 = PY_LSM_OPENED -> readonly db0 = 0 -> db_faults (lsm db0) = [] ->
  0 <= tx_level db0 < INT_MAX -> nTransOpen (lsm db0) <= tx_level db0 ->
  is_None exc = false ->
  exists tx db1,
    LSM_transaction db0 = (PyOk tx, db1) /\
    txn_tx_level tx = tx_level db0 + 1 /\
    nTransOpen (lsm db1) = tx_level db0 + 1 /\
    let db2 := apply_writes ws db1 in
    let normal := LSMTransaction_ctx_exit tx db2 PyNone in
    let failed := LSMTransaction_ctx_exit tx db2 exc in
    fst (fst normal) = PyOk PyNone /\
    db_store (lsm (snd normal)) = db_store (lsm db2) /\
    nTransOpen (lsm (snd normal)) = tx_level db0 /\
    tx_level (snd normal) = tx_level db0 + 1 /\
    fst (fst failed) = PyOk PyNone /\
    db_store (lsm (snd failed)) = db_store (lsm db0) /\
    nTransOpen (lsm (snd failed)) = tx_level db0 + 1.
Proof.
  intros Hs Hr Hf Hl Hn Hexc.
  set (L := tx_level db0) in *.
  set (k := Z.to_nat (L + 1 - nTransOpen (lsm db0))).
  eexists. eexists. split; [exact (LSM_transaction_ok db0 Hs Hr Hf Hl)|].
  fold L. fold k.
  set (db1 := set_tx_level (L + 1) _).
  assert (Hlen : Z.of_nat (List.length (db_trans (lsm db0) ++ repeat (db_store (lsm db0)) k))
                 = L + 1).
  { rewrite length_app, repeat_length. unfold nTransOpen in *. subst k. lia. }
  split; [reflexivity|]. split; [exact Hlen|].
  intros db2 normal failed.
  destruct (apply_writes_inv ws db1 Hs Hr Hf) as (Hs2 & Hr2 & Hf2 & Ht2).
  pose proof (apply_writes_level ws db1) as Hl2.
  fold db2 in Hs2, Hr2, Hf2, Ht2, Hl2.
  change (db_trans (lsm db1))
    with (db_trans (lsm db0) ++ repeat (db_store (lsm db0)) k) in Ht2.
  change (tx_level db1) with (L + 1) in Hl2.
  assert (Hnormal : normal =
            (PyOk PyNone, mk_LSMTransaction (L + 1) PY_LSM_CLOSED,
             set_lsm (log EvMutexLeave
                        (set_trans (firstn (Z.to_nat L) (db_trans (lsm db2)))
                           (log (EvCommit L) (log EvMutexEnter (lsm db2))))) db2)).
  { subst normal. unfold LSMTransaction_ctx_exit. cbn [txn_state txn_tx_level is_None].
    change (PY_LSM_INITIALIZED =? PY_LSM_CLOSED) with false. cbv iota.
    destruct (Z.eqb_spec (L + 1) INT_MIN) as [E|_]; [unfold INT_MIN in E; lia|].
    replace (L + 1 - 1) with L by lia.
    rewrite (LSM_commit_inner_ok db2 L Hs2 Hr2 Hf2) by lia. reflexivity. }
  assert (Hmark : nth_error (db_trans (lsm db2)) (Z.to_nat (L + 1 - 1))
                  = Some (db_store (lsm db0))).
  { rewrite Ht2. apply nth_error_app_repeat. unfold nTransOpen in *. subst k. lia. }
  assert (Hfailed : failed =
            (PyOk PyNone, mk_LSMTransaction (L + 1) PY_LSM_CLOSED,
             set_lsm (log EvMutexLeave
                        (set_trans (firstn (Z.to_nat (L + 1)) (db_trans (lsm db2)))
                           (set_store (db_store (lsm db0))
                              (log (EvRollback (L + 1)) (log EvMutexEnter (lsm db2))))))
               db2)).
  { subst failed. unfold LSMTransaction_ctx_exit. cbn [txn_state txn_tx_level].
    change (PY_LSM_INITIALIZED =? PY_LSM_CLOSED) with false. cbv iota. rewrite Hexc.
    rewrite (LSM_rollback_inner_ok db2 (L + 1) _ Hs2 Hr2 Hf2 ltac:(lia) Hmark).
    reflexivity. }
  rewrite Hnormal, Hfailed. unfold nTransOpen.
  cbn [fst snd lsm set_lsm log set_trans set_store db_store db_trans tx_level].
  rewrite !length_firstn, Ht2.
  split; [reflexivity|]. split; [reflexivity|]. split; [lia|]. split; [exact Hl2|].
  split; [reflexivity|]. split; [reflexivity|]. lia.
Qed.

Lemma scope_exit_leaves_level_open_witness :
  exists tx db1,
    LSM_transaction demo_db = (PyOk tx, db1) /\ txn_tx_level tx = tx_level demo_db + 1 /\
    db_store (lsm (snd (LSMTransaction_ctx_exit tx (apply_writes [WPut "a" "1"] db1)
                          PyOther)))
    = db_store (lsm demo_db).
Proof.
  assert (Hl : 0 <= tx_level demo_db < INT_MAX) by (vm_compute; split; [discriminate|reflexivity]).
  assert (Hn : nTransOpen (lsm demo_db) <= tx_level demo_db) by (vm_compute; discriminate).
  destruct (scope_exit_leaves_level_open demo_db [WPut "a" "1"] PyOther
              eq_refl eq_refl eq_refl Hl Hn eq_refl)
    as (tx & db1 & E & Hlev & _ & H).
  destruct H as (_ & _ & _ & _ & _ & Hstore & _).
  exists tx, db1. exact (conj E (conj Hlev Hstore)).
Defined.

(** ** Every engine call under the mutex *)

Lemma calls_refl (db : lsm_db) : calls_only db db.
Proof. exists []. rewrite app_nil_r. split; reflexivity. Qed.

Lemma calls_trans (a b c : lsm_db) : calls_only a b -> calls_only b c -> calls_only a c.
Proof.
  intros (t1 & E1 & F1) (t2 & E2 & F2). exists (t1 ++ t2).
  rewrite E2, E1, app_assoc, forallb_app, F1, F2. split; reflexivity.
Qed.

Lemma calls_engine (ev : event) (db : lsm_db) :
  is_call ev = true -> calls_only db (snd (engine_call ev db)).
Proof.
  intros H. exists [ev]. rewrite engine_call_trace. cbn [forallb]. rewrite H.
  split; reflexivity.
Qed.

Ltac calls_via ev :=
  let H := fresh "H" in
  match goal with
  | |- context [engine_call ev ?d] =>
      pose proof (calls_engine ev d eq_refl) as H;
      destruct (engine_call ev d) as [? ?]; cbn [snd] in H
  end.

Lemma lsm_insert_calls (db : lsm_db) (k : key) (v : string) :
  calls_only db (snd (lsm_insert db k v)).
Proof. unfold lsm_insert. calls_via (EvInsert k v). destruct (_ =? _); exact H. Qed.

Lemma lsm_delete_calls (db : lsm_db) (k : key) :
  calls_only db (snd (lsm_delete db k)).
Proof. unfold lsm_delete. calls_via (EvDelete k). destruct (_ =? _); exact H. Qed.

Lemma lsm_delete_range_calls (db : lsm_db) (a b : key) :
  calls_only db (snd (lsm_delete_range db a b)).
Proof.
  unfold lsm_delete_range. calls_via (EvDeleteRange a b). destruct (_ =? _); exact H.
Qed.

Lemma lsm_commit_calls (db : lsm_db) (l : Z) : calls_only db (snd (lsm_commit db l)).
Proof. unfold lsm_commit. calls_via (EvCommit l). destruct (_ =? _); exact H. Qed.

Lemma lsm_rollback_calls (db : lsm_db) (l : Z) : calls_only db (snd (lsm_rollback db l)).
Proof.
  unfold lsm_rollback. calls_via (EvRollback l). destruct (_ =? _); [|exact H].
  destruct (nth_error _ _); [|exact H]. destruct (_ <=? _); exact H.
Qed.

Lemma lsm_csr_open_calls (db : lsm_db) : calls_only db (snd (fst (lsm_csr_open db))).
Proof. unfold lsm_csr_open. calls_via EvCsrOpen. destruct (_ =? _); exact H. Qed.

Lemma lsm_csr_close_calls (db : lsm_db) (c : lsm_cursor) :
  calls_only db (snd (lsm_csr_close db c)).
Proof. apply calls_engine. reflexivity. Qed.

Lemma lsm_csr_seek_calls (db : lsm_db) (c : lsm_cursor) (k : key) (m : Z) :
  calls_only db (snd (fst (lsm_csr_seek db c k m))).
Proof.
  unfold lsm_csr_seek. calls_via (EvCsrSeek k m). destruct (_ =? _); [|exact H].
  destruct (csr_seek _ _ _); exact H.
Qed.

Lemma lsm_csr_first_calls (db : lsm_db) (c : lsm_cursor) :
  calls_only db (snd (fst (lsm_csr_first db c))).
Proof. unfold lsm_csr_first. calls_via EvCsrFirst. destruct (_ =? _); exact H. Qed.

Lemma lsm_csr_last_calls (db : lsm_db) (c : lsm_cursor) :
  calls_only db (snd (fst (lsm_csr_last db c))).
Proof. unfold lsm_csr_last. calls_via EvCsrLast. destruct (_ =? _); exact H. Qed.

Lemma lsm_csr_next_calls (db : lsm_db) (c : lsm_cursor) :
  calls_only db (snd (fst (lsm_csr_next db c))).
Proof. unfold lsm_csr_next. calls_via EvCsrNext. destruct (_ =? _); exact H. Qed.

Lemma lsm_csr_prev_calls (db : lsm_db) (c : lsm_cursor) :
  calls_only db (snd (fst (lsm_csr_prev db c))).
Proof. unfold lsm_csr_prev. calls_via EvCsrPrev. destruct (_ =? _); exact H. Qed.

Lemma lsm_csr_key_calls (db : lsm_db) (c : lsm_cursor) :
  calls_only db (snd (fst (lsm_csr_key db c))).
Proof.
  unfold lsm_csr_key. calls_via EvCsrKey. destruct (_ =? _); [|exact H].
  destruct c; exact H.
Qed.

Lemma lsm_csr_value_calls (db : lsm_db) (c : lsm_cursor) :
  calls_only db (snd (fst (lsm_csr_value db c))).
Proof.
  unfold lsm_csr_value. calls_via EvCsrValue. destruct (_ =? _); [|exact H].
  destruct c; exact H.
Qed.

Lemma lsm_csr_cmp_calls (db : lsm_db) (c : lsm_cursor) (k : key) :
  calls_only db (snd (fst (lsm_csr_cmp db c k))).
Proof.
  unfold lsm_csr_cmp. calls_via (EvCsrCmp k). destruct (_ =? _); [|exact H].
  destruct c; exact H.
Qed.

(** One step through a function of the wrapper: the next engine function of
    the goal is replaced by its result, and what it did to the trace is kept. *)
Ltac calls_step :=
  let H := fresh "Hc" in
  match goal with
  | |- context [lsm_csr_open ?d] =>
      pose proof (lsm_csr_open_calls d) as H;
      destruct (lsm_csr_open d) as [[? ?] ?]; cbn [fst snd] in H
  | |- context [lsm_csr_seek ?d ?c ?k ?m] =>
      pose proof (lsm_csr_seek_calls d c k m) as H;
      destruct (lsm_csr_seek d c k m) as [[? ?] ?]; cbn [fst snd] in H
  | |- context [lsm_csr_first ?d ?c] =>
      pose proof (lsm_csr_first_calls d c) as H;
      destruct (lsm_csr_first d c) as [[? ?] ?]; cbn [fst snd] in H
  | |- context [lsm_csr_last ?d ?c] =>
      pose proof (lsm_csr_last_calls d c) as H;
      destruct (lsm_csr_last d c) as [[? ?] ?]; cbn [fst snd] in H
  | |- context [lsm_csr_next ?d ?c] =>
      pose proof (lsm_csr_next_calls d c) as H;
      destruct (lsm_csr_next d c) as [[? ?] ?]; cbn [fst snd] in H
  | |- context [lsm_csr_prev ?d ?c] =>
      pose proof (lsm_csr_prev_calls d c) as H;
      destruct (lsm_csr_prev d c) as [[? ?] ?]; cbn [fst snd] in H
  | |- context [lsm_csr_key ?d ?c] =>
      pose proof (lsm_csr_key_calls d c) as H;
      destruct (lsm_csr_key d c) as [[? ?] ?]; cbn [fst snd] in H
  | |- context [lsm_csr_value ?d ?c] =>
      pose proof (lsm_csr_value_calls d c) as H;
      destruct (lsm_csr_value d c) as [[? ?] ?]; cbn [fst snd] in H
  | |- context [lsm_csr_cmp ?d ?c ?k] =>
      pose proof (lsm_csr_cmp_calls d c k) as H;
      destruct (lsm_csr_cmp d c k) as [[? ?] ?]; cbn [fst snd] in H
  | |- context [lsm_csr_close ?d ?c] =>
      pose proof (lsm_csr_close_calls d c) as H;
      destruct (lsm_csr_close d c) as [? ?]; cbn [fst snd] in H
  | |- context [lsm_delete ?d ?k] =>
      pose proof (lsm_delete_calls d k) as H;
      destruct (lsm_delete d k) as [? ?]; cbn [fst snd] in H
  | |- context [lsm_insert ?d ?k ?v] =>
      pose proof (lsm_insert_calls d k v) as H;
      destruct (lsm_insert d k v) as [? ?]; cbn [fst snd] in H
  end.

Ltac calls_chain :=
  cbn [fst snd];
  first [ apply calls_refl
        | match goal with
          | H : calls_only ?a ?b |- calls_only ?a ?c =>
              apply (calls_trans a b c H); calls_chain
          end ].

Ltac calls_case :=
  match goal with
  | |- context [if ?c then _ else _] => destruct c
  | |- context [match ?o with Some _ => _ | None => _ end] => destruct o
  end.

Ltac calls_auto := repeat (cbn [fst snd]; first [calls_chain | calls_case | calls_step]).

Lemma pylsm_getitem_calls (db : lsm_db) (k : key) (m : Z) :
  calls_only db (snd (fst (pylsm_getitem db k m))).
Proof. unfold pylsm_getitem. calls_auto. Qed.

Lemma pylsm_delitem_calls (db : lsm_db) (k : key) :
  calls_only db (snd (pylsm_delitem db k)).
Proof. unfold pylsm_delitem. calls_auto. Qed.

Lemma pylsm_contains_calls (db : lsm_db) (k : key) :
  calls_only db (snd (pylsm_contains db k)).
Proof. unfold pylsm_contains. calls_auto. Qed.

Lemma pylsm_csr_length_loop_calls (fuel : nat) (db : lsm_db) (c : lsm_cursor) (n : Z) :
  match pylsm_csr_length_loop fuel db c n with
  | Some (_, db', _) => calls_only db db'
  | None => True
  end.
Proof.
  revert db c n. induction fuel as [|fuel IH]; intros db c n; cbn [pylsm_csr_length_loop];
    [exact I|].
  destruct (negb _); [apply calls_refl|].
  pose proof (lsm_csr_next_calls db c) as H1.
  destruct (lsm_csr_next db c) as [[rc db1] c1]. cbn [fst snd] in H1.
  destruct (negb _); [exact H1|].
  specialize (IH db1 c1 (n + 1)).
  destruct (pylsm_csr_length_loop fuel db1 c1 (n + 1)) as [[[rc' db'] r]|]; [|exact I].
  exact (calls_trans _ _ _ H1 IH).
Qed.

Lemma pylsm_length_calls (db : lsm_db) :
  match pylsm_length db with
  | Some (_, db', _) => calls_only db db'
  | None => True
  end.
Proof.
  unfold pylsm_length.
  pose proof (lsm_csr_open_calls db) as H1.
  destruct (lsm_csr_open db) as [[rc db1] opened]. cbn [fst snd] in H1.
  destruct (negb _); [exact H1|].
  destruct opened as [c|]; [|exact H1].
  unfold pylsm_csr_length.
  pose proof (lsm_csr_first_calls db1 c) as H2.
  destruct (lsm_csr_first db1 c) as [[rc2 db2] c2]. cbn [fst snd] in H2.
  destruct (negb _).
  - calls_auto.
  - pose proof (pylsm_csr_length_loop_calls (S (csr_span (Some c2) + 1)) db2 c2 0) as Hl.
    destruct (pylsm_csr_length_loop _ _ _ _) as [[[rc3 db3] r]|]; [|exact I].
    calls_auto.
Qed.

Lemma update_inserts_calls (l : list (string * string)) (db : lsm_db) (rc : Z) :
  calls_only db (snd (update_inserts db l rc)).
Proof.
  revert db rc. induction l as [|[k v] r IH]; intros db rc; cbn [update_inserts];
    [apply calls_refl|].
  pose proof (lsm_insert_calls db k v) as H1.
  destruct (lsm_insert db k v) as [rc1 db1]. cbn [snd] in H1.
  destruct (negb _); [exact H1|].
  exact (calls_trans _ _ _ H1 (IH _ _)).
Qed.

(** ** From engine calls to sections under the mutex *)

Lemma bracketed_refl (db : lsm_db) : bracketed db db.
Proof. exists []. rewrite app_nil_r. repeat split. Qed.

Lemma held_throughout_calls (t rest : list event) :
  forallb is_call t = true ->
  mutex_held_throughout true (t ++ rest) = mutex_held_throughout true rest /\
  mutex_held_after true (t ++ rest) = mutex_held_after true rest.
Proof.
  induction t as [|ev t IH]; intros H; [split; reflexivity|].
  cbn [forallb] in H. apply andb_true_iff in H. destruct H as [Hev Ht].
  destruct (IH Ht) as [A B].
  destruct ev; try discriminate; cbn [app mutex_held_throughout mutex_held_after andb];
    split; assumption.
Qed.

(** A section: the mutex is taken, engine calls are made, the mutex is
    released. *)
Lemma locked_section (self : LSM) (e : lsm_db) :
  calls_only (lsm (LSM_MutexLock self)) e ->
  bracketed (lsm self) (lsm (LSM_MutexLeave (set_lsm e (LSM_MutexLock self)))).
Proof.
  intros (t & E & F). exists (EvMutexEnter :: t ++ [EvMutexLeave]).
  cbn [LSM_MutexLeave LSM_MutexLock set_lsm lsm log db_trace] in *.
  rewrite E. rewrite <- !app_assoc. cbn [app].
  split; [reflexivity|].
  cbn [mutex_held_throughout mutex_held_after].
  destruct (held_throughout_calls t [EvMutexLeave] F) as [A B].
  rewrite A, B. split; reflexivity.
Qed.

Ltac split_guard :=
  match goal with
  | |- bracketed (lsm ?d) (lsm (snd (_, ?d))) => apply bracketed_refl
  | |- bracketed (lsm ?d) (lsm (snd (if ?c then _ else _))) => destruct c
  | |- bracketed (lsm ?d) (lsm (snd (match ?o with Some _ => _ | None => _ end))) =>
      destruct o
  | |- bracketed (lsm ?d)
         (lsm (snd (match ?o with PyOk _ => _ | PyRaise _ => _
                                | PyUndefined => _ | PyNoFuel => _ end))) =>
      destruct o
  | |- bracketed (lsm ?d) (lsm (snd (match ?o with
                                      | PyNone => _ | PyBool _ => _ | PyLong _ => _
                                      | PyBytes _ => _ | PyStr _ => _ | PyPair _ _ => _
                                      | PySlice _ _ _ => _ | PyOther => _ end))) =>
      destruct o
  end.

Lemma LSM_insert_bracketed (db : LSM) (k v : PyObject) :
  bracketed (lsm db) (lsm (snd (LSM_insert db k v))).
Proof.
  unfold LSM_insert. repeat split_guard.
  pose proof (lsm_insert_calls (lsm (LSM_MutexLock db)) a a0) as H.
  destruct (lsm_insert _ _ _) as [rc e]. cbn [snd] in H.
  destruct (pylsm_error rc); cbn [snd]; apply locked_section; exact H.
Qed.

Lemma LSM_delete_bracketed (db : LSM) (k : PyObject) :
  bracketed (lsm db) (lsm (snd (LSM_delete db k))).
Proof.
  unfold LSM_delete. repeat split_guard.
  pose proof (lsm_delete_calls (lsm (LSM_MutexLock db)) a) as H.
  destruct (lsm_delete _ _) as [rc e]. cbn [snd] in H.
  destruct (pylsm_error rc); cbn [snd]; apply locked_section; exact H.
Qed.

Lemma LSM_delete_range_bracketed (db : LSM) (a b : PyObject) :
  bracketed (lsm db) (lsm (snd (LSM_delete_range db a b))).
Proof.
  unfold LSM_delete_range. repeat split_guard.
  pose proof (lsm_delete_range_calls (lsm (LSM_MutexLock db)) a0 a1) as H.
  destruct (lsm_delete_range _ _ _) as [rc e]. cbn [snd] in H.
  destruct (pylsm_error rc); cbn [snd]; apply locked_section; exact H.
Qed.

Lemma LSM_set_del_item_bracketed (db : LSM) (k : PyObject) (v : option PyObject) :
  bracketed (lsm db) (lsm (snd (LSM_set_del_item db k v))).
Proof.
  unfold LSM_set_del_item. destruct (pylsm_ensure_writable db); [apply bracketed_refl|].
  assert (Hkey : forall pKey (pVal : PyResult (option string)),
    bracketed (lsm db)
      (lsm (snd (match pVal with
                 | PyOk pVal =>
                     if too_large pKey then (Some OverflowError, db) else
                     if match pVal with Some b => too_large b | None => false end
                     then (Some OverflowError, db) else
                     let self := LSM_MutexLock db in
                     let '(rc, e) :=
                       match pVal with
                       | None => pylsm_delitem (lsm self) pKey
                       | Some b => lsm_insert (lsm self) pKey b
                       end in
                     let self := LSM_MutexLeave (set_lsm e self) in
                     if rc =? -1 then (Some KeyError, self)
                     else (pylsm_error rc, self)
                 | _ => (Some ValueError, db)
                 end)))).
  { intros pKey pVal. destruct pVal as [pVal| | |]; try apply bracketed_refl.
    destruct (too_large pKey); [apply bracketed_refl|].
    destruct pVal as [b|].
    - destruct (too_large b); [apply bracketed_refl|]. cbv zeta.
      pose proof (lsm_insert_calls (lsm (LSM_MutexLock db)) pKey b) as H.
      destruct (lsm_insert _ _ _) as [rc e]. cbn [snd] in H.
      destruct (rc =? -1); cbn [snd]; apply locked_section; exact H.
    - cbv zeta.
      pose proof (pylsm_delitem_calls (lsm (LSM_MutexLock db)) pKey) as H.
      destruct (pylsm_delitem _ _) as [rc e]. cbn [snd] in H.
      destruct (rc =? -1); cbn [snd]; apply locked_section; exact H. }
  assert (Hrange : forall start stop step,
    bracketed (lsm db)
      (lsm (snd (match v with
                 | Some _ => (Some NotImplementedError, db)
                 | None =>
                     if negb (is_None step) then (Some ValueError, db) else
                     if is_None start || is_None stop then (Some ValueError, db) else
                     match str_or_bytes_check (binary db) start with
                     | PyOk pStart =>
                         match str_or_bytes_check (binary db) stop with
                         | PyOk pStop =>
                             if too_large pStart then (Some OverflowError, db) else
                             if too_large pStop then (Some OverflowError, db) else
                             let self := LSM_MutexLock db in
                             let '(rc, e) := lsm_delete_range (lsm self) pStart pStop in
                             let self := LSM_MutexLeave (set_lsm e self) in
                             (pylsm_error rc, self)
                         | _ => (Some ValueError, db)
                         end
                     | _ => (Some ValueError, db)
                     end
                 end)))).
  { intros start stop step. repeat split_guard. cbv zeta.
    pose proof (lsm_delete_range_calls (lsm (LSM_MutexLock db)) a a0) as H.
    destruct (lsm_delete_range _ _ _) as [rc e]. cbn [snd] in H.
    cbn [snd]; apply locked_section; exact H. }
  destruct k; try (destruct (str_or_bytes_check (binary db) _); try apply bracketed_refl;
                   apply Hkey).
  apply Hrange.
Qed.

Lemma getitem_lookup_bracketed (db : LSM) (k : PyObject) (m : Z) :
  bracketed (lsm db) (lsm (snd (getitem_lookup db k m))).
Proof.
  unfold getitem_lookup. repeat split_guard.
  pose proof (pylsm_getitem_calls (lsm (LSM_MutexLock db)) a m) as H.
  destruct (pylsm_getitem _ _ _) as [[rc e] pValue]. cbn [fst snd] in H.
  destruct (rc =? -1); [cbn [snd]; apply locked_section; exact H|].
  destruct pValue; [|cbn [snd]; apply locked_section; exact H].
  destruct (pylsm_error rc); cbn [snd]; apply locked_section; exact H.
Qed.

Lemma LSM_contains_bracketed (db : LSM) (k : PyObject) :
  bracketed (lsm db) (lsm (snd (LSM_contains db k))).
Proof.
  unfold LSM_contains. repeat split_guard.
  pose proof (pylsm_contains_calls (lsm (LSM_MutexLock db)) a) as H.
  destruct (pylsm_contains _ _) as [rc e]. cbn [snd] in H.
  destruct (rc =? -1); [cbn [snd]; apply locked_section; exact H|].
  destruct (rc =? 0); [cbn [snd]; apply locked_section; exact H|].
  destruct (pylsm_error rc); cbn [snd]; apply locked_section; exact H.
Qed.

(** The loop of [pylsm_csr_length] ends within the iterations it is given. *)
Lemma pylsm_csr_length_loop_total (fuel : nat) (db : lsm_db) (c : lsm_cursor) (n : Z) :
  (match c with CsrEof => 0 | CsrAt _ _ a => S (List.length a) end < fuel)%nat ->
  pylsm_csr_length_loop fuel db c n <> None.
Proof.
  revert db c n. induction fuel as [|fuel IH]; intros db c n Hf; [lia|].
  cbn [pylsm_csr_length_loop].
  destruct c as [|b x a]; cbn [lsm_csr_valid negb]; [discriminate|].
  unfold lsm_csr_next. destruct (engine_call EvCsrNext db) as [rc db1].
  destruct (rc =? LSM_OK) eqn:E.
  - apply Z.eqb_eq in E. subst rc. cbn [Z.eqb LSM_OK negb].
    apply IH. destruct a as [|y r]; cbn [csr_next List.length] in *; lia.
  - unfold LSM_OK in E. rewrite E. cbn [negb]. discriminate.
Qed.

Lemma pylsm_length_total (db : lsm_db) : pylsm_length db <> None.
Proof.
  unfold pylsm_length. destruct (lsm_csr_open db) as [[rc db1] opened].
  destruct (negb _); [discriminate|]. destruct opened as [c|]; [|discriminate].
  unfold pylsm_csr_length. destruct (lsm_csr_first db1 c) as [[rc2 db2] c2].
  destruct (negb _); [discriminate|].
  pose proof (pylsm_csr_length_loop_total (S (csr_span (Some c2) + 1)) db2 c2 0) as H.
  destruct (pylsm_csr_length_loop _ _ _ _) as [[[rc3 db3] r]|]; [discriminate|].
  exfalso. apply H; [|reflexivity]. destruct c2 as [|b x a]; cbn [csr_span]; lia.
Qed.

Lemma LSM_length_closed (db : LSM) :
  state db = PY_LSM_CLOSED -> LSM_length db = (PyUndefined, db).
Proof. intros Hs. unfold LSM_length. rewrite Hs. reflexivity. Qed.

Lemma LSM_length_bracketed (db : LSM) :
  state db <> PY_LSM_CLOSED ->
  fst (LSM_length db) <> PyNoFuel /\ fst (LSM_length db) <> PyUndefined /\
  bracketed (lsm db) (lsm (snd (LSM_length db))).
Proof.
  intros Hs. unfold LSM_length.
  destruct (Z.eqb_spec (state db) PY_LSM_CLOSED) as [E|_]; [contradiction|].
  pose proof (pylsm_length_calls (lsm (LSM_MutexLock db))) as H.
  pose proof (pylsm_length_total (lsm (LSM_MutexLock db))) as Ht.
  destruct (pylsm_length _) as [[[rc e] r]|]; [|contradiction].
  destruct (pylsm_error rc);
    (split; [discriminate|split; [discriminate|cbn [snd]; apply locked_section; exact H]]).
Qed.

Lemma LSM_update_bracketed (db : LSM) (items : list (PyObject * PyObject)) :
  bracketed (lsm db) (lsm (snd (LSM_update db items))).
Proof.
  unfold LSM_update. destruct (pylsm_ensure_writable db); [apply bracketed_refl|].
  destruct (update_buffers _ _) as [l| | |]; try apply bracketed_refl.
  destruct l as [|p l].
  - cbn [snd]. change (LSM_MutexLeave (LSM_MutexLock db))
      with (LSM_MutexLeave (set_lsm (lsm (LSM_MutexLock db)) (LSM_MutexLock db))).
    apply locked_section. apply calls_refl.
  - pose proof (update_inserts_calls (p :: l) (lsm (LSM_MutexLock db)) 0) as H.
    destruct (update_inserts _ _ _) as [rc e]. cbn [snd] in H.
    destruct (pylsm_error rc); cbn [snd]; apply locked_section; exact H.
Qed.

Lemma LSM_flush_bracketed (db : LSM) :
  bracketed (lsm db) (lsm (snd (LSM_flush db))).
Proof.
  unfold LSM_flush. destruct (pylsm_ensure_writable db); [apply bracketed_refl|].
  pose proof (calls_engine EvFlush (lsm (LSM_MutexLock db)) eq_refl) as H.
  destruct (engine_call _ _) as [rc e]. cbn [snd] in H.
  destruct (pylsm_error rc); cbn [snd]; apply locked_section; exact H.
Qed.

Lemma LSM_commit_inner_bracketed (db : LSM) (n : Z) :
  bracketed (lsm db) (lsm (snd (LSM_commit_inner db n))).
Proof.
  unfold LSM_commit_inner. destruct (pylsm_ensure_writable db); [apply bracketed_refl|].
  pose proof (lsm_commit_calls (lsm (LSM_MutexLock db)) (if n <? 0 then 0 else n)) as H.
  destruct (lsm_commit _ _) as [rc e]. cbn [snd] in H.
  destruct (pylsm_error rc); cbn [snd]; apply locked_section; exact H.
Qed.

Lemma LSM_rollback_inner_bracketed (db : LSM) (n : Z) :
  bracketed (lsm db) (lsm (snd (LSM_rollback_inner db n))).
Proof.
  unfold LSM_rollback_inner. destruct (pylsm_ensure_writable db); [apply bracketed_refl|].
  pose proof (lsm_rollback_calls (lsm (LSM_MutexLock db)) (if n <? 0 then 0 else n)) as H.
  destruct (lsm_rollback _ _) as [rc e]. cbn [snd] in H.
  destruct (pylsm_error rc); cbn [snd]; apply locked_section; exact H.
Qed.

Lemma LSM_getitem_bracketed (db : LSM) (arg : PyObject) :
  bracketed (lsm db) (lsm (snd (LSM_getitem db arg))).
Proof.
  unfold LSM_getitem. destruct (pylsm_ensure_opened db); [apply bracketed_refl|].
  destruct arg as [ |b|z|s|s|a b|start stop st| ]; try apply getitem_lookup_bracketed.
  - destruct b; try apply bracketed_refl; apply getitem_lookup_bracketed.
  - destruct (LSMSliceView_init _ _ _ _ _); apply bracketed_refl.
Qed.

(** Whatever the state of the connection, the arguments and the answers of
    the engine: every engine call made by [insert], [delete], [delete_range]
    and by item assignment and deletion ([db[k] = v], [del db[k]],
    [del db[a:b]]) is made while the mutex is held, and the mutex is free
    again when the call returns, also when it raises. *)
Theorem writes_hold_the_mutex (db : LSM) :
  (forall k v, bracketed (lsm db) (lsm (snd (LSM_insert db k v)))) /\
  (forall k, bracketed (lsm db) (lsm (snd (LSM_delete db k)))) /\
  (forall a b, bracketed (lsm db) (lsm (snd (LSM_delete_range db a b)))) /\
  (forall k v, bracketed (lsm db) (lsm (snd (LSM_set_del_item db k v)))).
Proof.
  split; [exact (LSM_insert_bracketed db)|].
  split; [exact (LSM_delete_bracketed db)|].
  split; [exact (LSM_delete_range_bracketed db)|].
  exact (LSM_set_del_item_bracketed db).
Qed.


(** Whatever the argument and the answers of the engine: every engine call
    made by [db[...]] and [key in db], in any state of the connection, and by
    [len(db)] on an opened connection, is made while the mutex is held, and
    the mutex is free again when the call returns, also when it raises; the
    loop of [len(db)] ends within the iterations it is given.  [len(db)]
    does not test the state before it takes the mutex: on a closed
    connection, whose [lsm_env] is [NULL], this is undefined behaviour. *)
Theorem lookups_hold_the_mutex (db : LSM) :
  (forall arg, bracketed (lsm db) (lsm (snd (LSM_getitem db arg)))) /\
  (forall k, bracketed (lsm db) (lsm (snd (LSM_contains db k)))) /\
  (state db = PY_LSM_OPENED ->
   fst (LSM_length db) <> PyNoFuel /\ fst (LSM_length db) <> PyUndefined /\
   bracketed (lsm db) (lsm (snd (LSM_length db)))) /\
  (state db = PY_LSM_CLOSED -> LSM_length db = (PyUndefined, db)).
Proof.
  split; [exact (LSM_getitem_bracketed db)|].
  split; [exact (LSM_contains_bracketed db)|].
  split; [|exact (LSM_length_closed db)].
  intros Hs. apply LSM_length_bracketed. rewrite Hs. discriminate.
Qed.

Lemma lookups_hold_the_mutex_witness :
  bracketed (lsm demo_db4) (lsm (snd (LSM_length demo_db4))) /\
  LSM_length (set_state PY_LSM_CLOSED demo_db4)
  = (PyUndefined, set_state PY_LSM_CLOSED demo_db4).
Proof.
  split.
  - destruct (lookups_hold_the_mutex demo_db4) as (_ & _ & H & _).
    destruct (H eq_refl) as (_ & _ & Hb). exact Hb.
  - destruct (lookups_hold_the_mutex (set_state PY_LSM_CLOSED demo_db4)) as (_ & _ & _ & H).
    exact (H eq_refl).
Defined.


(** Whatever the state of the connection, the arguments and the answers of
    the engine: every engine call made by [update], [flush] and by the commit
    and the rollback behind [commit()], [rollback()] and the transaction
    handles is made while the mutex is held, and the mutex is free again when
    the call returns, also when it raises. *)
Theorem bulk_calls_hold_the_mutex (db : LSM) :
  (forall items, bracketed (lsm db) (lsm (snd (LSM_update db items)))) /\
  bracketed (lsm db) (lsm (snd (LSM_flush db))) /\
  (forall n, bracketed (lsm db) (lsm (snd (LSM_commit_inner db n)))) /\
  (forall n, bracketed (lsm db) (lsm (snd (LSM_rollback_inner db n)))).
Proof.
  split; [exact (LSM_update_bracketed db)|].
  split; [exact (LSM_flush_bracketed db)|].
  split; [exact (LSM_commit_inner_bracketed db)|].
  exact (LSM_rollback_inner_bracketed db).
Qed.

(** ** Views on keys, values and items; the number of records *)

Lemma view_fetch_ok (kind : view_kind) (db : lsm_db) (b a : list item) (x : item)
    (bin : bool) :
  db_faults db = [] ->
  view_fetch kind db (CsrAt b x a) bin
  = (PyOk (view_obj kind bin x), log EvCsrValue (log EvCsrKey db)).
Proof.
  intros Hf. destruct kind; cbn [view_fetch view_obj].
  - unfold pylsm_cursor_key_fetch. rewrite (lsm_csr_key_ok db b a x Hf).
    rewrite pylsm_error_ok. rewrite (lsm_csr_value_ok (log EvCsrKey db) b a x Hf).
    rewrite pylsm_error_ok. reflexivity.
  - unfold pylsm_cursor_value_fetch. rewrite (lsm_csr_key_ok db b a x Hf).
    rewrite pylsm_error_ok. rewrite (lsm_csr_value_ok (log EvCsrKey db) b a x Hf).
    rewrite pylsm_error_ok. reflexivity.
  - rewrite (items_fetch_ok db b a x bin Hf). reflexivity.
Qed.

(** A pull on a view whose cursor is on a record. *)
Lemma view_next_ok (kind : view_kind) (b a : list item) (x : item) (db : LSM) :
  state db = PY_LSM_OPENED -> db_faults (lsm db) = [] ->
  LSMIterView_next kind (mk_LSMIterView PY_LSM_OPENED (Some (CsrAt b x a))) db
  = (PyOk (view_obj kind (binary db) x),
     mk_LSMIterView PY_LSM_OPENED (Some (csr_next (CsrAt b x a))),
     set_lsm (log EvMutexLeave (log EvCsrNext (log EvCsrValue (log EvCsrKey
                (log EvMutexEnter (lsm db)))))) db).
Proof.
  intros Hs Hf. unfold LSMIterView_next. rewrite (ensure_opened_ok db Hs).
  cbn [iv_state iv_cursor lsm_csr_valid negb].
  replace (match kind with KeysView => negb (PY_LSM_OPENED =? PY_LSM_OPENED) | _ => false end)
    with false by (destruct kind; reflexivity).
  rewrite (view_fetch_ok kind (lsm (LSM_MutexLock db)) b a x (binary (LSM_MutexLock db)) Hf).
  cbv beta iota zeta.
  rewrite (lsm_csr_next_ok (lsm (set_lsm _ (LSM_MutexLock db)))) by exact Hf.
  rewrite pylsm_error_ok. reflexivity.
Qed.

(** Collecting from a view whose cursor is on a record: that record and the
    ones after it, and the view is closed afterwards. *)
Lemma view_drain_spec (kind : view_kind) (a : list item) :
  forall (b : list item) (x : item) (db : LSM) (fuel : nat),
    state db = PY_LSM_OPENED -> db_faults (lsm db) = [] ->
    (S (List.length a) < fuel)%nat ->
    exists db' c',
      view_drain kind fuel (mk_LSMIterView PY_LSM_OPENED (Some (CsrAt b x a))) db
      = (PyOk (map (view_obj kind (binary db)) (x :: a)),
         mk_LSMIterView PY_LSM_CLOSED (Some c'), db') /\
      lsm_csr_valid c' = false /\
      state db' = PY_LSM_OPENED /\ db_store (lsm db') = db_store (lsm db).
Proof.
  induction a as [|y r IH]; intros b x db fuel Hs Hf Hfuel.
  - destruct fuel as [|[|fuel]]; try (cbn [List.length] in Hfuel; lia).
    cbn [view_drain]. rewrite (view_next_ok kind b [] x db Hs Hf).
    cbn [csr_next]. unfold LSMIterView_next.
    set (db1 := set_lsm _ db).
    rewrite (ensure_opened_ok db1 Hs). cbn [iv_state iv_cursor lsm_csr_valid negb].
    replace (match kind with KeysView => negb (PY_LSM_OPENED =? PY_LSM_OPENED) | _ => false end)
      with false by (destruct kind; reflexivity).
    exists db1, CsrEof. split; [reflexivity|]. split; [reflexivity|].
    split; [exact Hs|reflexivity].
  - destruct fuel as [|fuel]; [lia|].
    cbn [view_drain]. rewrite (view_next_ok kind b (y :: r) x db Hs Hf).
    cbn [csr_next]. set (db1 := set_lsm _ db).
    destruct (IH (x :: b) y db1 fuel Hs Hf ltac:(cbn [List.length] in Hfuel; lia))
      as (db' & c' & E & Hv & Hs' & Hst).
    rewrite E. exists db', c'. repeat split; assumption.
Qed.

Lemma LSMIterView_iter_ok (db : LSM) :
  state db = PY_LSM_OPENED -> db_faults (lsm db) = [] ->
  LSMIterView_iter (mk_LSMIterView PY_LSM_INITIALIZED None) db
  = (PyOk tt, mk_LSMIterView PY_LSM_OPENED (Some (csr_first (db_store (lsm db)))),
     set_lsm (log EvMutexLeave (log EvCsrFirst (log EvCsrOpen (log EvMutexEnter (lsm db)))))
       db).
Proof.
  intros Hs Hf. unfold LSMIterView_iter. rewrite (ensure_opened_ok db Hs).
  cbn [iv_state]. change (negb (PY_LSM_INITIALIZED =? PY_LSM_INITIALIZED)) with false.
  cbv iota. unfold lsm_csr_open.
  rewrite (engine_call_ok EvCsrOpen (lsm (LSM_MutexLock db)) Hf).
  cbn [Z.eqb LSM_OK]. rewrite pylsm_error_ok. cbv beta iota zeta.
  unfold lsm_csr_first. rewrite (engine_call_ok EvCsrFirst) by exact Hf.
  cbn [Z.eqb LSM_OK]. rewrite pylsm_error_ok. reflexivity.
Qed.




(** A view that has been iterated to its end and is pulled once more, with
    the connection as the iteration left it: the keys view raises
    [RuntimeError], the values view and the items view raise [StopIteration]
    again; view and connection stay as they are. *)
Theorem view_pulled_after_the_end (kind : view_kind) (db : LSM) (fuel : nat)
    (view1 : LSMIterView) (db1 : LSM) :
  state db = PY_LSM_OPENED -> db_faults (lsm db) = [] ->
  (S (List.length (db_store (lsm db))) < fuel)%nat ->
  LSMIterView_iter (mk_LSMIterView PY_LSM_INITIALIZED None) db = (PyOk tt, view1, db1) ->
  let '(_, view2, db2) := view_drain kind fuel view1 db1 in
  LSMIterView_next kind view2 db2
  = (PyRaise (match kind with KeysView => RuntimeError | _ => StopIteration end),
     view2, db2).
Proof.
  intros Hs Hf Hfuel Hiter. rewrite (LSMIterView_iter_ok db Hs Hf) in Hiter.
  inversion Hiter as [[Hv Hd]]. clear Hiter.
  set (d1 := set_lsm _ db).
  assert (Hclosed : forall c d, state d = PY_LSM_OPENED -> lsm_csr_valid c = false ->
            LSMIterView_next kind (mk_LSMIterView PY_LSM_CLOSED (Some c)) d
            = (PyRaise (match kind with KeysView => RuntimeError | _ => StopIteration end),
               mk_LSMIterView PY_LSM_CLOSED (Some c), d)).
  { intros c d Hsd Hc. unfold LSMIterView_next. rewrite (ensure_opened_ok d Hsd).
    cbn [iv_state iv_cursor]. rewrite Hc. destruct kind; reflexivity. }
  destruct (db_store (lsm db)) as [|x a] eqn:E; cbn [csr_first].
  - destruct fuel as [|fuel]; [lia|]. cbn [view_drain]. unfold LSMIterView_next at 1.
    rewrite (ensure_opened_ok d1 Hs). cbn [iv_state iv_cursor lsm_csr_valid negb].
    replace (match kind with KeysView => negb (PY_LSM_OPENED =? PY_LSM_OPENED) | _ => false end)
      with false by (destruct kind; reflexivity).
    cbv iota. apply Hclosed; [exact Hs|reflexivity].
  - destruct (view_drain_spec kind a [] x d1 fuel Hs Hf
                ltac:(cbn [List.length] in Hfuel; lia)) as (db' & c' & E' & Hc & Hs' & _).
    rewrite E'. apply Hclosed; assumption.
Qed.

Lemma view_pulled_after_the_end_witness :
  let it := LSMIterView_iter (mk_LSMIterView PY_LSM_INITIALIZED None) demo_db4 in
  let '(_, view2, db2) := view_drain KeysView 6 (snd (fst it)) (snd it) in
  LSMIterView_next KeysView view2 db2 = (PyRaise RuntimeError, view2, db2).
Proof.
  intros it.
  assert (Hfuel : (S (List.length (db_store (lsm demo_db4))) < 6)%nat)
    by (vm_compute; lia).
  assert (Hit : it = (PyOk tt, snd (fst it), snd it)) by (vm_compute; reflexivity).
  exact (view_pulled_after_the_end KeysView demo_db4 6 (snd (fst it)) (snd it)
           eq_refl eq_refl Hfuel Hit).
Defined.


(** The loop of [pylsm_csr_length] on an engine whose calls succeed. *)
Lemma pylsm_csr_length_loop_ok (a : list item) :
  forall (b : list item) (x : item) (db : lsm_db) (n : Z) (fuel : nat),
    db_faults db = [] -> (S (List.length a) < fuel)%nat ->
    exists db', pylsm_csr_length_loop fuel db (CsrAt b x a) n
                = Some (0, db', n + 1 + Z.of_nat (List.length a)) /\
                db_faults db' = [].
Proof.
  induction a as [|y r IH]; intros b x db n fuel Hf Hfuel.
  - destruct fuel as [|[|fuel]]; try (cbn [List.length] in Hfuel; lia).
    cbn [pylsm_csr_length_loop lsm_csr_valid negb].
    rewrite (lsm_csr_next_ok db _ Hf). cbn [Z.eqb LSM_OK negb csr_next lsm_csr_valid].
    exists (log EvCsrNext db). split; [|exact Hf].
    cbn [List.length Z.of_nat]. rewrite Z.add_0_r. reflexivity.
  - destruct fuel as [|fuel]; [lia|].
    cbn [pylsm_csr_length_loop lsm_csr_valid negb].
    rewrite (lsm_csr_next_ok db _ Hf). cbn [Z.eqb LSM_OK negb csr_next].
    destruct (IH (x :: b) y (log EvCsrNext db) (n + 1) fuel Hf
                ltac:(cbn [List.length] in Hfuel; lia)) as (db' & E & Hf').
    rewrite E. exists db'. split; [|exact Hf'].
    replace (n + 1 + Z.of_nat (List.length (y :: r)))
      with (n + 1 + 1 + Z.of_nat (List.length r)) by (cbn [List.length]; lia).
    reflexivity.
Qed.

(** With an engine whose calls succeed: [len(db)] on an opened connection is
    the number of records of the store, and [len] of a keys, values or items
    view is that number on an opened connection and raises [RuntimeError] on
    any other.  [len(db)] itself does not test the state: on a closed
    connection it takes the mutex through the [lsm_env] that [_LSM_close] has
    set to [NULL], which is undefined behaviour. *)
Theorem length_counts_records (db : LSM) :
  db_faults (lsm db) = [] ->
  (state db = PY_LSM_OPENED ->
   fst (LSM_length db) = PyOk (Z.of_nat (List.length (db_store (lsm db))))) /\
  (state db = PY_LSM_CLOSED -> LSM_length db = (PyUndefined, db)) /\
  forall view,
    fst (LSMIterView_len view db)
    = if state db =? PY_LSM_OPENED
      then PyOk (Z.of_nat (List.length (db_store (lsm db))))
      else PyRaise RuntimeError.
Proof.
  intros Hf.
  assert (Hlen : state db = PY_LSM_OPENED ->
                 fst (LSM_length db) = PyOk (Z.of_nat (List.length (db_store (lsm db))))).
  { intros Hs. unfold LSM_length, pylsm_length, lsm_csr_open. rewrite Hs.
    cbn [Z.eqb PY_LSM_OPENED PY_LSM_CLOSED Pos.eqb].
    rewrite (engine_call_ok EvCsrOpen (lsm (LSM_MutexLock db)) Hf).
    cbn [Z.eqb LSM_OK negb]. unfold pylsm_csr_length, lsm_csr_first.
    rewrite (engine_call_ok EvCsrFirst) by exact Hf.
    cbn [Z.eqb LSM_OK negb db_store log LSM_MutexLock lsm set_lsm].
    destruct (db_store (lsm db)) as [|x a] eqn:E; cbn [csr_first].
    - cbn [pylsm_csr_length_loop lsm_csr_valid negb]. unfold lsm_csr_close.
      rewrite (engine_call_ok EvCsrClose) by exact Hf. reflexivity.
    - destruct (pylsm_csr_length_loop_ok a [] x
                  (log EvCsrFirst (log EvCsrOpen (log EvMutexEnter (lsm db)))) 0
                  (S (csr_span (Some (CsrAt [] x a)) + 1)) Hf
                  ltac:(cbn [csr_span List.length]; lia)) as (db' & El & Hf').
      rewrite El. unfold lsm_csr_close. rewrite (engine_call_ok EvCsrClose db' Hf').
      cbn [snd fst pylsm_error Z.eqb LSM_OK LSM_MutexLeave set_lsm lsm log db_store].
      f_equal. cbn [List.length]. lia. }
  split; [exact Hlen|]. split; [exact (LSM_length_closed db)|].
  intros view. unfold LSMIterView_len, pylsm_ensure_opened.
  destruct (Z.eqb_spec (state db) PY_LSM_OPENED) as [Hs|_]; [exact (Hlen Hs)|reflexivity].
Qed.

Lemma length_counts_records_witness :
  fst (LSM_length demo_db4) = PyOk 4 /\
  LSM_length (set_state PY_LSM_CLOSED demo_db4)
  = (PyUndefined, set_state PY_LSM_CLOSED demo_db4) /\
  fst (LSMIterView_len (mk_LSMIterView PY_LSM_INITIALIZED None)
         (set_state PY_LSM_CLOSED demo_db4)) = PyRaise RuntimeError.
Proof.
  split; [|split].
  - exact (proj1 (length_counts_records demo_db4 eq_refl) eq_refl).
  - exact (proj1 (proj2 (length_counts_records (set_state PY_LSM_CLOSED demo_db4) eq_refl))
             eq_refl).
  - exact (proj2 (proj2 (length_counts_records (set_state PY_LSM_CLOSED demo_db4) eq_refl))
             (mk_LSMIterView PY_LSM_INITIALIZED None)).
Defined.

(** ** [update] *)

(** A pair the first loop of [LSM_update] refuses ends the loop with an
    exception, wherever it is in the list. *)
Lemma update_buffers_refused (bin : bool) (items : list (PyObject * PyObject))
    (k v : PyObject) :
  In (k, v) items ->
  (forall s, str_or_bytes_check bin k <> PyOk s) \/
  (forall s, str_or_bytes_check bin v <> PyOk s) ->
  exists e, update_buffers bin items = PyRaise e /\ (e = ValueError \/ e = OverflowError).
Proof.
  intros Hin Hbad. induction items as [|[k' v'] r IH]; [destruct Hin|].
  cbn [update_buffers].
  destruct (str_or_bytes_check bin k') as [pKey|e| |] eqn:Ek; eauto.
  destruct (too_large pKey); eauto.
  destruct (str_or_bytes_check bin v') as [pVal|e| |] eqn:Ev; eauto.
  destruct (too_large pVal); eauto.
  destruct Hin as [Heq|Hin].
  - inversion Heq; subst k' v'. destruct Hbad as [H|H]; exfalso; eapply H; eassumption.
  - destruct (IH Hin) as (e & E & He). rewrite E. eauto.
Qed.

Lemma update_buffers_ok (bin : bool) (kvs : list (string * string)) :
  (forall k v, In (k, v) kvs -> too_large k = false /\ too_large v = false) ->
  update_buffers bin (map (fun kv => (py_buffer bin (fst kv), py_buffer bin (snd kv))) kvs)
  = PyOk kvs.
Proof.
  induction kvs as [|[k v] r IH]; intros H; [reflexivity|].
  cbn [map update_buffers fst snd]. rewrite !str_or_bytes_check_buffer.
  destruct (H k v (or_introl eq_refl)) as [Hk Hv]. rewrite Hk, Hv.
  rewrite IH; [reflexivity|]. intros k' v' Hin. apply H. right. exact Hin.
Qed.

(** The second loop of [LSM_update] on an engine whose calls succeed. *)
Lemma update_inserts_ok (kvs : list (string * string)) (db : lsm_db) :
  db_faults db = [] ->
  exists db',
    update_inserts db kvs 0 = (0, db') /\ db_faults db' = [] /\
    db_store db' = fold_left (fun s kv => store_insert (fst kv) (snd kv) s) kvs (db_store db) /\
    db_trace db' = db_trace db ++ map (fun kv => EvInsert (fst kv) (snd kv)) kvs.
Proof.
  revert db. induction kvs as [|[k v] r IH]; intros db Hf.
  - exists db. cbn. rewrite app_nil_r. auto.
  - cbn [update_inserts]. unfold lsm_insert. rewrite (engine_call_ok _ db Hf).
    cbn [Z.eqb LSM_OK negb].
    destruct (IH (set_store (store_insert k v (db_store (log (EvInsert k v) db)))
                    (log (EvInsert k v) db)) Hf) as (db' & E & Hf' & Hst & Htr).
    exists db'. split; [exact E|]. split; [exact Hf'|]. split; [exact Hst|].
    rewrite Htr. cbn [map fst snd set_store log db_trace]. rewrite <- app_assoc. reflexivity.
Qed.

Lemma apply_write_put_store (db : LSM) (k v : string) :
  state db = PY_LSM_OPENED -> readonly db = 0 -> db_faults (lsm db) = [] ->
  too_large k = false -> too_large v = false ->
  db_store (lsm (apply_write (WPut k v) db)) = store_insert k v (db_store (lsm db)).
Proof.
  intros Hs Hr Hf Hk Hv. unfold apply_write, LSM_insert.
  rewrite (ensure_writable_ok db Hs Hr), !parse_buffer_buffer, Hk, Hv.
  unfold lsm_insert. rewrite (engine_call_ok _ (lsm (LSM_MutexLock db)) Hf). reflexivity.
Qed.

Lemma apply_writes_puts_store (kvs : list (string * string)) (db : LSM) :
  state db = PY_LSM_OPENED -> readonly db = 0 -> db_faults (lsm db) = [] ->
  (forall k v, In (k, v) kvs -> too_large k = false /\ too_large v = false) ->
  db_store (lsm (apply_writes (map (fun kv => WPut (fst kv) (snd kv)) kvs) db))
  = fold_left (fun s kv => store_insert (fst kv) (snd kv) s) kvs (db_store (lsm db)).
Proof.
  revert db. induction kvs as [|[k v] r IH]; intros db Hs Hr Hf Hsz; [reflexivity|].
  cbn [map apply_writes fold_left fst snd].
  fold (apply_writes (map (fun kv => WPut (fst kv) (snd kv)) r) (apply_write (WPut k v) db)).
  destruct (Hsz k v (or_introl eq_refl)) as [Hk Hv].
  destruct (apply_write_inv (WPut k v) db Hs Hr Hf) as (Hs' & Hr' & Hf' & _).
  rewrite IH; try assumption.
  - rewrite (apply_write_put_store db k v Hs Hr Hf Hk Hv). reflexivity.
  - intros k' v' Hin. apply Hsz. right. exact Hin.
Qed.

(** [db.update(mapping)] with a mapping that is not empty, all keys and values
    of the type of the connection, on an opened writable connection and an
    engine whose calls succeed: [None] is returned, the store is the one the
    calls [db.insert(k, v)] would leave, pair after pair, and all the engine
    inserts are made within one hold of the mutex. *)
Theorem update_is_the_inserts (db : LSM) (kvs : list (string * string)) :
  state db = PY_LSM_OPENED -> readonly db = 0 -> db_faults (lsm db) = [] ->
  kvs <> [] ->
  (forall k v, In (k, v) kvs -> too_large k = false /\ too_large v = false) ->
  let items := map (fun kv => (py_buffer (binary db) (fst kv),
                               py_buffer (binary db) (snd kv))) kvs in
  fst (LSM_update db items) = PyOk PyNone /\
  db_store (lsm (snd (LSM_update db items)))
  = db_store (lsm (apply_writes (map (fun kv => WPut (fst kv) (snd kv)) kvs) db)) /\
  db_trace (lsm (snd (LSM_update db items)))
  = db_trace (lsm db)
    ++ EvMutexEnter :: map (fun kv => EvInsert (fst kv) (snd kv)) kvs ++ [EvMutexLeave].
Proof.
  intros Hs Hr Hf Hne Hsz items. subst items. unfold LSM_update.
  rewrite (ensure_writable_ok db Hs Hr), (update_buffers_ok (binary db) kvs Hsz).
  destruct kvs as [|p r]; [contradiction|]. cbv zeta.
  destruct (update_inserts_ok (p :: r) (lsm (LSM_MutexLock db)) Hf)
    as (db' & E & Hf' & Hst & Htr).
  rewrite E. cbn [pylsm_error Z.eqb LSM_OK fst snd LSM_MutexLeave set_lsm lsm log
                    db_store db_trace].
  split; [reflexivity|]. split.
  - rewrite Hst. rewrite (apply_writes_puts_store (p :: r) db Hs Hr Hf Hsz). reflexivity.
  - rewrite Htr. cbn [LSM_MutexLock set_lsm lsm log db_trace].
    rewrite <- !app_assoc. reflexivity.
Qed.

Lemma update_is_the_inserts_witness :
  db_store (lsm (snd (LSM_update demo_db [(PyStr "b", PyStr "2"); (PyStr "a", PyStr "1")])))
  = [("a"%string, "1"%string); ("b"%string, "2"%string)].
Proof.
  assert (Hne : [("b"%string, "2"%string); ("a"%string, "1"%string)] <> [])
    by discriminate.
  assert (Hsz : forall k v, In (k, v) [("b"%string, "2"%string); ("a"%string, "1"%string)] ->
                            too_large k = false /\ too_large v = false).
  { intros k v [E|[E|[]]]; inversion E; split; reflexivity. }
  destruct (update_is_the_inserts demo_db _ eq_refl eq_refl eq_refl Hne Hsz) as (_ & H & _).
  exact H.
Defined.


(** [db.update(mapping)] on an opened writable connection: if a key or a
    value of the mapping is not of the type of the connection, the call raises
    [ValueError] (or [OverflowError], for an earlier pair that is too large)
    and the connection is left as it was, no pair having been written.  For an
    empty mapping the result code is tested without having been assigned. *)
Theorem update_validates_before_writing (db : LSM) (items : list (PyObject * PyObject))
    (k v : PyObject) :
  state db = PY_LSM_OPENED -> readonly db = 0 ->
  In (k, v) items ->
  (forall s, str_or_bytes_check (binary db) k <> PyOk s) \/
  (forall s, str_or_bytes_check (binary db) v <> PyOk s) ->
  (exists e, LSM_update db items = (PyRaise e, db) /\
             (e = ValueError \/ e = OverflowError)) /\
  fst (LSM_update db []) = PyUndefined.
Proof.
  intros Hs Hr Hin Hbad. split.
  - destruct (update_buffers_refused (binary db) items k v Hin Hbad) as (e & E & He).
    exists e. split; [|exact He]. unfold LSM_update.
    rewrite (ensure_writable_ok db Hs Hr), E. reflexivity.
  - unfold LSM_update. rewrite (ensure_writable_ok db Hs Hr). reflexivity.
Qed.

Lemma update_validates_before_writing_witness :
  exists e, LSM_update demo_db [(PyStr "a", PyStr "1"); (PyStr "b", PyBytes "2")]
            = (PyRaise e, demo_db).
Proof.
  assert (Hin : In (PyStr "b", PyBytes "2")
                  [(PyStr "a", PyStr "1"); (PyStr "b", PyBytes "2")])
    by (right; left; reflexivity).
  assert (Hbad : (forall s, str_or_bytes_check (binary demo_db) (PyStr "b") <> PyOk s) \/
                 (forall s, str_or_bytes_check (binary demo_db) (PyBytes "2") <> PyOk s))
    by (right; intros s; discriminate).
  destruct (update_validates_before_writing demo_db _ _ _ eq_refl eq_refl Hin Hbad)
    as ((e & E & _) & _).
  exists e. exact E.
Defined.


(** ** [delete_range] and the deletion of a slice *)

(** [db.delete_range(a, b)] and [del db[a:b]], on an opened writable
    connection and an engine whose calls succeed: both make the same single
    engine call under the mutex and leave the same connection; a record stays
    exactly when its key is not strictly between [a] and [b], so the records
    whose key is [a] or [b] stay. *)
Theorem delete_range_spares_the_bounds (db : LSM) (a b : string) :
  state db = PY_LSM_OPENED -> readonly db = 0 -> db_faults (lsm db) = [] ->
  too_large a = false -> too_large b = false ->
  let pa := py_buffer (binary db) a in
  let pb := py_buffer (binary db) b in
  let db' := snd (LSM_delete_range db pa pb) in
  fst (LSM_delete_range db pa pb) = PyOk PyNone /\
  LSM_set_del_item db (PySlice pa pb PyNone) None = (None, db') /\
  db_trace (lsm db') = db_trace (lsm db) ++ [EvMutexEnter; EvDeleteRange a b; EvMutexLeave] /\
  (forall it, In it (db_store (lsm db')) <->
              In it (db_store (lsm db)) /\
              (String.ltb a (fst it) && String.ltb (fst it) b = false)) /\
  (forall it, In it (db_store (lsm db)) -> fst it = a \/ fst it = b ->
              In it (db_store (lsm db'))).
Proof.
  intros Hs Hr Hf Ha Hb pa pb db'. subst db' pa pb.
  assert (E1 : LSM_delete_range db (py_buffer (binary db) a) (py_buffer (binary db) b)
               = (PyOk PyNone,
                  set_lsm (log EvMutexLeave
                             (set_store (store_delete_range a b (db_store (lsm db)))
                                (log (EvDeleteRange a b) (log EvMutexEnter (lsm db))))) db)).
  { unfold LSM_delete_range.
    rewrite (ensure_writable_ok db Hs Hr), !parse_buffer_buffer, Ha, Hb.
    unfold lsm_delete_range. rewrite (engine_call_ok _ (lsm (LSM_MutexLock db)) Hf).
    reflexivity. }
  rewrite E1. cbn [fst snd lsm set_lsm log set_store db_store db_trace].
  assert (Hltb : forall k, String.ltb k k = false).
  { intros k. unfold String.ltb. rewrite compare_refl. reflexivity. }
  split; [reflexivity|]. split; [|split; [|split]].
  - unfold LSM_set_del_item. rewrite (ensure_writable_ok db Hs Hr).
    assert (Hn : forall s, is_None (py_buffer (binary db) s) = false)
      by (intros s; destruct (binary db); reflexivity).
    cbn [is_None negb]. rewrite !Hn. cbn [orb].
    rewrite !str_or_bytes_check_buffer, Ha, Hb.
    unfold lsm_delete_range. rewrite (engine_call_ok _ (lsm (LSM_MutexLock db)) Hf).
    reflexivity.
  - apply app_one_three.
  - intros it. unfold store_delete_range. rewrite filter_In, negb_true_iff. reflexivity.
  - intros it Hin Hk. unfold store_delete_range. apply filter_In. split; [exact Hin|].
    cbv beta. apply negb_true_iff. destruct it as [k v]. cbn [fst] in *.
    destruct Hk as [Hk|Hk]; subst k; rewrite Hltb; [reflexivity|apply andb_false_r].
Qed.

Lemma delete_range_spares_the_bounds_witness :
  db_store (lsm (snd (LSM_delete_range demo_db4 (PyStr "k0") (PyStr "k3"))))
  = [("k0"%string, "0"%string); ("k3"%string, "3"%string)] /\
  In ("k3"%string, "3"%string)
     (db_store (lsm (snd (LSM_delete_range demo_db4 (PyStr "k0") (PyStr "k3"))))).
Proof.
  split; [vm_compute; reflexivity|].
  destruct (delete_range_spares_the_bounds demo_db4 "k0" "k3"
              eq_refl eq_refl eq_refl eq_refl eq_refl) as (_ & _ & _ & _ & H).
  apply H; [|right; reflexivity].
  vm_compute. right. right. right. left. reflexivity.
Defined.

(** ** Cursors *)

(** On an opened connection a cursor that is not on a record fails the check
    every method starts with. *)
Lemma ensure_csr_opened_invalid (self : LSMCursor) (db : LSM) :
  state db = PY_LSM_OPENED -> lsm_csr_valid (cursor self) = false ->
  pylsm_ensure_csr_opened self db = (true, Some RuntimeError).
Proof.
  intros Hs Hv. unfold pylsm_ensure_csr_opened.
  rewrite (ensure_opened_ok db Hs), Hv. destruct (_ || _); reflexivity.
Qed.

(** A cursor that is not on a record (it has run off either end, or a seek
    found nothing), on an opened connection: [first], [last], [seek], [next],
    [previous], [key], [value], [retrieve] and [compare] all raise
    [RuntimeError] and leave the cursor where it is, so that it cannot be put
    back on a record.  The validity query [lsm_csr_valid] of
    [pylsm_ensure_csr_opened] is what rejects them; the mutex is not taken
    and no other engine call is made. *)
Theorem cursor_off_the_records_is_dead (self : LSMCursor) (db : LSM) :
  state db = PY_LSM_OPENED -> lsm_csr_valid (cursor self) = false ->
  LSMCursor_first self db = (PyRaise RuntimeError, self, db) /\
  LSMCursor_last self db = (PyRaise RuntimeError, self, db) /\
  (forall k mode, LSMCursor_seek self db k mode = (PyRaise RuntimeError, self, db)) /\
  LSMCursor_next self db = (PyRaise RuntimeError, self, db) /\
  LSMCursor_previous self db = (PyRaise RuntimeError, self, db) /\
  LSMCursor_key self db = (PyRaise RuntimeError, db) /\
  LSMCursor_value self db = (PyRaise RuntimeError, db) /\
  LSMCursor_retrieve self db = (PyRaise RuntimeError, db) /\
  (forall k, LSMCursor_compare self db k = (PyRaise RuntimeError, db)).
Proof.
  intros Hs Hv. pose proof (ensure_csr_opened_invalid self db Hs Hv) as E.
  unfold LSMCursor_first, LSMCursor_last, LSMCursor_seek, LSMCursor_next,
    LSMCursor_previous, LSMCursor_key, LSMCursor_value, LSMCursor_retrieve,
    LSMCursor_compare.
  rewrite E. cbn [raised].
  destruct (csr_state self =? PY_LSM_ITERATING);
    (split; [reflexivity|]); (split; [reflexivity|]); (split; [reflexivity|]);
    (split; [reflexivity|]); (split; [reflexivity|]); (split; [reflexivity|]);
    (split; [reflexivity|]); (split; reflexivity).
Qed.

Lemma cursor_off_the_records_is_dead_witness :
  LSMCursor_first (mk_LSMCursor PY_LSM_OPENED CsrEof LSM_SEEK_GE) demo_db4
  = (PyRaise RuntimeError, mk_LSMCursor PY_LSM_OPENED CsrEof LSM_SEEK_GE, demo_db4).
Proof.
  destruct (cursor_off_the_records_is_dead
              (mk_LSMCursor PY_LSM_OPENED CsrEof LSM_SEEK_GE) demo_db4 eq_refl eq_refl)
    as (H & _).
  exact H.
Defined.


(** [db.cursor()] on an engine whose calls succeed. *)
Lemma LSM_cursor_ok (db : LSM) (mode : option Z) :
  state db = PY_LSM_OPENED -> db_faults (lsm db) = [] ->
  pylsm_seek_mode_check (match mode with Some m => m | None => LSM_SEEK_GE end) = true ->
  LSM_cursor db mode =
    (PyOk (mk_LSMCursor PY_LSM_OPENED (csr_first (db_store (lsm db)))
             (match mode with Some m => m | None => LSM_SEEK_GE end)),
     set_lsm (log EvMutexLeave (log EvCsrFirst (log EvMutexEnter
                (log EvMutexLeave (log EvCsrOpen (log EvMutexEnter (lsm db))))))) db).
Proof.
  intros Hs Hf Hm. unfold LSM_cursor. rewrite (ensure_opened_ok db Hs), Hm. cbn [negb].
  unfold LSMCursor_new. rewrite (ensure_opened_ok db Hs). unfold lsm_csr_open.
  rewrite (engine_call_ok EvCsrOpen (lsm (LSM_MutexLock db)) Hf).
  cbn [Z.eqb LSM_OK]. rewrite pylsm_error_ok. cbv beta iota zeta.
  unfold lsm_csr_first. rewrite (engine_call_ok EvCsrFirst) by exact Hf.
  cbn [Z.eqb LSM_OK]. rewrite pylsm_error_ok. reflexivity.
Qed.

(** [db.cursor()] on an opened writable connection whose store is empty, with
    an engine whose calls succeed: the cursor is created, and whatever is
    written afterwards its [first], [last] and [seek] raise [RuntimeError]. *)
Theorem cursor_of_an_empty_store (db : LSM) (ws : list write) :
  state db = PY_LSM_OPENED -> readonly db = 0 -> db_faults (lsm db) = [] ->
  db_store (lsm db) = [] ->
  exists c db1,
    LSM_cursor db None = (PyOk c, db1) /\
    let db2 := apply_writes ws db1 in
    LSMCursor_first c db2 = (PyRaise RuntimeError, c, db2) /\
    LSMCursor_last c db2 = (PyRaise RuntimeError, c, db2) /\
    forall k mode, LSMCursor_seek c db2 k mode = (PyRaise RuntimeError, c, db2).
Proof.
  intros Hs Hr Hf Hst.
  pose proof (LSM_cursor_ok db None Hs Hf eq_refl) as E.
  rewrite Hst in E. cbn [csr_first] in E.
  destruct (LSM_cursor db None) as [r db1]. inversion E as [[Hr1 Hd1]].
  exists (mk_LSMCursor PY_LSM_OPENED CsrEof LSM_SEEK_GE), db1.
  split; [rewrite Hd1; reflexivity|]. intros db2.
  assert (Hs1 : state db1 = PY_LSM_OPENED) by (rewrite Hd1; exact Hs).
  assert (Hr1' : readonly db1 = 0) by (rewrite Hd1; exact Hr).
  assert (Hf1 : db_faults (lsm db1) = []) by (rewrite Hd1; exact Hf).
  destruct (apply_writes_inv ws db1 Hs1 Hr1' Hf1) as (Hs2 & _).
  pose proof (ensure_csr_opened_invalid
                (mk_LSMCursor PY_LSM_OPENED CsrEof LSM_SEEK_GE) db2 Hs2 eq_refl) as Ec.
  unfold LSMCursor_first, LSMCursor_last, LSMCursor_seek. rewrite Ec.
  split; [reflexivity|]. split; reflexivity.
Qed.

Lemma cursor_of_an_empty_store_witness :
  exists c db1,
    LSM_cursor demo_db None = (PyOk c, db1) /\
    LSMCursor_first c (apply_writes [WPut "a" "1"] db1)
    = (PyRaise RuntimeError, c, apply_writes [WPut "a" "1"] db1).
Proof.
  destruct (cursor_of_an_empty_store demo_db [WPut "a" "1"] eq_refl eq_refl eq_refl eq_refl)
    as (c & db1 & E & H & _).
  exists c, db1. exact (conj E H).
Defined.


Lemma cmp_to_Z_antisym (a b : string) :
  - cmp_to_Z (String.compare a b) = cmp_to_Z (String.compare b a).
Proof.
  rewrite (String.compare_antisym b a). destruct (String.compare a b); reflexivity.
Qed.

(** [cursor.compare(key)] on a cursor that is on a record, with an engine
    whose calls succeed: for a cursor of mode [SEEK_GE] (the mode of
    [db.cursor()]) the answer is the comparison of [key] with the key of the
    cursor; for the other modes it is the comparison of the key of the cursor
    with [key], the opposite sign. *)
Theorem compare_sign_follows_the_mode (self : LSMCursor) (db : LSM) (k : string)
    (b a : list item) (x : item) :
  state db = PY_LSM_OPENED -> db_faults (lsm db) = [] -> too_large k = false ->
  csr_state self = PY_LSM_OPENED -> cursor self = CsrAt b x a ->
  fst (LSMCursor_compare self db (py_buffer (binary db) k))
  = PyOk (PyLong (if seek_mode self =? LSM_SEEK_GE
                  then cmp_to_Z (String.compare k (fst x))
                  else cmp_to_Z (String.compare (fst x) k))).
Proof.
  intros Hs Hf Hk Hc Hcur. unfold LSMCursor_compare, pylsm_ensure_csr_opened.
  rewrite (ensure_opened_ok db Hs), Hc, Hcur.
  cbn [Z.eqb PY_LSM_OPENED Pos.eqb orb lsm_csr_valid negb].
  rewrite str_or_bytes_check_buffer, Hk.
  rewrite (lsm_csr_cmp_ok (lsm (LSM_MutexLock db)) b a x k Hf).
  rewrite pylsm_error_ok. cbn [fst py_return].
  destruct (seek_mode self =? LSM_SEEK_GE); [|reflexivity].
  rewrite cmp_to_Z_antisym. reflexivity.
Qed.

Lemma compare_sign_follows_the_mode_witness :
  fst (LSMCursor_compare demo_cursor demo_db4 (PyStr "k2")) = PyOk (PyLong 1).
Proof.
  exact (compare_sign_follows_the_mode demo_cursor demo_db4 "k2" []
           [("k1"%string, "1"%string); ("k2"%string, "2"%string); ("k3"%string, "3"%string)]
           ("k0"%string, "0"%string) eq_refl eq_refl eq_refl eq_refl eq_refl).
Defined.

(** ** Construction and opening *)

Lemma lsm_config_all_ok (n : nat) (db : lsm_db) :
  db_faults db = [] ->
  fst (lsm_config_all n db) = LSM_OK /\
  db_trace (snd (lsm_config_all n db)) = db_trace db ++ repeat EvConfig n.
Proof.
  revert db. induction n as [|n IH]; intros db Hf.
  - cbn. rewrite app_nil_r. auto.
  - cbn [lsm_config_all]. rewrite (engine_call_ok EvConfig db Hf).
    cbn [Z.eqb LSM_OK]. destruct (IH (log EvConfig db) Hf) as [A B].
    split; [exact A|]. rewrite B. cbn [log db_trace repeat].
    rewrite <- app_assoc. reflexivity.
Qed.

(** The compressor and the level [LSM_init] settles on. *)
Lemma init_compress_spec (compress : PyObject) (level : Z) :
  match init_compress compress level with
  | PyOk (cid, lvl) =>
      (compress = PyNone /\ cid = PY_LSM_COMPRESSOR_EMPTY /\ lvl = level) \/
      (compress = PyStr "none" /\ cid = PY_LSM_COMPRESSOR_NONE /\ lvl = level) \/
      (compress = PyStr "lz4" /\ cid = PY_LSM_COMPRESSOR_LZ4 /\
       ((level = PYLSM_DEFAULT_COMPRESS_LEVEL /\ lvl = 16) \/
        (1 <= level <= 16 /\ lvl = level))) \/
      (compress = PyStr "zstd" /\ cid = PY_LSM_COMPRESSOR_ZSTD /\
       ((level = PYLSM_DEFAULT_COMPRESS_LEVEL /\ lvl = 3) \/
        (1 <= level <= 22 /\ lvl = level)))
  | PyRaise e =>
      e = ValueError /\ compress <> PyNone /\ compress <> PyStr "none" /\
      (compress = PyStr "lz4" ->
       level <> PYLSM_DEFAULT_COMPRESS_LEVEL /\ ~ 1 <= level <= 16) /\
      (compress = PyStr "zstd" ->
       level <> PYLSM_DEFAULT_COMPRESS_LEVEL /\ ~ 1 <= level <= 22)
  | _ => False
  end.
Proof.
  unfold init_compress.
  destruct compress as [ |b|z|s|s|a b|a b c| ];
    try (repeat split; intros; discriminate).
  - left. auto.
  - destruct (String.eqb_spec s "none") as [->|Hnone].
    { right. left. auto. }
    destruct (String.eqb_spec s "lz4") as [->|Hlz4].
    { unfold PYLSM_DEFAULT_COMPRESS_LEVEL, LZ4_COMP_LEVEL_DEFAULT, LZ4_COMP_LEVEL_MAX.
      destruct (Z.eqb_spec level (-65535)) as [->|Hd].
      - cbn. right. right. left. auto.
      - destruct (Z.ltb_spec 16 level); cbn [orb].
        + repeat split; try discriminate; intros; lia.
        + destruct (Z.ltb_spec level 1).
          * repeat split; try discriminate; intros; lia.
          * right. right. left. repeat split; auto. }
    destruct (String.eqb_spec s "zstd") as [->|Hzstd].
    { unfold PYLSM_DEFAULT_COMPRESS_LEVEL, ZSTD_CLEVEL_DEFAULT, ZSTD_maxCLevel.
      destruct (Z.eqb_spec level (-65535)) as [->|Hd].
      - cbn. right. right. right. auto.
      - destruct (Z.ltb_spec 22 level); cbn [orb].
        + repeat split; try discriminate; intros; lia.
        + destruct (Z.ltb_spec level 1).
          * repeat split; try discriminate; intros; lia.
          * right. right. right. repeat split; auto. }
    repeat split; try discriminate; intros E; inversion E; congruence.
Qed.

(** The arguments [LSM(...)] accepts, with an engine whose calls succeed:
    exactly those with [autoflush] from 0 to 1048576, [autocheckpoint] at
    least 1, [block_size] a power of two from 64 to 65536, [safety] from 0 to
    2, a logger that is callable if given, and [compress] either [None],
    ["none"], ["lz4"] with a level from 1 to 16 or ["zstd"] with a level from
    1 to 22 (or no level).  A refusal is a [ValueError] raised before any
    engine call.  An accepted construction leaves the connection initialized,
    at level 0, after [lsm_new], the creation of the mutex and 12 calls of
    [lsm_config], 13 with a compressor. *)
Theorem init_accepts_exactly (w : lsm_db) (args : init_args) :
  db_faults w = [] ->
  let accepted :=
    0 <= a_autoflush args <= LSM_MAX_AUTOFLUSH /\
    1 <= a_autocheckpoint args /\
    (exists k, 6 <= k <= 16 /\ a_block_size args = 2 ^ k) /\
    0 <= a_safety args <= 2 /\
    a_logger args <> Some false /\
    (a_compress args = PyNone \/ a_compress args = PyStr "none" \/
     (a_compress args = PyStr "lz4" /\
      (a_compress_level args = PYLSM_DEFAULT_COMPRESS_LEVEL \/
       1 <= a_compress_level args <= 16)) \/
     (a_compress args = PyStr "zstd" /\
      (a_compress_level args = PYLSM_DEFAULT_COMPRESS_LEVEL \/
       1 <= a_compress_level args <= 22))) in
  let db := snd (LSM_init w args) in
  (fst (LSM_init w args) = None <-> accepted) /\
  (fst (LSM_init w args) <> None ->
   fst (LSM_init w args) = Some ValueError /\ lsm db = w) /\
  (fst (LSM_init w args) = None ->
   state db = PY_LSM_INITIALIZED /\ tx_level db = 0 /\
   readonly db = a_readonly args /\ binary db = a_binary args /\
   db_trace (lsm db) =
     db_trace w ++ EvNew :: EvMutexNew ::
       repeat EvConfig (if compressed db =? 0 then 12 else 13)).
Proof.
  intros Hf accepted db. subst accepted db. unfold LSM_init.
  cbn [autoflush autocheckpoint block_size safety compress_level].
  unfold LSM_MAX_AUTOFLUSH.
  destruct (Z.ltb_spec 1048576 (a_autoflush args)).
  { split; [split; [discriminate|intros (? & _); lia]|].
    split; [intros _; split; reflexivity|discriminate]. }
  destruct (Z.ltb_spec (a_autoflush args) 0).
  { split; [split; [discriminate|intros (? & _); lia]|].
    split; [intros _; split; reflexivity|discriminate]. }
  destruct (Z.leb_spec (a_autocheckpoint args) 0).
  { split; [split; [discriminate|intros (_ & ? & _); lia]|].
    split; [intros _; split; reflexivity|discriminate]. }
  destruct (block_size_ok (a_block_size args)) eqn:Hb; cbn [negb].
  2:{ split; [split; [discriminate|]|].
      - intros (_ & _ & Hex & _). apply block_size_ok_spec in Hex. congruence.
      - split; [intros _; split; reflexivity|discriminate]. }
  apply block_size_ok_spec in Hb.
  unfold LSM_SAFETY_OFF, LSM_SAFETY_NORMAL, LSM_SAFETY_FULL.
  destruct (negb ((a_safety args =? 0) || (a_safety args =? 1) || (a_safety args =? 2)))
    eqn:Hsafe.
  { split; [split; [discriminate|]|].
    - intros (_ & _ & _ & Hs & _). apply negb_true_iff in Hsafe.
      apply orb_false_iff in Hsafe. destruct Hsafe as [Hsafe Hs2].
      apply orb_false_iff in Hsafe. destruct Hsafe as [Hs0 Hs1].
      apply Z.eqb_neq in Hs0, Hs1, Hs2. lia.
    - split; [intros _; split; reflexivity|discriminate]. }
  assert (Hsafety : 0 <= a_safety args <= 2).
  { apply negb_false_iff in Hsafe. apply orb_true_iff in Hsafe.
    destruct Hsafe as [Hsafe|Hsafe]; [apply orb_true_iff in Hsafe; destruct Hsafe as [E|E]|];
      [apply Z.eqb_eq in E|apply Z.eqb_eq in E|apply Z.eqb_eq in Hsafe]; lia. }
  pose proof (init_compress_spec (a_compress args) (a_compress_level args)) as Hc.
  destruct (init_compress (a_compress args) (a_compress_level args))
    as [[cid lvl]|e| |]; try contradiction.
  2:{ destruct Hc as (_ & Hn1 & Hn2 & Hlz & Hzs).
      split; [split; [discriminate|]|].
      - intros (_ & _ & _ & _ & _ & [Hx|[Hx|[[Hx Hl]|[Hx Hl]]]]); try contradiction.
        + destruct (Hlz Hx) as [A B]. destruct Hl; contradiction.
        + destruct (Hzs Hx) as [A B]. destruct Hl; contradiction.
      - split; [intros _; split; reflexivity|discriminate]. }
  assert (Hcomp : a_compress args = PyNone \/ a_compress args = PyStr "none" \/
     (a_compress args = PyStr "lz4" /\
      (a_compress_level args = PYLSM_DEFAULT_COMPRESS_LEVEL \/
       1 <= a_compress_level args <= 16)) \/
     (a_compress args = PyStr "zstd" /\
      (a_compress_level args = PYLSM_DEFAULT_COMPRESS_LEVEL \/
       1 <= a_compress_level args <= 22))).
  { destruct Hc as [(A & _)|[(A & _)|[(A & _ & B)|(A & _ & B)]]]; auto.
    - right. right. left. split; [exact A|]. destruct B as [[B _]|[B _]]; auto.
    - right. right. right. split; [exact A|]. destruct B as [[B _]|[B _]]; auto. }
  destruct (a_logger args) as [[|]|] eqn:Hlog.
  2:{ split; [split; [discriminate|]|].
      - intros (_ & _ & _ & _ & Hl & _). contradiction.
      - split; [intros _; split; reflexivity|discriminate]. }
  all: cbn [lsm set_lsm].
  all: rewrite (engine_call_ok EvNew w Hf); rewrite pylsm_error_ok; cbn [lsm set_lsm];
    rewrite (engine_call_ok EvMutexNew (log EvNew w) Hf); rewrite pylsm_error_ok;
    cbn [lsm set_lsm compressed].
  all: match goal with
       | |- context [lsm_config_all ?n ?d] =>
           destruct (lsm_config_all_ok n d Hf) as [Hrc Htr];
           destruct (lsm_config_all n d) as [rc e]; cbn [fst snd] in Hrc, Htr; subst rc
       end.
  all: rewrite pylsm_error_ok;
    cbn [fst snd state tx_level readonly binary lsm set_lsm compressed].
  all: split; [split; [intros _|reflexivity]|].
  all: try (split; [lia|]; split; [lia|]; split; [exact Hb|]; split; [exact Hsafety|];
            split; [discriminate|exact Hcomp]).
  all: split; [intros Hne; contradiction|intros _].
  all: split; [reflexivity|]; split; [reflexivity|]; split; [reflexivity|];
         split; [reflexivity|].
  all: rewrite Htr; cbn [log db_trace]; rewrite <- !app_assoc; reflexivity.
Qed.

Lemma init_accepts_exactly_witness :
  fst (LSM_init empty_engine default_args) = None /\
  state (snd (LSM_init empty_engine default_args)) = PY_LSM_INITIALIZED.
Proof.
  destruct (init_accepts_exactly empty_engine default_args eq_refl) as (Hiff & _ & Hok).
  assert (H : fst (LSM_init empty_engine default_args) = None).
  { apply Hiff. split; [vm_compute; split; discriminate|].
    split; [vm_compute; discriminate|].
    split; [exists 10; split; [lia|reflexivity]|].
    split; [vm_compute; split; discriminate|].
    split; [discriminate|left; reflexivity]. }
  destruct (Hok H) as (Hs & _).
  exact (conj H Hs).
Defined.


(** The level an accepted construction keeps is the one [init_compress]
    settled on. *)
Lemma LSM_init_compress_level (w : lsm_db) (args : init_args) :
  fst (LSM_init w args) = None ->
  exists cid,
    init_compress (a_compress args) (a_compress_level args)
    = PyOk (cid, compress_level (snd (LSM_init w args))).
Proof.
  unfold LSM_init.
  repeat match goal with
         | |- context [if ?c then (Some ValueError, _) else _] =>
             destruct c; [discriminate|]
         end.
  cbn [compress_level].
  destruct (init_compress _ _) as [[cid lvl]| | |]; try discriminate.
  destruct (match a_logger args with Some false => true | _ => false end);
    [discriminate|].
  destruct (engine_call EvNew _) as [rc1 e1]. cbn [lsm set_lsm].
  destruct (pylsm_error rc1); [discriminate|].
  destruct (engine_call EvMutexNew _) as [rc2 e2]. cbn [lsm set_lsm].
  destruct (pylsm_error rc2); [discriminate|].
  destruct (lsm_config_all _ _) as [rc3 e3]. intros _. exists cid. reflexivity.
Qed.

(** A connection constructed with [compress="lz4"] keeps a level from 1 to
    16, and 16 when no level is given.  The acceleration
    [(2 << (15 - level)) + 1] that [pylsm_lz4_xCompress] computes is
    [2^(16 - level) + 1] for the levels up to 15 and is not defined for
    level 16, where the shift count is negative. *)
Theorem lz4_level_16_has_no_acceleration (w : lsm_db) (args : init_args) :
  a_compress args = PyStr "lz4" -> fst (LSM_init w args) = None ->
  let lvl := compress_level (snd (LSM_init w args)) in
  1 <= lvl <= 16 /\
  (a_compress_level args = PYLSM_DEFAULT_COMPRESS_LEVEL -> lvl = 16) /\
  (lz4_acceleration lvl = None <-> lvl = 16) /\
  (lvl <= 15 -> lz4_acceleration lvl = Some (2 ^ (16 - lvl) + 1)).
Proof.
  intros Hc Hok lvl. destruct (LSM_init_compress_level w args Hok) as [cid E].
  fold lvl in E. pose proof (init_compress_spec (a_compress args) (a_compress_level args)) as S.
  rewrite E in S. rewrite Hc in S.
  destruct S as [(A & _)|[(A & _)|[(_ & _ & B)|(A & _)]]]; try discriminate.
  assert (Hrange : 1 <= lvl <= 16) by (destruct B as [[_ B]|[B1 B2]]; lia).
  assert (Hacc : lvl <= 15 -> lz4_acceleration lvl = Some (2 ^ (16 - lvl) + 1)).
  { intros Hl. unfold lz4_acceleration.
    destruct (Z.ltb_spec (15 - lvl) 0); [lia|].
    destruct (Z.leb_spec 30 (15 - lvl)); [lia|]. cbn [orb].
    rewrite Z.shiftl_mul_pow2 by lia.
    replace (16 - lvl) with (Z.succ (15 - lvl)) by lia.
    rewrite Z.pow_succ_r by lia. reflexivity. }
  split; [exact Hrange|]. split; [|split; [split|exact Hacc]].
  - intros Hd. destruct B as [[_ B]|[B1 B2]]; [exact B|].
    unfold PYLSM_DEFAULT_COMPRESS_LEVEL in Hd. lia.
  - intros Hn. destruct (Z.eq_dec lvl 16) as [e|n]; [exact e|].
    rewrite Hacc in Hn by lia. discriminate.
  - intros ->. reflexivity.
Qed.

Lemma lz4_level_16_has_no_acceleration_witness :
  let args := mk_init_args 1024 LSM_SAFETY_NORMAL 1024 2048 0 true None (PyStr "lz4")
                PYLSM_DEFAULT_COMPRESS_LEVEL in
  compress_level (snd (LSM_init empty_engine args)) = 16 /\
  lz4_acceleration (compress_level (snd (LSM_init empty_engine args))) = None.
Proof.
  intros args.
  assert (Hok : fst (LSM_init empty_engine args) = None) by (vm_compute; reflexivity).
  destruct (lz4_level_16_has_no_acceleration empty_engine args eq_refl Hok)
    as (_ & Hd & Hnone & _).
  split; [exact (Hd eq_refl)|]. apply Hnone. exact (Hd eq_refl).
Defined.


(** [db.open()].  On a connection that is opened or closed it raises
    [RuntimeError] and changes nothing.  On an initialized connection: if it
    returns, it returns [True] and the connection is opened; if it raises, the
    connection stays initialized; its engine calls are made without the
    mutex; and with an engine whose calls succeed it succeeds, calling
    [lsm_open], [lsm_flush] and [lsm_work] on a writable connection and
    [lsm_open] alone on a read-only one. *)
Theorem open_state_machine (db : LSM) :
  (state db = PY_LSM_OPENED \/ state db = PY_LSM_CLOSED ->
   LSM_open db = (PyRaise RuntimeError, db)) /\
  (state db = PY_LSM_INITIALIZED ->
   (forall r, fst (LSM_open db) = PyOk r ->
              r = Py_True /\ state (snd (LSM_open db)) = PY_LSM_OPENED) /\
   (forall e, fst (LSM_open db) = PyRaise e ->
              state (snd (LSM_open db)) = PY_LSM_INITIALIZED) /\
   calls_only (lsm db) (lsm (snd (LSM_open db))) /\
   (db_faults (lsm db) = [] ->
    fst (LSM_open db) = PyOk Py_True /\
    db_trace (lsm (snd (LSM_open db))) =
      db_trace (lsm db) ++
        (if readonly db =? 0 then [EvOpen; EvFlush; EvWork] else [EvOpen]))).
Proof.
  split.
  - intros [H|H]; unfold LSM_open; rewrite H; reflexivity.
  - intros Hs. unfold LSM_open. rewrite Hs.
    change (PY_LSM_INITIALIZED =? PY_LSM_OPENED) with false.
    change (PY_LSM_INITIALIZED =? PY_LSM_CLOSED) with false. cbv iota.
    split; [|split; [|split]].
    + intros r.
      destruct (engine_call EvOpen (lsm db)) as [rc1 e1]. cbn [set_lsm readonly lsm].
      destruct (pylsm_error rc1); [discriminate|].
      destruct (readonly db =? 0); [|intros E; inversion E; auto].
      destruct (engine_call EvFlush e1) as [rc2 e2]. cbn [set_lsm readonly lsm].
      destruct (pylsm_error rc2); [discriminate|].
      destruct (engine_call EvWork e2) as [rc3 e3].
      destruct (pylsm_error rc3); [discriminate|]. intros E; inversion E; auto.
    + intros e.
      destruct (engine_call EvOpen (lsm db)) as [rc1 e1]. cbn [set_lsm readonly lsm].
      destruct (pylsm_error rc1); [intros _; exact Hs|].
      destruct (readonly db =? 0); [|discriminate].
      destruct (engine_call EvFlush e1) as [rc2 e2]. cbn [set_lsm readonly lsm].
      destruct (pylsm_error rc2); [intros _; exact Hs|].
      destruct (engine_call EvWork e2) as [rc3 e3].
      destruct (pylsm_error rc3); [intros _; exact Hs|discriminate].
    + pose proof (calls_engine EvOpen (lsm db) eq_refl) as H1.
      destruct (engine_call EvOpen (lsm db)) as [rc1 e1]. cbn [snd set_lsm readonly lsm] in *.
      destruct (pylsm_error rc1); [exact H1|].
      destruct (readonly db =? 0); [|exact H1].
      pose proof (calls_engine EvFlush e1 eq_refl) as H2.
      destruct (engine_call EvFlush e1) as [rc2 e2]. cbn [snd set_lsm readonly lsm] in *.
      destruct (pylsm_error rc2); [exact (calls_trans _ _ _ H1 H2)|].
      pose proof (calls_engine EvWork e2 eq_refl) as H3.
      destruct (engine_call EvWork e2) as [rc3 e3]. cbn [snd] in H3.
      destruct (pylsm_error rc3);
        exact (calls_trans _ _ _ H1 (calls_trans _ _ _ H2 H3)).
    + intros Hf. rewrite (engine_call_ok EvOpen (lsm db) Hf). rewrite pylsm_error_ok.
      cbn [set_lsm readonly lsm].
      destruct (readonly db =? 0).
      * rewrite (engine_call_ok EvFlush (log EvOpen (lsm db)) Hf). rewrite pylsm_error_ok.
        cbn [set_lsm readonly lsm].
        rewrite (engine_call_ok EvWork (log EvFlush (log EvOpen (lsm db))) Hf).
        rewrite pylsm_error_ok. cbn. split; [reflexivity|]. apply app_one_three.
      * cbn. split; reflexivity.
Qed.

Lemma open_state_machine_witness :
  let db := snd (LSM_init empty_engine default_args) in
  fst (LSM_open db) = PyOk Py_True /\
  LSM_open (snd (LSM_open db)) = (PyRaise RuntimeError, snd (LSM_open db)).
Proof.
  intros db. destruct (open_state_machine db) as (_ & Hinit).
  destruct (Hinit eq_refl) as (_ & _ & _ & Hok).
  destruct (Hok eq_refl) as (H & _).
  split; [exact H|].
  destruct (open_state_machine (snd (LSM_open db))) as (Hopened & _).
  apply Hopened. left. vm_compute. reflexivity.
Defined.

(** ** A connection that is not writable *)

Lemma ensure_writable_cases (db : LSM) (e : PyExc) :
  pylsm_ensure_writable db = Some e ->
  (e = RuntimeError /\ state db <> PY_LSM_OPENED) \/
  (e = PermissionError /\ state db = PY_LSM_OPENED /\ readonly db <> 0).
Proof.
  unfold pylsm_ensure_writable, pylsm_ensure_opened.
  destruct (Z.eqb_spec (state db) PY_LSM_OPENED) as [Hs|Hs].
  - destruct (Z.eqb_spec (readonly db) 0) as [Hr|Hr]; cbn [negb]; [discriminate|].
    intros E. right. inversion E. auto.
  - intros E. left. inversion E. auto.
Qed.

Lemma run_op_unwritable (op : conn_op) (db : LSM) (hs : list LSMTransaction) (e : PyExc) :
  pylsm_ensure_writable db = Some e -> 0 <= tx_level db ->
  fst (run_op op (db, hs)) = db.
Proof.
  intros He H0.
  assert (Hc : forall n, LSM_commit_inner db n = (PyRaise e, db))
    by (intros n; unfold LSM_commit_inner; rewrite He; reflexivity).
  assert (Hr : forall n, LSM_rollback_inner db n = (PyRaise e, db))
    by (intros n; unfold LSM_rollback_inner; rewrite He; reflexivity).
  assert (Hb : LSM_begin db = (PyRaise e, db))
    by (unfold LSM_begin; rewrite He; reflexivity).
  destruct op as [| | |w| |i|i|i exc|i]; cbn [run_op fst snd].
  - rewrite Hb. reflexivity.
  - unfold LSM_commit. destruct (Z.ltb_spec (tx_level db) 0); [lia|]. rewrite Hc. reflexivity.
  - unfold LSM_rollback. destruct (Z.ltb_spec (tx_level db) 0); [lia|].
    rewrite Hr. reflexivity.
  - destruct w as [k v|k]; unfold apply_write, LSM_insert, LSM_delete; rewrite He;
      reflexivity.
  - unfold LSM_transaction. rewrite Hb. reflexivity.
  - destruct (nth_error hs i) as [tx|]; [|reflexivity].
    unfold LSMTransaction_commit. destruct (_ =? INT_MIN); [reflexivity|].
    rewrite Hc. reflexivity.
  - destruct (nth_error hs i) as [tx|]; [|reflexivity].
    unfold LSMTransaction_rollback. rewrite Hr. reflexivity.
  - destruct (nth_error hs i) as [tx|]; [|reflexivity].
    unfold LSMTransaction_ctx_exit. destruct (_ =? PY_LSM_CLOSED); [reflexivity|].
    cbn [txn_tx_level]. destruct (is_None exc).
    + destruct (_ =? INT_MIN); [reflexivity|]. rewrite Hc. reflexivity.
    + rewrite Hr. reflexivity.
  - destruct (nth_error hs i) as [tx|]; [|reflexivity].
    unfold LSMTransaction_dealloc. destruct (_ && _); [|reflexivity].
    rewrite Hr. reflexivity.
Qed.

(** A connection that is not opened, or opened read-only, with a tracked level
    that is not negative: [pylsm_ensure_writable] answers [RuntimeError] in
    the first case and [PermissionError] in the second, and that exception is
    what item assignment and deletion, [update], [delete_range] and [flush]
    raise, the connection staying as it is; no sequence of transaction calls
    and writes changes the connection or reaches the engine. *)
Theorem unwritable_connection_is_left_alone (db : LSM) (e : PyExc) :
  pylsm_ensure_writable db = Some e -> 0 <= tx_level db ->
  ((e = RuntimeError /\ state db <> PY_LSM_OPENED) \/
   (e = PermissionError /\ state db = PY_LSM_OPENED /\ readonly db <> 0)) /\
  (forall ops hs, fst (run_ops ops (db, hs)) = db) /\
  (forall k v, LSM_set_del_item db k v = (Some e, db)) /\
  (forall items, LSM_update db items = (PyRaise e, db)) /\
  (forall a b, LSM_delete_range db a b = (PyRaise e, db)) /\
  LSM_flush db = (PyRaise e, db).
Proof.
  intros He H0. split; [exact (ensure_writable_cases db e He)|].
  split; [|unfold LSM_set_del_item, LSM_update, LSM_delete_range, LSM_flush; rewrite He;
           repeat split].
  intros ops. induction ops as [|op ops IH]; intros hs; [reflexivity|].
  cbn [run_ops fold_left]. fold (run_ops ops (run_op op (db, hs))).
  pose proof (run_op_unwritable op db hs e He H0) as E.
  destruct (run_op op (db, hs)) as [db1 hs1]. cbn [fst] in E. subst db1. apply IH.
Qed.

Lemma unwritable_connection_is_left_alone_witness :
  let db := set_state PY_LSM_CLOSED demo_db4 in
  LSM_flush db = (PyRaise RuntimeError, db) /\
  fst (run_ops [OpBegin; OpWrite (WPut "a" "1"); OpCommit] (db, [])) = db.
Proof.
  intros db.
  assert (H0 : 0 <= tx_level db) by (vm_compute; discriminate).
  destruct (unwritable_connection_is_left_alone db RuntimeError eq_refl H0)
    as (_ & Hops & _ & _ & _ & Hflush).
  exact (conj Hflush (Hops _ [])).
Defined.


(** ** [insert] and item assignment on a text connection *)

(** On a text connection (opened, writable, engine calls succeeding),
    [db.insert] takes [bytes] arguments as it takes [str] ones and writes the
    record, while [db[key] = value] raises [ValueError] for a [bytes] key or
    value, [db[key]] raises [ValueError] for a [bytes] key, and [key in db]
    answers false for it, leaving [ValueError] set. *)
Theorem text_insert_accepts_bytes (db : LSM) (k v : string) :
  state db = PY_LSM_OPENED -> readonly db = 0 -> db_faults (lsm db) = [] ->
  binary db = false -> too_large k = false -> too_large v = false ->
  LSM_insert db (PyBytes k) (PyBytes v) = LSM_insert db (PyStr k) (PyStr v) /\
  fst (LSM_insert db (PyBytes k) (PyBytes v)) = PyOk PyNone /\
  db_store (lsm (snd (LSM_insert db (PyBytes k) (PyBytes v))))
  = store_insert k v (db_store (lsm db)) /\
  LSM_set_del_item db (PyBytes k) (Some (PyBytes v)) = (Some ValueError, db) /\
  LSM_set_del_item db (PyStr k) (Some (PyBytes v)) = (Some ValueError, db) /\
  fst (LSM_getitem db (PyBytes k)) = PyRaise ValueError /\
  fst (LSM_contains db (PyBytes k)) = PyOk (false, Some ValueError).
Proof.
  intros Hs Hr Hf Hb Hk Hv.
  unfold LSM_insert, LSM_set_del_item, LSM_getitem, LSM_contains, getitem_lookup.
  rewrite (ensure_writable_ok db Hs Hr), (ensure_opened_ok db Hs), Hb.
  cbn [parse_buffer str_or_bytes_check]. rewrite Hk, Hv.
  unfold lsm_insert. rewrite (engine_call_ok _ (lsm (LSM_MutexLock db)) Hf).
  cbn. repeat split.
Qed.

Lemma text_insert_accepts_bytes_witness :
  fst (LSM_insert demo_db (PyBytes "k") (PyBytes "v")) = PyOk PyNone /\
  LSM_set_del_item demo_db (PyBytes "k") (Some (PyBytes "v")) = (Some ValueError, demo_db).
Proof.
  destruct (text_insert_accepts_bytes demo_db "k" "v"
              eq_refl eq_refl eq_refl eq_refl eq_refl eq_refl)
    as (_ & H1 & _ & H2 & _).
  exact (conj H1 H2).
Defined.

(** ** Slice views: the end of the iteration, and where records are read *)

Lemma pylsm_error_not_stop (rc : Z) : pylsm_error rc <> Some StopIteration.
Proof.
  unfold pylsm_error.
  repeat match goal with
         | |- context [if ?c then _ else _] => destruct c; [discriminate|]
         end.
  discriminate.
Qed.

(** Once [__next__] of a slice view has raised [StopIteration], the view is
    closed, and every later [__next__] on an opened connection raises
    [StopIteration] again without touching view, connection or engine,
    whatever has been written in between. *)
Theorem slice_exhaustion_is_final (self self' : LSMSliceView) (db db' : LSM) :
  LSMSliceView_next self db = (PyRaise StopIteration, self', db') ->
  sv_state self' = PY_LSM_CLOSED /\
  forall db2, state db2 = PY_LSM_OPENED ->
              LSMSliceView_next self' db2 = (PyRaise StopIteration, self', db2).
Proof.
  intros H.
  assert (Hc : sv_state self' = PY_LSM_CLOSED).
  { unfold LSMSliceView_next, pylsm_ensure_opened in H.
    destruct (state db =? PY_LSM_OPENED); [|discriminate].
    destruct (Z.eqb_spec (sv_state self) PY_LSM_CLOSED) as [E|_].
    { inversion H; subst; exact E. }
    destruct (negb _); [discriminate|].
    destruct (sv_cursor self) as [c|]; [|discriminate].
    destruct (negb (lsm_csr_valid c)); [inversion H; reflexivity|].
    destruct (if sv_state self =? PY_LSM_OPENED then _ else _) as [[rc s1] e1].
    destruct rc as [rc| |]; try discriminate.
    destruct (rc =? -1); [inversion H; reflexivity|].
    pose proof (pylsm_error_not_stop rc) as Hns.
    destruct (pylsm_error rc) as [exc|]; [inversion H; subst; congruence|].
    destruct (sv_cursor s1) as [c'|]; [|discriminate].
    destruct (negb (lsm_csr_valid c')); [inversion H; reflexivity|].
    destruct (pylsm_cursor_items_fetch _ _ _). discriminate. }
  split; [exact Hc|]. intros db2 Hs2. unfold LSMSliceView_next.
  rewrite (ensure_opened_ok db2 Hs2), Hc. reflexivity.
Qed.

Lemma slice_exhaustion_is_final_witness :
  let view := mk_LSMSliceView (Some CsrEof) None None PY_LSM_OPENED 1
                PY_LSM_SLICE_FORWARD 0 in
  let view' := snd (fst (LSMSliceView_next view demo_db)) in
  LSMSliceView_next view' demo_db4 = (PyRaise StopIteration, view', demo_db4).
Proof.
  intros view view'.
  assert (H : LSMSliceView_next view demo_db = (PyRaise StopIteration, view', demo_db))
    by (vm_compute; reflexivity).
  destruct (slice_exhaustion_is_final view view' demo_db demo_db H) as (_ & Hnext).
  exact (Hnext demo_db4 eq_refl).
Defined.


Lemma items_fetch_trace (db : lsm_db) (c : lsm_cursor) (bin : bool) :
  db_trace (snd (pylsm_cursor_items_fetch db c bin)) = db_trace db ++ [EvCsrKey; EvCsrValue].
Proof.
  unfold pylsm_cursor_items_fetch.
  pose proof (lsm_csr_key_trace db c) as H1.
  destruct (lsm_csr_key db c) as [[rc1 db1] pKey]. cbn [fst snd] in H1.
  pose proof (lsm_csr_value_trace db1 c) as H2.
  destruct (lsm_csr_value db1 c) as [[rc2 db2] pValue]. cbn [fst snd] in *.
  rewrite H2, H1, <- app_assoc. reflexivity.
Qed.

Lemma held_after_then_call (t : list event) :
  forall (h : bool) (ev : event) (rest : list event),
    mutex_held_after h t = false -> is_call ev = true ->
    mutex_held_throughout h (t ++ ev :: rest) = false.
Proof.
  induction t as [|x t IH]; intros h ev rest Ha Hev.
  - cbn in Ha. subst h. destruct ev; try discriminate; reflexivity.
  - destruct x; cbn [app mutex_held_throughout mutex_held_after] in *;
      try (rewrite (IH h ev rest Ha Hev); apply andb_false_r);
      apply IH; assumption.
Qed.

Lemma pylsm_slice_first_calls (self : LSMSliceView) (db : lsm_db) :
  calls_only db (snd (pylsm_slice_first self db)).
Proof.
  unfold pylsm_slice_first. destruct (sv_cursor self) as [c|]; [|apply calls_refl].
  destruct (pStop self) as [k|].
  - pose proof (lsm_csr_cmp_calls db c k) as H.
    destruct (lsm_csr_cmp db c k) as [[rc db1] cmp]. cbn [fst snd] in H.
    destruct (negb _); [exact H|]. destruct (_ && _); [exact H|].
    destruct (_ && _); [exact H|]. destruct (negb _); exact H.
  - destruct (negb _); apply calls_refl.
Qed.

Lemma pylsm_slice_next_loop_calls (fuel : nat) :
  forall (self : LSMSliceView) (db : lsm_db),
    calls_only db (snd (pylsm_slice_next_loop fuel self db)).
Proof.
  induction fuel as [|fuel IH]; intros self db; [apply calls_refl|].
  cbn [pylsm_slice_next_loop].
  destruct (sv_cursor self) as [c|]; [|apply calls_refl].
  destruct (negb (lsm_csr_valid c)); [apply calls_refl|].
  assert (H1 : calls_only db
            (snd (fst (if direction self =? PY_LSM_SLICE_FORWARD then lsm_csr_next db c
                       else if direction self =? PY_LSM_SLICE_BACKWARD then lsm_csr_prev db c
                       else (LSM_OK, db, c))))).
  { destruct (_ =? _); [apply lsm_csr_next_calls|].
    destruct (_ =? _); [apply lsm_csr_prev_calls|apply calls_refl]. }
  destruct (if direction self =? PY_LSM_SLICE_FORWARD then _ else _) as [[rc db1] c1].
  cbn [fst snd] in H1.
  destruct (negb (rc =? 0)); [exact H1|].
  destruct (negb (lsm_csr_valid c1)); [exact H1|].
  cbn [pStop direction set_sv_cursor].
  destruct (pStop self) as [k|].
  - pose proof (lsm_csr_cmp_calls db1 c1 k) as H2.
    destruct (lsm_csr_cmp db1 c1 k) as [[rc2 db2] cmp]. cbn [fst snd] in H2.
    pose proof (calls_trans _ _ _ H1 H2) as H12.
    destruct (negb _); [exact H12|]. destruct (_ && _); [exact H12|].
    destruct (_ && _); [exact H12|].
    destruct (_ =? 0); [exact H12|]. destruct (_ =? 0); [exact H12|].
    exact (calls_trans _ _ _ H12 (IH _ _)).
  - destruct (_ =? 0); [exact H1|]. destruct (_ =? 0); [exact H1|].
    exact (calls_trans _ _ _ H1 (IH _ _)).
Qed.

(** Whatever the engine answers: whenever [__next__] of a slice view yields
    a record, the last things it has done are the engine calls [lsm_csr_key]
    and [lsm_csr_value] of [pylsm_cursor_items_fetch], made after the mutex
    has been released: the record is read from the engine while the mutex is
    free. *)
Theorem slice_reads_records_outside_the_mutex (self self' : LSMSliceView) (db db' : LSM)
    (r : PyObject) :
  LSMSliceView_next self db = (PyOk r, self', db') ->
  exists t,
    db_trace (lsm db') = db_trace (lsm db) ++ t ++ [EvCsrKey; EvCsrValue] /\
    mutex_held_after false t = false /\
    mutex_held_throughout false (t ++ [EvCsrKey; EvCsrValue]) = false.
Proof.
  intros H.
  unfold LSMSliceView_next in H.
  destruct (pylsm_ensure_opened db); [discriminate|].
  destruct (sv_state self =? PY_LSM_CLOSED); [discriminate|].
  destruct (negb _); [discriminate|].
  destruct (sv_cursor self) as [c|]; [|discriminate].
  destruct (negb (lsm_csr_valid c)); [discriminate|].
  assert (Hcalls : calls_only (lsm (LSM_MutexLock db))
            (snd (if sv_state self =? PY_LSM_OPENED
                  then let self0 := set_sv_state PY_LSM_ITERATING self in
                       let '(rc, e) := pylsm_slice_first self0 (lsm (LSM_MutexLock db)) in
                       (rc, self0, e)
                  else pylsm_slice_next self (lsm (LSM_MutexLock db))))).
  { destruct (_ =? PY_LSM_OPENED).
    - cbv zeta.
      pose proof (pylsm_slice_first_calls (set_sv_state PY_LSM_ITERATING self)
                    (lsm (LSM_MutexLock db))) as H1.
      destruct (pylsm_slice_first _ _) as [rc e]. exact H1.
    - apply pylsm_slice_next_loop_calls. }
  destruct (if sv_state self =? PY_LSM_OPENED then _ else _) as [[rc s1] e1].
  cbn [snd] in Hcalls.
  destruct (locked_section db e1 Hcalls) as (t & Ht & _ & Hafter).
  destruct rc as [rc| |]; try discriminate.
  destruct (rc =? -1); [discriminate|].
  destruct (pylsm_error rc); [discriminate|].
  destruct (sv_cursor s1) as [c'|]; [|discriminate].
  destruct (negb (lsm_csr_valid c')); [discriminate|].
  pose proof (items_fetch_trace (lsm (LSM_MutexLeave (set_lsm e1 (LSM_MutexLock db)))) c'
                (binary (LSM_MutexLeave (set_lsm e1 (LSM_MutexLock db))))) as Hfetch.
  destruct (pylsm_cursor_items_fetch _ _ _) as [result e]. cbn [snd] in Hfetch.
  inversion H; subst. exists t. split; [|split].
  - cbn [lsm set_lsm]. rewrite Hfetch, Ht. rewrite <- app_assoc. reflexivity.
  - exact Hafter.
  - apply held_after_then_call; [exact Hafter|reflexivity].
Qed.

Lemma slice_reads_records_outside_the_mutex_witness :
  let view := mk_LSMSliceView (Some (csr_first (db_store (lsm demo_db4)))) None None
                PY_LSM_OPENED 1 PY_LSM_SLICE_FORWARD 0 in
  exists t,
    db_trace (lsm (snd (LSMSliceView_next view demo_db4)))
    = db_trace (lsm demo_db4) ++ t ++ [EvCsrKey; EvCsrValue] /\
    mutex_held_throughout false (t ++ [EvCsrKey; EvCsrValue]) = false.
Proof.
  intros view.
  assert (H : LSMSliceView_next view demo_db4
              = (PyOk (PyPair (PyStr "k0") (PyStr "0")),
                 snd (fst (LSMSliceView_next view demo_db4)),
                 snd (LSMSliceView_next view demo_db4)))
    by (vm_compute; reflexivity).
  destruct (slice_reads_records_outside_the_mutex _ _ _ _ _ H) as (t & Ht & _ & Hm).
  exists t. exact (conj Ht Hm).
Defined.

(** ** A slice with step 0 *)

(** The second pull on a view of step 0: the counter is divided by the
    step. *)
Lemma next_step_zero (ps pe : option key) (b a : list item) (x y : item) (cnt : Z)
    (db : LSM) :
  state db = PY_LSM_OPENED -> db_faults (lsm db) = [] ->
  fst (fst (LSMSliceView_next
              (mk_LSMSliceView (Some (CsrAt (y :: b) x a)) ps None PY_LSM_ITERATING 0
                 PY_LSM_SLICE_BACKWARD cnt) db)) = PyUndefined.
Proof.
  intros Hs Hf. unfold LSMSliceView_next. rewrite (ensure_opened_ok db Hs).
  cbn [sv_state sv_cursor lsm_csr_valid negb].
  change (PY_LSM_ITERATING =? PY_LSM_CLOSED) with false.
  change (PY_LSM_ITERATING =? PY_LSM_OPENED) with false.
  change (PY_LSM_ITERATING =? PY_LSM_ITERATING) with true.
  cbn [orb negb]. cbv iota.
  unfold pylsm_slice_next. cbn [sv_cursor csr_span pylsm_slice_next_loop lsm_csr_valid negb
                                   direction].
  change (PY_LSM_SLICE_BACKWARD =? PY_LSM_SLICE_FORWARD) with false.
  change (PY_LSM_SLICE_BACKWARD =? PY_LSM_SLICE_BACKWARD) with true. cbv iota.
  rewrite (lsm_csr_prev_ok (lsm (LSM_MutexLock db))) by exact Hf.
  cbn [Z.eqb LSM_OK negb csr_prev lsm_csr_valid pStop set_sv_cursor step set_counter].
  reflexivity.
Qed.

(** [db[::0]] on an opened connection with at least two records and an engine
    whose calls succeed: the slice view is created with step 0, and
    collecting it ends in undefined behaviour, the counter of the view being
    divided by the step at the second pull. *)
Theorem step_zero_is_undefined (db : LSM) (fuel : nat) :
  state db = PY_LSM_OPENED -> db_faults (lsm db) = [] ->
  (2 <= List.length (db_store (lsm db)))%nat -> (2 <= fuel)%nat ->
  (exists view, LSMSliceView_init LSMSliceView_new db PyNone PyNone (PyLong 0) = PyOk view /\
                step view = 0) /\
  fst (slice_list fuel db PyNone PyNone (PyLong 0)) = PyUndefined.
Proof.
  intros Hs Hf Hlen Hfuel.
  pose proof (init_spec db None None 0 Hs ltac:(unfold LONG_MIN, LONG_MAX; lia)) as Hinit.
  cbn [bound_obj Z.ltb Z.compare] in Hinit.
  split; [eexists; split; [exact Hinit|reflexivity]|].
  unfold slice_list. rewrite Hinit.
  destruct (iter_spec PY_LSM_SLICE_BACKWARD None None 0 db (or_intror eq_refl) Hs Hf)
    as (c & db1 & Hiter & Hs1 & Hb1 & Hf1 & Hahead).
  rewrite Hiter. rewrite drop_while_none in Hahead.
  change (ordered PY_LSM_SLICE_BACKWARD (db_store (lsm db))) with (rev (db_store (lsm db)))
    in Hahead.
  assert (Hrev : exists x y r, rev (db_store (lsm db)) = x :: y :: r).
  { pose proof (length_rev (db_store (lsm db))) as Hl.
    destruct (rev (db_store (lsm db))) as [|x [|y r]]; cbn [List.length] in Hl;
      try lia. eauto. }
  destruct Hrev as (x & y & r & Hrev). rewrite Hrev in Hahead.
  destruct c as [|b x' a]; [discriminate|].
  cbn in Hahead. inversion Hahead; subst x' b. clear Hahead.
  destruct fuel as [|[|fuel]]; try lia.
  cbn [slice_drain].
  destruct (next_opened_spec PY_LSM_SLICE_BACKWARD None None 0 (or_intror eq_refl)
              (y :: r) a x db1 Hs1 Hf1) as (res & self' & db2 & Hnext & Hs2 & Hb2 & Hf2 & Hres).
  change (cursor_at PY_LSM_SLICE_BACKWARD a x (y :: r)) with (CsrAt (y :: r) x a) in *.
  rewrite Hnext. cbn [in_stop] in Hres. destruct Hres as [-> ->].
  pose proof (next_step_zero None None r a x y 0 db2 Hs2 Hf2) as Hz.
  destruct (LSMSliceView_next _ db2) as [[res2 self2] db3]. cbn [fst] in Hz. subst res2.
  reflexivity.
Qed.

Lemma step_zero_is_undefined_witness :
  fst (slice_list 2 demo_db4 PyNone PyNone (PyLong 0)) = PyUndefined.
Proof.
  assert (Hlen : (2 <= List.length (db_store (lsm demo_db4)))%nat) by (vm_compute; lia).
  destruct (step_zero_is_undefined demo_db4 2 eq_refl eq_refl Hlen (le_n 2)) as (_ & H).
  exact H.
Defined.

(** ** Moving a cursor and reading where it stands *)









